(** * Custom Clearance: the status state machine and its invoice mirror

    A shallow embedding of
    [custom_clearance/custom_clearance/doctype/custom_clearance/custom_clearance.py].
    Documents are records, the site database is a record of tables (lists of
    rows, in the order the query layer returns them), and every whitelisted
    entry point is a computation in a state-and-exception monad over the site. *)

From Stdlib Require Import String List Bool QArith.
From Stdlib Require Import Ascii DecimalString.
Import ListNotations.
Close Scope Q_scope.
Local Open Scope string_scope.

(** ** Python values *)

(** Truthiness of an optional string: [None] and [""] are falsy. *)
Definition truthy (o : option string) : bool :=
  match o with
  | Some s => negb (s =? "")
  | None => false
  end.

(** Truthiness of an optional number: [None] and [0] are falsy. *)
Definition truthy_num (o : option Q) : bool :=
  match o with
  | Some q => negb (Qeq_bool q 0%Q)
  | None => false
  end.

(** [x in [...]] on strings. *)
Definition str_in (x : string) (l : list string) : bool :=
  existsb (String.eqb x) l.

(** [a == b] where [a] may be [None] and [b] is a string. *)
Definition opt_eqb (a : option string) (b : string) : bool :=
  match a with
  | Some s => s =? b
  | None => false
  end.

(** [flt] on a value that is already a number. *)
Definition flt (o : option Q) : option Q := o.

(** ** Exceptions *)

Inductive exc_type : Type :=
| ValidationError
| PermissionError
| DoesNotExistError.

Record exception : Type := mk_exc { exc_kind : exc_type; exc_message : string }.

Inductive result (A : Type) : Type :=
| Ok (a : A)
| Raise (e : exception).
Arguments Ok {A} a.
Arguments Raise {A} e.

(** [frappe.throw(msg, exc)]: the exception class defaults to
    [ValidationError]. *)
Definition frappe_throw {A : Type} (msg : string) (exc : exc_type) : result A :=
  Raise (mk_exc exc msg).

(** ** Documents *)

(** A row of the [required_documents] child table.  [is_required] is a Check
    field (0 or 1) and is only ever tested for truthiness. *)
Record RequiredDocument : Type := {
  row_name : string;
  document_name : string;
  is_required : bool;
  row_status : string;
  reason : option string;
  attachment : option string
}.

Record CustomClearance : Type := {
  name : string;
  customer : string;
  status : string;
  sales_invoice : option string;
  payment_status : string;
  payment_date : option string;
  amount : option Q;
  additional_payment_amount : option Q;
  risk_status_comment : option string;
  first_payment_branch : option string;
  first_payment_account_number : option string;
  first_payment_custom_id_code : option string;
  second_payment_branch : option string;
  second_payment_account_number : option string;
  second_payment_custom_id_code : option string;
  required_documents : list RequiredDocument
}.

(** Field assignments, one per field the code writes. *)
Definition set_status (c : CustomClearance) (v : string) : CustomClearance :=
  {| name := name c; customer := customer c; status := v;
     sales_invoice := sales_invoice c; payment_status := payment_status c;
     payment_date := payment_date c; amount := amount c;
     additional_payment_amount := additional_payment_amount c;
     risk_status_comment := risk_status_comment c;
     first_payment_branch := first_payment_branch c;
     first_payment_account_number := first_payment_account_number c;
     first_payment_custom_id_code := first_payment_custom_id_code c;
     second_payment_branch := second_payment_branch c;
     second_payment_account_number := second_payment_account_number c;
     second_payment_custom_id_code := second_payment_custom_id_code c;
     required_documents := required_documents c |}.

Definition set_sales_invoice (c : CustomClearance) (v : option string) : CustomClearance :=
  {| name := name c; customer := customer c; status := status c;
     sales_invoice := v; payment_status := payment_status c;
     payment_date := payment_date c; amount := amount c;
     additional_payment_amount := additional_payment_amount c;
     risk_status_comment := risk_status_comment c;
     first_payment_branch := first_payment_branch c;
     first_payment_account_number := first_payment_account_number c;
     first_payment_custom_id_code := first_payment_custom_id_code c;
     second_payment_branch := second_payment_branch c;
     second_payment_account_number := second_payment_account_number c;
     second_payment_custom_id_code := second_payment_custom_id_code c;
     required_documents := required_documents c |}.

Definition set_payment_status (c : CustomClearance) (v : string) : CustomClearance :=
  {| name := name c; customer := customer c; status := status c;
     sales_invoice := sales_invoice c; payment_status := v;
     payment_date := payment_date c; amount := amount c;
     additional_payment_amount := additional_payment_amount c;
     risk_status_comment := risk_status_comment c;
     first_payment_branch := first_payment_branch c;
     first_payment_account_number := first_payment_account_number c;
     first_payment_custom_id_code := first_payment_custom_id_code c;
     second_payment_branch := second_payment_branch c;
     second_payment_account_number := second_payment_account_number c;
     second_payment_custom_id_code := second_payment_custom_id_code c;
     required_documents := required_documents c |}.

Definition set_payment_date (c : CustomClearance) (v : option string) : CustomClearance :=
  {| name := name c; customer := customer c; status := status c;
     sales_invoice := sales_invoice c; payment_status := payment_status c;
     payment_date := v; amount := amount c;
     additional_payment_amount := additional_payment_amount c;
     risk_status_comment := risk_status_comment c;
     first_payment_branch := first_payment_branch c;
     first_payment_account_number := first_payment_account_number c;
     first_payment_custom_id_code := first_payment_custom_id_code c;
     second_payment_branch := second_payment_branch c;
     second_payment_account_number := second_payment_account_number c;
     second_payment_custom_id_code := second_payment_custom_id_code c;
     required_documents := required_documents c |}.

Definition set_amount (c : CustomClearance) (v : option Q) : CustomClearance :=
  {| name := name c; customer := customer c; status := status c;
     sales_invoice := sales_invoice c; payment_status := payment_status c;
     payment_date := payment_date c; amount := v;
     additional_payment_amount := additional_payment_amount c;
     risk_status_comment := risk_status_comment c;
     first_payment_branch := first_payment_branch c;
     first_payment_account_number := first_payment_account_number c;
     first_payment_custom_id_code := first_payment_custom_id_code c;
     second_payment_branch := second_payment_branch c;
     second_payment_account_number := second_payment_account_number c;
     second_payment_custom_id_code := second_payment_custom_id_code c;
     required_documents := required_documents c |}.

Definition set_additional_payment_amount (c : CustomClearance) (v : option Q) : CustomClearance :=
  {| name := name c; customer := customer c; status := status c;
     sales_invoice := sales_invoice c; payment_status := payment_status c;
     payment_date := payment_date c; amount := amount c;
     additional_payment_amount := v;
     risk_status_comment := risk_status_comment c;
     first_payment_branch := first_payment_branch c;
     first_payment_account_number := first_payment_account_number c;
     first_payment_custom_id_code := first_payment_custom_id_code c;
     second_payment_branch := second_payment_branch c;
     second_payment_account_number := second_payment_account_number c;
     second_payment_custom_id_code := second_payment_custom_id_code c;
     required_documents := required_documents c |}.

Definition set_risk_status_comment (c : CustomClearance) (v : option string) : CustomClearance :=
  {| name := name c; customer := customer c; status := status c;
     sales_invoice := sales_invoice c; payment_status := payment_status c;
     payment_date := payment_date c; amount := amount c;
     additional_payment_amount := additional_payment_amount c;
     risk_status_comment := v;
     first_payment_branch := first_payment_branch c;
     first_payment_account_number := first_payment_account_number c;
     first_payment_custom_id_code := first_payment_custom_id_code c;
     second_payment_branch := second_payment_branch c;
     second_payment_account_number := second_payment_account_number c;
     second_payment_custom_id_code := second_payment_custom_id_code c;
     required_documents := required_documents c |}.

(** The three banking fields of the first payment, then of the second. *)
Definition set_first_payment (c : CustomClearance) (b a i : option string) : CustomClearance :=
  {| name := name c; customer := customer c; status := status c;
     sales_invoice := sales_invoice c; payment_status := payment_status c;
     payment_date := payment_date c; amount := amount c;
     additional_payment_amount := additional_payment_amount c;
     risk_status_comment := risk_status_comment c;
     first_payment_branch := b;
     first_payment_account_number := a;
     first_payment_custom_id_code := i;
     second_payment_branch := second_payment_branch c;
     second_payment_account_number := second_payment_account_number c;
     second_payment_custom_id_code := second_payment_custom_id_code c;
     required_documents := required_documents c |}.

Definition set_second_payment (c : CustomClearance) (b a i : option string) : CustomClearance :=
  {| name := name c; customer := customer c; status := status c;
     sales_invoice := sales_invoice c; payment_status := payment_status c;
     payment_date := payment_date c; amount := amount c;
     additional_payment_amount := additional_payment_amount c;
     risk_status_comment := risk_status_comment c;
     first_payment_branch := first_payment_branch c;
     first_payment_account_number := first_payment_account_number c;
     first_payment_custom_id_code := first_payment_custom_id_code c;
     second_payment_branch := b;
     second_payment_account_number := a;
     second_payment_custom_id_code := i;
     required_documents := required_documents c |}.

Definition set_required_documents (c : CustomClearance) (v : list RequiredDocument) : CustomClearance :=
  {| name := name c; customer := customer c; status := status c;
     sales_invoice := sales_invoice c; payment_status := payment_status c;
     payment_date := payment_date c; amount := amount c;
     additional_payment_amount := additional_payment_amount c;
     risk_status_comment := risk_status_comment c;
     first_payment_branch := first_payment_branch c;
     first_payment_account_number := first_payment_account_number c;
     first_payment_custom_id_code := first_payment_custom_id_code c;
     second_payment_branch := second_payment_branch c;
     second_payment_account_number := second_payment_account_number c;
     second_payment_custom_id_code := second_payment_custom_id_code c;
     required_documents := v |}.

(** ** [CustomClearance.validate] *)

(** The loop of [validate] over [required_documents]: returns
    [(has_required_docs, all_mandatory_accepted)], leaving the loop at the
    first mandatory row whose status is not ["Accepted"]. *)
Fixpoint scan_required_docs (rows : list RequiredDocument) (has_required_docs : bool)
  : bool * bool :=
  match rows with
  | [] => (has_required_docs, true)
  | req_doc :: rest =>
      if is_required req_doc then
        if negb (row_status req_doc =? "Accepted") then (true, false)
        else scan_required_docs rest true
      else scan_required_docs rest has_required_docs
  end.

(** A non-empty child table is truthy. *)
Definition nonempty {A : Type} (l : list A) : bool :=
  match l with [] => false | _ :: _ => true end.

(** The auto-promotion block at the head of [validate]. *)
Definition auto_promote (self : CustomClearance) : CustomClearance :=
  if (status self =? "Document Submitting") && nonempty (required_documents self) then
    let '(has_required_docs, all_mandatory_accepted) :=
      scan_required_docs (required_documents self) false in
    if has_required_docs && all_mandatory_accepted
    then set_status self "In Review"
    else self
  else self.

(** [Document.has_value_changed("status")] of the host framework: true when
    there is no document before save, otherwise whether the values differ. *)
Definition has_value_changed_status
  (self : CustomClearance) (doc_before_save : option CustomClearance) : bool :=
  match doc_before_save with
  | None => true
  | Some previous => negb (status previous =? status self)
  end.

Definition validate_status_transition
  (self : CustomClearance) (doc_before_save : option CustomClearance) : result unit :=
  match
    match doc_before_save with
    | Some before =>
        if (status self =? "Risk Analysis")
           && negb (str_in (status before) ["In Review"; "Risk Analysis"])
        then frappe_throw "Status can only be changed to Risk Analysis from In Review"
               ValidationError
        else Ok tt
    | None => Ok tt
    end
  with
  | Raise e => Raise e
  | Ok _ =>
      match doc_before_save with
      | Some before =>
          if (status self =? "Cleared")
             && negb (str_in (status before) ["Risk Analysis"; "Cleared"])
          then frappe_throw "Status can only be changed to Cleared from Risk Analysis"
                 ValidationError
          else Ok tt
      | None => Ok tt
      end
  end.

(** [validate] mutates [self]; the model returns the document as it stands
    when [validate] returns, or the exception it raised. *)
Definition validate
  (self : CustomClearance) (doc_before_save : option CustomClearance)
  : result CustomClearance :=
  let self := auto_promote self in
  if has_value_changed_status self doc_before_save then
    match validate_status_transition self doc_before_save with
    | Ok _ => Ok self
    | Raise e => Raise e
    end
  else Ok self.

(** ** Collaborator documents *)

Record DynamicLink : Type := { link_doctype : string; link_name : string }.

Record Contact : Type := {
  contact_name : string;
  contact_user : option string;
  contact_email : option string;
  links : list DynamicLink
}.

Record PortalUser : Type := {
  pu_user : string;
  pu_parent : string;
  pu_parenttype : string
}.

Record User : Type := { user_name : string; user_email : string }.

Record Item : Type := { item_name : string; item_code : string }.

Record SalesInvoiceItem : Type := {
  sii_item_code : string;
  qty : Q;
  rate : Q
}.

(** [docstatus] 0 is an unsubmitted draft. *)
Record SalesInvoice : Type := {
  si_name : string;
  si_status : string;
  docstatus : nat;
  si_customer : string;
  posting_date : string;
  due_date : string;
  items : list SalesInvoiceItem;
  custom_custom_clearance : option string
}.

Record NotificationLog : Type := {
  for_user : string;
  nl_type : string;
  document_type : string;
  nl_document_name : string;
  subject : string;
  email_content : string
}.

Record Response : Type := { success : bool; message : string }.

(** ** The site: session and database *)

Record Site : Type := {
  session_user : string;
  today : string;
  get_roles : string -> list string;
  sales_invoice_has_custom_custom_clearance : bool;
  tabCustomClearance : list CustomClearance;
  tabSalesInvoice : list SalesInvoice;
  tabItem : list Item;
  tabContact : list Contact;
  tabPortalUser : list PortalUser;
  tabUser : list User;
  tabNotificationLog : list NotificationLog;
  tabErrorLog : list (string * string)
}.

Definition with_tabCustomClearance (s : Site) (t : list CustomClearance) : Site :=
  {| session_user := session_user s; today := today s; get_roles := get_roles s;
     sales_invoice_has_custom_custom_clearance := sales_invoice_has_custom_custom_clearance s;
     tabCustomClearance := t; tabSalesInvoice := tabSalesInvoice s;
     tabItem := tabItem s; tabContact := tabContact s;
     tabPortalUser := tabPortalUser s; tabUser := tabUser s;
     tabNotificationLog := tabNotificationLog s; tabErrorLog := tabErrorLog s |}.

Definition with_tabSalesInvoice (s : Site) (t : list SalesInvoice) : Site :=
  {| session_user := session_user s; today := today s; get_roles := get_roles s;
     sales_invoice_has_custom_custom_clearance := sales_invoice_has_custom_custom_clearance s;
     tabCustomClearance := tabCustomClearance s; tabSalesInvoice := t;
     tabItem := tabItem s; tabContact := tabContact s;
     tabPortalUser := tabPortalUser s; tabUser := tabUser s;
     tabNotificationLog := tabNotificationLog s; tabErrorLog := tabErrorLog s |}.

Definition with_tabNotificationLog (s : Site) (t : list NotificationLog) : Site :=
  {| session_user := session_user s; today := today s; get_roles := get_roles s;
     sales_invoice_has_custom_custom_clearance := sales_invoice_has_custom_custom_clearance s;
     tabCustomClearance := tabCustomClearance s; tabSalesInvoice := tabSalesInvoice s;
     tabItem := tabItem s; tabContact := tabContact s;
     tabPortalUser := tabPortalUser s; tabUser := tabUser s;
     tabNotificationLog := t; tabErrorLog := tabErrorLog s |}.

Definition with_tabErrorLog (s : Site) (t : list (string * string)) : Site :=
  {| session_user := session_user s; today := today s; get_roles := get_roles s;
     sales_invoice_has_custom_custom_clearance := sales_invoice_has_custom_custom_clearance s;
     tabCustomClearance := tabCustomClearance s; tabSalesInvoice := tabSalesInvoice s;
     tabItem := tabItem s; tabContact := tabContact s;
     tabPortalUser := tabPortalUser s; tabUser := tabUser s;
     tabNotificationLog := tabNotificationLog s; tabErrorLog := t |}.

(** ** The request monad: site state, and exceptions that abort the request *)

Definition M (A : Type) : Type := Site -> result (A * Site).

Definition ret {A : Type} (a : A) : M A := fun s => Ok (a, s).

Definition bind {A B : Type} (m : M A) (k : A -> M B) : M B :=
  fun s =>
    match m s with
    | Ok (a, s') => k a s'
    | Raise e => Raise e
    end.

Definition throw {A : Type} (msg : string) (exc : exc_type) : M A :=
  fun _ => frappe_throw msg exc.

Definition gets {A : Type} (f : Site -> A) : M A := fun s => Ok (f s, s).

Definition modify (f : Site -> Site) : M unit := fun s => Ok (tt, f s).

Definition lift {A : Type} (r : result A) : M A :=
  fun s => match r with Ok a => Ok (a, s) | Raise e => Raise e end.

Definition when (b : bool) (m : M unit) : M unit := if b then m else ret tt.

(** [try: m except Exception as e: h e].  The handler starts from the state
    at the head of the [try] block: nothing the failed block did is kept. *)
Definition try_except {A : Type} (m : M A) (h : exception -> M A) : M A :=
  fun s =>
    match m s with
    | Ok r => Ok r
    | Raise e => h e s
    end.

Declare Scope request_scope.
Delimit Scope request_scope with request.
Notation "x <- c ;; k" := (bind c (fun x => k))
  (at level 61, c at next level, right associativity) : request_scope.
Notation "c ;;; k" := (bind c (fun _ => k))
  (at level 61, right associativity) : request_scope.
Local Open Scope request_scope.

(** ** Database access for Custom Clearance *)

(** The row with primary key [n], if any. *)
Definition lookup_clearance (n : string) (s : Site) : option CustomClearance :=
  find (fun c => name c =? n) (tabCustomClearance s).

(** [frappe.get_doc("Custom Clearance", n)]. *)
Definition get_doc (n : string) : M CustomClearance :=
  fun s =>
    match lookup_clearance n s with
    | Some c => Ok (c, s)
    | None => frappe_throw ("Custom Clearance " ++ n ++ " not found") DoesNotExistError
    end.

(** A direct field write on the row named [n]
    ([frappe.db.set_value] / [Document.db_set]): no validation runs, and a
    missing row is not an error. *)
Definition update_row (n : string) (f : CustomClearance -> CustomClearance) (s : Site) : Site :=
  with_tabCustomClearance s
    (map (fun c => if name c =? n then f c else c) (tabCustomClearance s)).

Definition db_set_value (n : string) (f : CustomClearance -> CustomClearance) : M unit :=
  modify (update_row n f).

(** Writing a whole document back: its row is replaced, or added when the
    document is new. *)
Definition write_doc (doc : CustomClearance) (s : Site) : Site :=
  match lookup_clearance (name doc) s with
  | Some _ => update_row (name doc) (fun _ => doc) s
  | None => with_tabCustomClearance s (tabCustomClearance s ++ [doc])
  end.

(** [doc.save()]: the document before save is loaded from the database,
    [validate] runs, and only then is the document written.  The host
    framework's own checks (permissions, mandatory fields, links) are not part
    of this repository and are taken to pass.  Returns the document as
    [validate] left it. *)
Definition save (doc : CustomClearance) : M CustomClearance :=
  fun s =>
    match validate doc (lookup_clearance (name doc) s) with
    | Ok doc' => Ok (doc', write_doc doc' s)
    | Raise e => Raise e
    end.

(** [frappe.db.commit()]: the state of the model is the committed one. *)
Definition db_commit : M unit := ret tt.

(** ** Resolving the customer linked to a user *)

Definition get_doc_contact (n : string) : M Contact :=
  fun s =>
    match find (fun c => contact_name c =? n) (tabContact s) with
    | Some c => Ok (c, s)
    | None => frappe_throw ("Contact " ++ n ++ " not found") DoesNotExistError
    end.

(** The loop over [contact_doc.links]: the first link to a Customer. *)
Fixpoint first_customer_link (ls : list DynamicLink) : option string :=
  match ls with
  | [] => None
  | link :: rest =>
      if link_doctype link =? "Customer" then Some (link_name link)
      else first_customer_link rest
  end.

(** The block each entry point repeats: contact link first, then portal
    user. *)
Definition linked_customer (user : string) : M (option string) :=
  contact <- gets (fun s =>
    option_map contact_name
      (find (fun c => opt_eqb (contact_user c) user) (tabContact s))) ;;
  customer <-
    match contact with
    | Some contact_id =>
        if truthy contact then
          contact_doc <- get_doc_contact contact_id ;;
          ret (first_customer_link (links contact_doc))
        else ret None
    | None => ret None
    end ;;
  if negb (truthy customer) then
    portal_users <- gets (fun s =>
      firstn 1 (filter (fun p => (pu_user p =? user) && (pu_parenttype p =? "Customer"))
                       (tabPortalUser s))) ;;
    match portal_users with
    | p :: _ => ret (Some (pu_parent p))
    | [] => ret customer
    end
  else ret customer.

(** ** Row updates on [required_documents] *)

Definition set_row_attachment (r : RequiredDocument) (v : option string) : RequiredDocument :=
  {| row_name := row_name r; document_name := document_name r;
     is_required := is_required r; row_status := row_status r;
     reason := reason r; attachment := v |}.

Definition set_row_status (r : RequiredDocument) (v : string) : RequiredDocument :=
  {| row_name := row_name r; document_name := document_name r;
     is_required := is_required r; row_status := v;
     reason := reason r; attachment := attachment r |}.

Definition set_row_reason (r : RequiredDocument) (v : option string) : RequiredDocument :=
  {| row_name := row_name r; document_name := document_name r;
     is_required := is_required r; row_status := row_status r;
     reason := v; attachment := attachment r |}.

(** What [update_document_attachment] does to the row it finds. *)
Definition attach (req_doc : RequiredDocument) (file_url : string) (is_reupload : bool)
  : RequiredDocument :=
  let req_doc := set_row_attachment req_doc (Some file_url) in
  if is_reupload && (row_status req_doc =? "Declined")
  then set_row_reason (set_row_status req_doc "In Review") None
  else req_doc.

(** What [update_document_status] does to the row it finds. *)
Definition judge (req_doc : RequiredDocument) (new_status : string) (new_reason : option string)
  : RequiredDocument :=
  let req_doc := set_row_status req_doc new_status in
  if truthy new_reason then set_row_reason req_doc new_reason else req_doc.

(** The search loop both entry points share: the first row whose name is
    [target] is rewritten by [f] and the loop is left; the second component is
    the [found] flag. *)
Fixpoint update_found_row (rows : list RequiredDocument) (target : string)
  (f : RequiredDocument -> RequiredDocument) : list RequiredDocument * bool :=
  match rows with
  | [] => ([], false)
  | req_doc :: rest =>
      if row_name req_doc =? target then (f req_doc :: rest, true)
      else
        let '(rest', found) := update_found_row rest target f in
        (req_doc :: rest', found)
  end.

(** The permission block of the customer-or-administrator entry points. *)
Definition require_linked_customer (clearance : CustomClearance) (msg : string) : M unit :=
  user <- gets session_user ;;
  if negb (user =? "Administrator") then
    customer_id <- linked_customer user ;;
    when (negb (truthy customer_id) || negb (opt_eqb customer_id (customer clearance)))
      (throw msg PermissionError)
  else ret tt.

(** ** Whitelisted entry points and invoice hooks *)

Definition update_document_attachment
  (clearance_name target file_url : string) (is_reupload : bool) : M Response :=
  user <- gets session_user ;;
  when (user =? "Guest") (throw "Please login to upload documents" PermissionError) ;;;
  clearance <- get_doc clearance_name ;;
  require_linked_customer clearance
    "You don't have permission to update this Custom Clearance" ;;;
  let '(rows, found) :=
    update_found_row (required_documents clearance) target
      (fun req_doc => attach req_doc file_url is_reupload) in
  let clearance := set_required_documents clearance rows in
  when (negb found) (throw "Document row not found" DoesNotExistError) ;;;
  _ <- save clearance ;;
  db_commit ;;;
  ret {| success := true; message := "Document attached successfully" |}.

(** The re-scan after the save in [update_document_status]: there is no
    [has_required_docs] flag here. *)
Fixpoint all_mandatory_accepted (rows : list RequiredDocument) : bool :=
  match rows with
  | [] => true
  | req_doc :: rest =>
      if is_required req_doc then
        if negb (row_status req_doc =? "Accepted") then false
        else all_mandatory_accepted rest
      else all_mandatory_accepted rest
  end.

(** The permission block of [update_document_status]: [is_customer] is set
    for the linked customer and not read afterwards; any other caller but the
    administrator is turned away. *)
Definition document_status_permission (clearance : CustomClearance) : M unit :=
  user <- gets session_user ;;
  if negb (user =? "Administrator") then
    customer_id <- linked_customer user ;;
    if truthy customer_id && opt_eqb customer_id (customer clearance) then ret tt
    else
      when (negb (truthy customer_id) || negb (opt_eqb customer_id (customer clearance)))
        (throw "You don't have permission to update this Custom Clearance" PermissionError)
  else ret tt.

Definition update_document_status
  (clearance_name target new_status : string) (new_reason : option string) : M Response :=
  user <- gets session_user ;;
  when (user =? "Guest") (throw "Please login to update document status" PermissionError) ;;;
  clearance <- get_doc clearance_name ;;
  document_status_permission clearance ;;;
  let '(rows, found) :=
    update_found_row (required_documents clearance) target
      (fun req_doc => judge req_doc new_status new_reason) in
  let clearance := set_required_documents clearance rows in
  when (negb found) (throw "Document row not found" DoesNotExistError) ;;;
  clearance <- save clearance ;;
  db_commit ;;;
  when ((status clearance =? "Document Submitting")
        && nonempty (required_documents clearance)
        && all_mandatory_accepted (required_documents clearance))
    (db_set_value (name clearance) (fun c => set_status c "Review")) ;;;
  ret {| success := true; message := "Document status updated successfully" |}.

(** The permission block of [update_clearance_status]: only a caller linked
    to the customer of this very clearance is turned away. *)
Definition clearance_status_permission (clearance : CustomClearance) : M unit :=
  user <- gets session_user ;;
  if negb (user =? "Administrator") then
    customer_id <- linked_customer user ;;
    let is_customer := truthy customer_id && opt_eqb customer_id (customer clearance) in
    when is_customer
      (throw "You don't have permission to change the clearance status" PermissionError)
  else ret tt.

Definition update_clearance_status
  (clearance_name new_status : string) (comment : option string)
  (extra_amount : option Q) : M Response :=
  user <- gets session_user ;;
  when (user =? "Guest") (throw "Please login to update status" PermissionError) ;;;
  clearance <- get_doc clearance_name ;;
  clearance_status_permission clearance ;;;
  let clearance := set_status clearance new_status in
  let clearance :=
    if truthy comment then set_risk_status_comment clearance comment else clearance in
  let clearance :=
    if truthy_num extra_amount
    then set_additional_payment_amount clearance (flt extra_amount)
    else clearance in
  _ <- save clearance ;;
  db_commit ;;;
  ret {| success := true; message := "Status updated successfully" |}.

(** [frappe.db.get_value("Custom Clearance", {"sales_invoice": n}, "name")]. *)
Definition clearance_of_invoice (n : string) (s : Site) : option string :=
  option_map name (find (fun c => opt_eqb (sales_invoice c) n) (tabCustomClearance s)).

(** The mapping from invoice status to payment status. *)
Definition payment_status_of (invoice_status : string) : string :=
  if invoice_status =? "Paid" then "Paid"
  else if str_in invoice_status ["Partly Paid"; "Partly Paid and Discounted"]
  then "Partially Paid"
  else if str_in invoice_status
            ["Draft"; "Unpaid"; "Overdue"; "Unpaid and Discounted";
             "Overdue and Discounted"; "Submitted"; "Cancelled";
             "Return"; "Credit Note Issued"; "Internal Transfer"]
  then "Pending"
  else "Pending".

Definition update_clearance_payment_status (doc : SalesInvoice) (method : string) : M unit :=
  custom_clearance <- gets (clearance_of_invoice (si_name doc)) ;;
  match custom_clearance with
  | Some cc =>
      if truthy custom_clearance then
        let new_payment_status := payment_status_of (si_status doc) in
        db_set_value cc (fun c => set_payment_status c new_payment_status) ;;;
        d <- gets today ;;
        when (si_status doc =? "Paid")
          (db_set_value cc (fun c => set_payment_date c (Some d)))
      else ret tt
  | None => ret tt
  end.

Definition handle_sales_invoice_cancel (doc : SalesInvoice) (method : string) : M unit :=
  custom_clearance <- gets (clearance_of_invoice (si_name doc)) ;;
  match custom_clearance with
  | Some cc =>
      if truthy custom_clearance then
        db_set_value cc (fun c => set_sales_invoice c None) ;;;
        db_set_value cc (fun c => set_payment_status c "Pending") ;;;
        db_set_value cc (fun c => set_payment_date c None) ;;;
        current_status <- gets (fun s => option_map status (lookup_clearance cc s)) ;;
        when (match current_status with
              | Some st => str_in st ["Green"; "Yellow"; "Red"]
              | None => false
              end)
          (db_set_value cc (fun c => set_status c "Review"))
      else ret tt
  | None => ret tt
  end.

(** ** Invoice creation *)

Section SalesInvoiceCreation.

(** The host framework's naming series for a Sales Invoice about to be
    inserted, and its rendering of a link to a document. *)
Variable autoname : SalesInvoice -> Site -> string.
Variable get_desk_link : string -> string -> string.

Definition with_si_name (doc : SalesInvoice) (n : string) : SalesInvoice :=
  {| si_name := n; si_status := si_status doc;
     docstatus := docstatus doc; si_customer := si_customer doc;
     posting_date := posting_date doc; due_date := due_date doc;
     items := items doc;
     custom_custom_clearance := custom_custom_clearance doc |}.

(** [sales_invoice.insert()]: the draft gets its name and is added to the
    table; the inserted document is returned. *)
Definition insert_sales_invoice (doc : SalesInvoice) : M SalesInvoice :=
  fun s =>
    let doc := with_si_name doc (autoname doc s) in
    Ok (doc, with_tabSalesInvoice s (tabSalesInvoice s ++ [doc])).

(** [flt(custom_clearance.amount) if custom_clearance.amount else 0]. *)
Definition invoice_rate (c : CustomClearance) : Q :=
  if truthy_num (amount c) then
    match flt (amount c) with Some q => q | None => 0%Q end
  else 0%Q.

(** The document built for the new invoice, with the link back to the
    clearance when the custom column exists. *)
Definition new_sales_invoice (custom_clearance : CustomClearance)
  (service_item : string) (d : string) (has_column : bool) : SalesInvoice :=
  {| si_name := ""; si_status := "Draft"; docstatus := 0;
     si_customer := customer custom_clearance;
     posting_date := d; due_date := d;
     items := [ {| sii_item_code := service_item; qty := 1%Q;
                   rate := invoice_rate custom_clearance |} ];
     custom_custom_clearance :=
       if has_column then Some (name custom_clearance) else None |}.

Definition create_sales_invoice (source_name : string) : M string :=
  custom_clearance <- get_doc source_name ;;
  when (truthy (sales_invoice custom_clearance))
    (throw ("Sales Invoice already created: "
            ++ get_desk_link "Sales Invoice"
                 (match sales_invoice custom_clearance with Some n => n | None => "" end))
           ValidationError) ;;;
  service_item <- gets (fun s =>
    option_map item_name
      (find (fun i => item_code i =? "Custom Clearance Service") (tabItem s))) ;;
  match service_item with
  | Some service_item_name =>
      if truthy service_item then
        d <- gets today ;;
        has_column <- gets sales_invoice_has_custom_custom_clearance ;;
        inserted <- insert_sales_invoice
          (new_sales_invoice custom_clearance service_item_name d has_column) ;;
        db_set_value (name custom_clearance)
          (fun c => set_sales_invoice c (Some (si_name inserted))) ;;;
        ret (si_name inserted)
      else
        throw "Custom Clearance Service item not found. Please ensure it is created during app installation."
          ValidationError
  | None =>
      throw "Custom Clearance Service item not found. Please ensure it is created during app installation."
        ValidationError
  end.

End SalesInvoiceCreation.

(** ** Payment information *)

Section PaymentInfo.

(** Two calls into the host framework that the notification block makes and
    that may raise: the Contact query filtered on link fields, and the checks
    run when a Notification Log is inserted. *)
Variable get_all_contact_by_link : string -> string -> Site -> result (list string).
Variable notification_log_checks : NotificationLog -> Site -> result unit.

Definition insert_notification_log (doc : NotificationLog) : M unit :=
  fun s =>
    match notification_log_checks doc s with
    | Ok _ => Ok (tt, with_tabNotificationLog s (tabNotificationLog s ++ [doc]))
    | Raise e => Raise e
    end.

(** [frappe.log_error(message, title)]. *)
Definition log_error (msg title : string) : M unit :=
  modify (fun s => with_tabErrorLog s (tabErrorLog s ++ [(msg, title)])).

(** The message logged by the [except] clause of [save_payment_info]. *)
Definition notification_error (e : exception) : string :=
  "Error creating notification: " ++ exc_message e.

(** The body of the [try] block of [save_payment_info]. *)
Definition notify_customer (clearance : CustomClearance)
  (clearance_name payment_type : string) : M unit :=
  portal_users <- gets (fun s =>
    firstn 1 (filter (fun p => (pu_parent p =? customer clearance)
                               && (pu_parenttype p =? "Customer"))
                     (tabPortalUser s))) ;;
  customer_user <-
    match portal_users with
    | p :: _ => ret (Some (pu_user p))
    | [] =>
        contacts <- (fun s =>
          match get_all_contact_by_link "Customer" (customer clearance) s with
          | Ok l => Ok (l, s)
          | Raise e => Raise e
          end) ;;
        match contacts with
        | c :: _ =>
            contact_doc <- get_doc_contact c ;;
            if truthy (contact_email contact_doc) then
              gets (fun s =>
                option_map user_name
                  (find (fun u => opt_eqb (contact_email contact_doc) (user_email u))
                        (tabUser s)))
            else ret None
        | [] => ret None
        end
    end ;;
  match customer_user with
  | Some addressee =>
      if truthy customer_user then
        let payment_label :=
          if payment_type =? "first" then "First Payment" else "Additional Payment" in
        insert_notification_log
          {| for_user := addressee;
             nl_type := "Alert";
             document_type := "Custom Clearance";
             nl_document_name := clearance_name;
             subject := "Payment Information Updated - " ++ clearance_name;
             email_content :=
               payment_label ++ " information has been updated for your Custom Clearance "
               ++ clearance_name
               ++ ". Please check the payment details on the portal." |} ;;;
        db_commit
      else ret tt
  | None => ret tt
  end.

(** The field merge of [save_payment_info], after the payment type has been
    checked. *)
Definition merge_payment_info (clearance : CustomClearance) (payment_type : string)
  (new_amount : option Q) (branch account_number custom_id_code : option string)
  : CustomClearance :=
  if payment_type =? "first" then
    let clearance :=
      if truthy_num new_amount then set_amount clearance (flt new_amount) else clearance in
    set_first_payment clearance
      (if truthy branch then branch else first_payment_branch clearance)
      (if truthy account_number then account_number
       else first_payment_account_number clearance)
      (if truthy custom_id_code then custom_id_code
       else first_payment_custom_id_code clearance)
  else if payment_type =? "second" then
    let clearance :=
      if truthy_num new_amount
      then set_additional_payment_amount clearance (flt new_amount)
      else clearance in
    set_second_payment clearance
      (if truthy branch then branch else second_payment_branch clearance)
      (if truthy account_number then account_number
       else second_payment_account_number clearance)
      (if truthy custom_id_code then custom_id_code
       else second_payment_custom_id_code clearance)
  else clearance.

Definition is_staff_user (user : string) (s : Site) : bool :=
  if user =? "Administrator" then true
  else
    let user_roles := get_roles s user in
    negb (str_in "Customer" user_roles) || Nat.ltb 1 (length user_roles).

Definition save_payment_info
  (clearance_name payment_type : string) (new_amount : option Q)
  (branch account_number custom_id_code : option string) : M Response :=
  user <- gets session_user ;;
  when (user =? "Guest")
    (throw "Please login to save payment information" PermissionError) ;;;
  clearance <- get_doc clearance_name ;;
  is_staff <- gets (is_staff_user user) ;;
  when (negb is_staff)
    (throw "Only staff members can save payment information" PermissionError) ;;;
  when (negb (str_in payment_type ["first"; "second"]))
    (throw "Invalid payment type. Must be 'first' or 'second'" ValidationError) ;;;
  let clearance :=
    merge_payment_info clearance payment_type new_amount
      branch account_number custom_id_code in
  clearance <- save clearance ;;
  db_commit ;;;
  try_except
    (notify_customer clearance clearance_name payment_type)
    (fun e =>
       log_error (notification_error e) "Payment Info Notification Error") ;;;
  ret {| success := true; message := "Payment information saved successfully" |}.

End PaymentInfo.

(** ** Comments, tasks, payment rows and templates

    The remaining entry points of the controller work on documents that the
    site above does not hold.  The store adds their tables to a site; each
    table lists its rows in creation order, which is the order an insert
    extends it in and the order [order_by="creation asc"] and
    [order_by="idx asc"] read it in. *)

Record Comment : Type := {
  comment_name : string;
  comment_type : string;
  reference_doctype : string;
  reference_name : string;
  content : string;
  comment_email : option string;
  comment_by : option string;
  published : bool;
  creation : string;
  owner : string
}.

Record ToDo : Type := {
  todo_name : string;
  allocated_to : string;
  description : string;
  reference_type : string;
  todo_reference_name : string;
  priority : string;
  todo_status : string
}.

(** A row of the [payments] child table (Custom Clearance Payment). *)
Record PaymentRow : Type := {
  pr_name : string;
  pr_parent : string;
  pr_payment_type : string;
  pr_amount : option Q;
  pr_branch : option string;
  pr_account_number : option string;
  pr_custom_id_code : option string;
  pr_attachment : option string
}.

Record TemplateDocument : Type := {
  td_document_name : string;
  td_is_required : bool;
  td_has_sub_items : bool;
  td_sub_items : option string
}.

Record CustomClearanceTemplate : Type := {
  tpl_name : string;
  template_name : string;
  shipping_type : string;
  is_active : bool;
  tpl_description : string;
  tpl_required_documents : list TemplateDocument
}.

Record ItemGroup : Type := { ig_name : string; is_group : bool }.

(** The fields of an Item beyond its name and code. *)
Record ItemDetail : Type := {
  id_name : string;
  id_item_name : string;
  item_group : string;
  is_stock_item : bool;
  is_sales_item : bool;
  is_service_item : bool;
  id_description : string
}.

Record Store : Type := {
  site : Site;
  tabComment : list Comment;
  tabToDo : list ToDo;
  tabCustomClearancePayment : list PaymentRow;
  tabCustomClearanceTemplate : list CustomClearanceTemplate;
  tabItemGroup : list ItemGroup;
  tabItemDetail : list ItemDetail;
  message_log : list string
}.

Definition with_site (st : Store) (s : Site) : Store :=
  {| site := s; tabComment := tabComment st; tabToDo := tabToDo st;
     tabCustomClearancePayment := tabCustomClearancePayment st;
     tabCustomClearanceTemplate := tabCustomClearanceTemplate st;
     tabItemGroup := tabItemGroup st; tabItemDetail := tabItemDetail st;
     message_log := message_log st |}.

Definition with_tabComment (st : Store) (t : list Comment) : Store :=
  {| site := site st; tabComment := t; tabToDo := tabToDo st;
     tabCustomClearancePayment := tabCustomClearancePayment st;
     tabCustomClearanceTemplate := tabCustomClearanceTemplate st;
     tabItemGroup := tabItemGroup st; tabItemDetail := tabItemDetail st;
     message_log := message_log st |}.

Definition with_tabToDo (st : Store) (t : list ToDo) : Store :=
  {| site := site st; tabComment := tabComment st; tabToDo := t;
     tabCustomClearancePayment := tabCustomClearancePayment st;
     tabCustomClearanceTemplate := tabCustomClearanceTemplate st;
     tabItemGroup := tabItemGroup st; tabItemDetail := tabItemDetail st;
     message_log := message_log st |}.

Definition with_tabCustomClearancePayment (st : Store) (t : list PaymentRow) : Store :=
  {| site := site st; tabComment := tabComment st; tabToDo := tabToDo st;
     tabCustomClearancePayment := t;
     tabCustomClearanceTemplate := tabCustomClearanceTemplate st;
     tabItemGroup := tabItemGroup st; tabItemDetail := tabItemDetail st;
     message_log := message_log st |}.

Definition with_tabCustomClearanceTemplate (st : Store)
  (t : list CustomClearanceTemplate) : Store :=
  {| site := site st; tabComment := tabComment st; tabToDo := tabToDo st;
     tabCustomClearancePayment := tabCustomClearancePayment st;
     tabCustomClearanceTemplate := t;
     tabItemGroup := tabItemGroup st; tabItemDetail := tabItemDetail st;
     message_log := message_log st |}.

Definition with_tabItemDetail (st : Store) (t : list ItemDetail) : Store :=
  {| site := site st; tabComment := tabComment st; tabToDo := tabToDo st;
     tabCustomClearancePayment := tabCustomClearancePayment st;
     tabCustomClearanceTemplate := tabCustomClearanceTemplate st;
     tabItemGroup := tabItemGroup st; tabItemDetail := t;
     message_log := message_log st |}.

Definition with_message_log (st : Store) (t : list string) : Store :=
  {| site := site st; tabComment := tabComment st; tabToDo := tabToDo st;
     tabCustomClearancePayment := tabCustomClearancePayment st;
     tabCustomClearanceTemplate := tabCustomClearanceTemplate st;
     tabItemGroup := tabItemGroup st; tabItemDetail := tabItemDetail st;
     message_log := t |}.

(** Requests over the store. *)
Definition R (A : Type) : Type := Store -> result (A * Store).

Definition rret {A : Type} (a : A) : R A := fun st => Ok (a, st).

Definition rbind {A B : Type} (m : R A) (k : A -> R B) : R B :=
  fun st =>
    match m st with
    | Ok (a, st') => k a st'
    | Raise e => Raise e
    end.

Definition rthrow {A : Type} (msg : string) (exc : exc_type) : R A :=
  fun _ => frappe_throw msg exc.

Definition rgets {A : Type} (f : Store -> A) : R A := fun st => Ok (f st, st).

Definition rmodify (f : Store -> Store) : R unit := fun st => Ok (tt, f st).

Definition rwhen (b : bool) (m : R unit) : R unit := if b then m else rret tt.

(** A request over the site, run on the site of the store. *)
Definition on_site {A : Type} (m : M A) : R A :=
  fun st =>
    match m (site st) with
    | Ok (a, s') => Ok (a, with_site st s')
    | Raise e => Raise e
    end.

(** [try: m except Exception as e: h e], as [try_except] on the site. *)
Definition rtry {A : Type} (m : R A) (h : exception -> R A) : R A :=
  fun st =>
    match m st with
    | Ok r => Ok r
    | Raise e => h e st
    end.

(** [raise] of a caught exception. *)
Definition reraise {A : Type} (e : exception) : R A := fun _ => Raise e.

Declare Scope store_scope.
Delimit Scope store_scope with store.
Notation "x <- c ;; k" := (rbind c (fun x => k))
  (at level 61, c at next level, right associativity) : store_scope.
Notation "c ;;; k" := (rbind c (fun _ => k))
  (at level 61, right associativity) : store_scope.
Local Open Scope store_scope.

(** A line break, and [str] of a length. *)
Definition nl : string := String "010"%char EmptyString.

Definition str_nat (n : nat) : string :=
  NilEmpty.string_of_uint (Nat.to_uint n).

(** [frappe.get_doc("User", n)]. *)
Definition get_doc_user (n : string) : M User :=
  fun s =>
    match find (fun u => user_name u =? n) (tabUser s) with
    | Some u => Ok (u, s)
    | None => frappe_throw ("User " ++ n ++ " not found") DoesNotExistError
    end.

(** ** [get_template_documents] *)

Record TemplateDocumentInfo : Type := {
  tdi_document_name : string;
  tdi_is_required : bool;
  tdi_has_sub_items : bool;
  tdi_sub_items : option string
}.

Definition get_doc_template (n : string) : R CustomClearanceTemplate :=
  fun st =>
    match find (fun t => tpl_name t =? n) (tabCustomClearanceTemplate st) with
    | Some t => Ok (t, st)
    | None =>
        frappe_throw ("Custom Clearance Template " ++ n ++ " not found") DoesNotExistError
    end.

Definition get_template_documents (template : option string)
  : R (list TemplateDocumentInfo) :=
  match template with
  | Some template_id =>
      if negb (truthy template) then rret []
      else
        template_doc <- get_doc_template template_id ;;
        rret (map (fun doc =>
                     {| tdi_document_name := td_document_name doc;
                        tdi_is_required := td_is_required doc;
                        tdi_has_sub_items := td_has_sub_items doc;
                        tdi_sub_items := td_sub_items doc |})
                  (tpl_required_documents template_doc))
  | None => rret []
  end.

(** ** Comments *)

Record CommentResponse : Type := {
  ac_success : bool;
  ac_message : string;
  ac_comment_name : string
}.

Record CommentView : Type := {
  cv_name : string;
  cv_content : string;
  cv_comment_by : option string;
  cv_comment_email : option string;
  cv_creation : string;
  cv_owner : string;
  cv_is_customer : bool
}.

Record CommentsResponse : Type := {
  gc_success : bool;
  gc_comments : list CommentView
}.

(** [a or b] on optional strings. *)
Definition or_else (a b : option string) : option string :=
  if truthy a then a else b.

Section Comments.

(** Calls into the host framework: the full name of a user, the rendering of
    a currency amount, the name given to a new Comment and the clock. *)
Variable get_fullname : string -> Store -> string.
Variable format_value_currency : Q -> string.
Variable autoname_comment : Comment -> Store -> string.
Variable now : Store -> string.

(** [comment.insert(ignore_permissions=True)]: the comment gets its name,
    its creation time and its owner, the session user, and ends the table. *)
Definition insert_comment (doc : Comment) : R Comment :=
  fun st =>
    let doc :=
      {| comment_name := autoname_comment doc st;
         comment_type := comment_type doc;
         reference_doctype := reference_doctype doc;
         reference_name := reference_name doc;
         content := content doc;
         comment_email := comment_email doc;
         comment_by := comment_by doc;
         published := published doc;
         creation := now st;
         owner := session_user (site st) |} in
    Ok (doc, with_tabComment st (tabComment st ++ [doc])).

Definition add_comment (clearance_name comment_text : string)
  (extra_payment : option Q) (attachment_url : option string) : R CommentResponse :=
  user <- rgets (fun st => session_user (site st)) ;;
  rwhen (user =? "Guest") (rthrow "Please login to add comments" PermissionError) ;;;
  clearance <- on_site (get_doc clearance_name) ;;
  on_site (require_linked_customer clearance
             "You don't have permission to comment on this Custom Clearance") ;;;
  let comment_content :=
    match extra_payment with
    | Some payment_amount =>
        if truthy_num extra_payment then
          comment_text ++ nl ++ nl ++ "<b>Additional Payment Required: "
          ++ format_value_currency payment_amount ++ "</b>"
        else comment_text
    | None => comment_text
    end in
  full_name <- rgets (get_fullname user) ;;
  comment <- insert_comment
    {| comment_name := "";
       comment_type := "Comment";
       reference_doctype := "Custom Clearance";
       reference_name := clearance_name;
       content := comment_content;
       comment_email := Some user;
       comment_by := Some full_name;
       published := true;
       creation := "";
       owner := user |} ;;
  on_site db_commit ;;;
  rret {| ac_success := true; ac_message := "Comment added successfully";
          ac_comment_name := comment_name comment |}.

(** The comment that [add_comment] files for [user], as it stands in the table
    after the insert. *)
Definition filed_comment (user clearance_name comment_text : string)
  (extra_payment : option Q) (st : Store) : Comment :=
  let draft :=
    {| comment_name := "";
       comment_type := "Comment";
       reference_doctype := "Custom Clearance";
       reference_name := clearance_name;
       content :=
         match extra_payment with
         | Some payment_amount =>
             if truthy_num extra_payment then
               comment_text ++ nl ++ nl ++ "<b>Additional Payment Required: "
               ++ format_value_currency payment_amount ++ "</b>"
             else comment_text
         | None => comment_text
         end;
       comment_email := Some user;
       comment_by := Some (get_fullname user st);
       published := true;
       creation := "";
       owner := user |} in
  {| comment_name := autoname_comment draft st;
     comment_type := "Comment";
     reference_doctype := "Custom Clearance";
     reference_name := clearance_name;
     content := content draft;
     comment_email := Some user;
     comment_by := Some (get_fullname user st);
     published := true;
     creation := now st;
     owner := user |}.

End Comments.

(** The flag [get_comments] derives for one comment: whether its owner
    resolves to the customer of the clearance.  The owner's User document is
    loaded first, although nothing of it is read. *)
Definition comment_is_customer (clearance : CustomClearance) (comment : Comment)
  : M bool :=
  if negb (owner comment =? "Administrator") then
    (_ <- get_doc_user (owner comment) ;;
     customer_id <- linked_customer (owner comment) ;;
     ret (truthy customer_id && opt_eqb customer_id (customer clearance)))%request
  else ret false.

(** The loop of [get_comments] over the comments found. *)
Fixpoint view_comments (clearance : CustomClearance) (comments : list Comment)
  : M (list CommentView) :=
  match comments with
  | [] => ret []
  | comment :: rest =>
      (is_customer <- comment_is_customer clearance comment ;;
       views <- view_comments clearance rest ;;
       ret ({| cv_name := comment_name comment;
               cv_content := content comment;
               cv_comment_by := or_else (comment_by comment) (comment_email comment);
               cv_comment_email := comment_email comment;
               cv_creation := creation comment;
               cv_owner := owner comment;
               cv_is_customer := is_customer |} :: views))%request
  end.

(** The filter of [get_comments]: published comments of type "Comment" on
    this clearance. *)
Definition is_published_comment_on (clearance_name : string) (c : Comment) : bool :=
  (reference_doctype c =? "Custom Clearance")
  && (reference_name c =? clearance_name)
  && (comment_type c =? "Comment")
  && published c.

Definition get_comments (clearance_name : string) : R CommentsResponse :=
  user <- rgets (fun st => session_user (site st)) ;;
  rwhen (user =? "Guest") (rthrow "Please login to view comments" PermissionError) ;;;
  clearance <- on_site (get_doc clearance_name) ;;
  on_site (require_linked_customer clearance
             "You don't have permission to view comments for this Custom Clearance") ;;;
  comments <- rgets (fun st =>
    filter (is_published_comment_on clearance_name) (tabComment st)) ;;
  views <- on_site (view_comments clearance comments) ;;
  rret {| gc_success := true; gc_comments := views |}.

(** [frappe.log_error] from a request over the store, and the store it
    leaves: one more Error Log entry. *)
Definition rlog (msg title : string) : R unit := on_site (log_error msg title).

Definition logged (msg title : string) (st : Store) : Store :=
  with_site st
    (with_tabErrorLog (site st) (tabErrorLog (site st) ++ [(msg, title)])).

(** The store [st] with another Error Log. *)
Definition relog (st : Store) (entries : list (string * string)) : Store :=
  with_site st (with_tabErrorLog (site st) entries).

(** ** [send_payment_notification] *)

Record TodoResponse : Type := {
  tn_success : bool;
  tn_message : string;
  tn_todo_name : string
}.

Section PaymentNotification.

(** Calls into the host framework: the Contact query filtered on link fields
    and the checks of a ToDo insert, both of which may raise; the name given
    to a new ToDo; [str] and the currency rendering of an amount; and the
    text of the current traceback. *)
Variable get_all_contact_by_link : string -> string -> Site -> result (list string).
Variable todo_checks : ToDo -> Store -> result unit.
Variable autoname_todo : ToDo -> Store -> string.
Variable str_amount : Q -> string.
Variable format_currency : Q -> string.
Variable format_exc : exception -> string.

(** The user account of the clearance's customer: the first portal user of
    the customer, else the user whose email is that of the first contact the
    link query returns. *)
Definition customer_user_of (clearance : CustomClearance) : M (option string) :=
  (portal_users <- gets (fun s =>
     firstn 1 (filter (fun p => (pu_parent p =? customer clearance)
                                && (pu_parenttype p =? "Customer"))
                      (tabPortalUser s))) ;;
   match portal_users with
   | p :: _ => ret (Some (pu_user p))
   | [] =>
       contacts <- (fun s =>
         match get_all_contact_by_link "Customer" (customer clearance) s with
         | Ok l => Ok (l, s)
         | Raise e => Raise e
         end) ;;
       match contacts with
       | c :: _ =>
           contact_doc <- get_doc_contact c ;;
           if truthy (contact_email contact_doc) then
             gets (fun s =>
               option_map user_name
                 (find (fun u => opt_eqb (contact_email contact_doc) (user_email u))
                       (tabUser s)))
           else ret None
       | [] => ret None
       end
   end)%request.

Definition insert_todo (doc : ToDo) : R ToDo :=
  fun st =>
    match todo_checks doc st with
    | Ok _ =>
        let doc :=
          {| todo_name := autoname_todo doc st;
             allocated_to := allocated_to doc;
             description := description doc;
             reference_type := reference_type doc;
             todo_reference_name := todo_reference_name doc;
             priority := priority doc;
             todo_status := todo_status doc |} in
        Ok (doc, with_tabToDo st (tabToDo st ++ [doc]))
    | Raise e => Raise e
    end.

(** The lines of the task description. *)
Definition todo_description (clearance_name payment_type : string) (pay : Q)
  (branch account_number custom_id_code : option string) : string :=
  let payment_label :=
    if payment_type =? "First Payment" then "First Payment" else "Additional Payment" in
  let description_parts :=
    ["Please make a payment for your Custom Clearance: " ++ clearance_name;
     "";
     "Payment Type: " ++ payment_label;
     "Amount to Pay: " ++ format_currency pay]%string in
  let description_parts :=
    match branch with
    | Some b => if truthy branch
                then (description_parts ++ ["Bank Branch: " ++ b]%string)%list
                else description_parts
    | None => description_parts
    end in
  let description_parts :=
    match account_number with
    | Some a => if truthy account_number
                then (description_parts ++ ["Account Number: " ++ a]%string)%list
                else description_parts
    | None => description_parts
    end in
  let description_parts :=
    match custom_id_code with
    | Some i => if truthy custom_id_code
                then (description_parts ++ ["Custom ID Code: " ++ i]%string)%list
                else description_parts
    | None => description_parts
    end in
  let description_parts :=
    (description_parts ++
     ["";
      "Please transfer the amount to the specified bank account and upload the payment receipt on the portal.";
      "After payment, you can upload the receipt in the payment section."])%list in
  String.concat nl description_parts.

(** The last part of [send_payment_notification], from the test on the
    addressee found. *)
Definition file_payment_todo (clearance : CustomClearance)
  (clearance_name payment_type : string) (pay : Q)
  (branch account_number custom_id_code : option string)
  (customer_user : option string) : R TodoResponse :=
  match customer_user with
  | Some addressee =>
      if truthy customer_user then
        rlog ("Customer user found: " ++ addressee) "Payment Notification Debug" ;;;
        let todo_text :=
          todo_description clearance_name payment_type pay
            branch account_number custom_id_code in
        rlog ("Todo description prepared: " ++ substring 0 200 todo_text ++ "...")
          "Payment Notification Debug" ;;;
        rtry
          (rlog "Creating Todo document..." "Payment Notification Debug" ;;;
           todo_doc <- insert_todo
             {| todo_name := "";
                allocated_to := addressee;
                description := todo_text;
                reference_type := "Custom Clearance";
                todo_reference_name := clearance_name;
                priority := "High";
                todo_status := "Open" |} ;;
           on_site db_commit ;;;
           rlog ("SUCCESS: Todo created: " ++ todo_name todo_doc)
             "Payment Notification Debug" ;;;
           rret {| tn_success := true; tn_message := "Todo created successfully";
                   tn_todo_name := todo_name todo_doc |})
          (fun e =>
             rlog ("ERROR creating payment todo: " ++ exc_message e
                   ++ nl ++ format_exc e) "Payment Todo Error" ;;;
             rthrow ("Error creating todo: " ++ exc_message e) ValidationError)
      else
        rlog ("ERROR: Customer user not found for customer: " ++ customer clearance)
          "Payment Notification Debug" ;;;
        rthrow "Customer user not found. Cannot create todo." ValidationError
  | None =>
      rlog ("ERROR: Customer user not found for customer: " ++ customer clearance)
        "Payment Notification Debug" ;;;
      rthrow "Customer user not found. Cannot create todo." ValidationError
  end.

Definition send_payment_notification
  (clearance_name payment_row_name payment_type : string) (pay : Q)
  (branch account_number custom_id_code : option string) : R TodoResponse :=
  user <- rgets (fun st => session_user (site st)) ;;
  rlog ("=== send_payment_notification called ===" ++ nl
        ++ "Clearance: " ++ clearance_name ++ nl
        ++ "Payment Row: " ++ payment_row_name ++ nl
        ++ "Type: " ++ payment_type ++ nl
        ++ "Amount: " ++ str_amount pay ++ nl
        ++ "User: " ++ user) "Payment Notification Debug" ;;;
  (if user =? "Guest" then
     rlog "ERROR: Guest user attempted to send notification"
       "Payment Notification Debug" ;;;
     rthrow "Please login to send notifications" PermissionError
   else rret tt) ;;;
  clearance <- rtry
    (clearance <- on_site (get_doc clearance_name) ;;
     rlog ("Clearance document loaded: " ++ name clearance)
       "Payment Notification Debug" ;;;
     rret clearance)
    (fun e =>
       rlog ("ERROR loading clearance: " ++ exc_message e ++ nl ++ format_exc e)
         "Payment Notification Debug" ;;;
       reraise e) ;;
  is_staff <- rgets (fun st => is_staff_user user (site st)) ;;
  rwhen (negb is_staff)
    (rthrow "Only staff members can send payment notifications" PermissionError) ;;;
  customer_user <- on_site (customer_user_of clearance) ;;
  file_payment_todo clearance clearance_name payment_type pay
    branch account_number custom_id_code customer_user.

(** ** [update_payment_receipt] *)

Definition set_pr_attachment (p : PaymentRow) (v : option string) : PaymentRow :=
  {| pr_name := pr_name p; pr_parent := pr_parent p;
     pr_payment_type := pr_payment_type p; pr_amount := pr_amount p;
     pr_branch := pr_branch p; pr_account_number := pr_account_number p;
     pr_custom_id_code := pr_custom_id_code p; pr_attachment := v |}.

(** The [payments] rows of a clearance, as [get_doc] loads them. *)
Definition payments_of (clearance_name : string) (st : Store) : list PaymentRow :=
  filter (fun p => pr_parent p =? clearance_name) (tabCustomClearancePayment st).

(** The search loop over [clearance.payments], with its log entries. *)
Fixpoint attach_receipt (payments : list PaymentRow) (payment_row_name file_url : string)
  : R (list PaymentRow * bool) :=
  match payments with
  | [] => rret ([], false)
  | payment :: rest =>
      rlog ("Checking payment: " ++ pr_name payment ++ " == " ++ payment_row_name)
        "Payment Receipt Upload Debug" ;;;
      if pr_name payment =? payment_row_name then
        rlog "Payment row found and updated" "Payment Receipt Upload Debug" ;;;
        rret (set_pr_attachment payment (Some file_url) :: rest, true)
      else
        r <- attach_receipt rest payment_row_name file_url ;;
        rret (payment :: fst r, snd r)
  end.

(** [clearance.save()] of a clearance loaded with its payments: the parent is
    saved as before and every payment row of the document is written back
    under its name. *)
Definition save_with_payments (clearance : CustomClearance) (payments : list PaymentRow)
  : R CustomClearance :=
  saved <- on_site (save clearance) ;;
  rmodify (fun st =>
    with_tabCustomClearancePayment st
      (map (fun p =>
              if pr_parent p =? name clearance then
                match find (fun q => pr_name q =? pr_name p) payments with
                | Some q => q
                | None => p
                end
              else p)
           (tabCustomClearancePayment st))) ;;;
  rret saved.

Definition update_payment_receipt (clearance_name payment_row_name file_url : string)
  : R Response :=
  user <- rgets (fun st => session_user (site st)) ;;
  rlog ("=== update_payment_receipt called ===" ++ nl
        ++ "Clearance: " ++ clearance_name ++ nl
        ++ "Payment Row: " ++ payment_row_name ++ nl
        ++ "File URL: " ++ file_url ++ nl
        ++ "User: " ++ user) "Payment Receipt Upload Debug" ;;;
  (if user =? "Guest" then
     rlog "ERROR: Guest user attempted to upload receipt"
       "Payment Receipt Upload Debug" ;;;
     rthrow "Please login to upload payment receipt" PermissionError
   else rret tt) ;;;
  clearance <- rtry
    (clearance <- on_site (get_doc clearance_name) ;;
     rlog ("Clearance document loaded: " ++ name clearance)
       "Payment Receipt Upload Debug" ;;;
     rret clearance)
    (fun e =>
       rlog ("ERROR loading clearance: " ++ exc_message e ++ nl ++ format_exc e)
         "Payment Receipt Upload Debug" ;;;
       reraise e) ;;
  payments <- rgets (payments_of clearance_name) ;;
  on_site (require_linked_customer clearance
             "You don't have permission to upload payment receipt for this Custom Clearance") ;;;
  rlog ("Looking for payment row: " ++ payment_row_name ++ nl
        ++ "Total payments: "
        ++ str_nat (if nonempty payments then length payments else 0))
    "Payment Receipt Upload Debug" ;;;
  r <- (if nonempty payments
        then attach_receipt payments payment_row_name file_url
        else rret (payments, false)) ;;
  let '(payments, payment_updated) := r in
  (if negb payment_updated then
     rlog ("ERROR: Payment row not found: " ++ payment_row_name)
       "Payment Receipt Upload Debug" ;;;
     rthrow "Payment row not found" ValidationError
   else rret tt) ;;;
  rtry
    (rlog "Saving clearance document..." "Payment Receipt Upload Debug" ;;;
     _ <- save_with_payments clearance payments ;;
     on_site db_commit ;;;
     rlog "SUCCESS: Payment receipt updated" "Payment Receipt Upload Debug" ;;;
     rret {| success := true; message := "Payment receipt updated successfully" |})
    (fun e =>
       rlog ("ERROR saving document: " ++ exc_message e ++ nl ++ format_exc e)
         "Payment Receipt Upload Debug" ;;;
       reraise e).

End PaymentNotification.

(** ** Installation: the service item and the default templates
    ([setup/create_templates.py]) *)

Definition with_tabItem (s : Site) (t : list Item) : Site :=
  {| session_user := session_user s; today := today s; get_roles := get_roles s;
     sales_invoice_has_custom_custom_clearance := sales_invoice_has_custom_custom_clearance s;
     tabCustomClearance := tabCustomClearance s; tabSalesInvoice := tabSalesInvoice s;
     tabItem := t; tabContact := tabContact s;
     tabPortalUser := tabPortalUser s; tabUser := tabUser s;
     tabNotificationLog := tabNotificationLog s; tabErrorLog := tabErrorLog s |}.

(** The rows of the two default templates. *)
Definition template_row (n : string) (sub : option string) : TemplateDocument :=
  {| td_document_name := n; td_is_required := true;
     td_has_sub_items := match sub with Some _ => true | None => false end;
     td_sub_items := sub |}.

Definition sea_documents : list TemplateDocument :=
  [template_row "Commercial Invoice" None;
   template_row "Packing List" None;
   template_row "Bill of Lading" None;
   template_row "Certificate of Origin" None;
   template_row "Bank Permit" None;
   template_row "Payment Receipt / Invoice" None;
   template_row "License" None;
   template_row "Agreement" None;
   template_row "Settlement of Freight" (Some "Inland, Other cost, External");
   template_row "Analysis Certificate" None;
   template_row "Health Certificate" None;
   template_row "Insurance" (Some "Marine Insurance, Insurance Receipt")].

Definition air_documents : list TemplateDocument :=
  [template_row "Commercial Invoice" None;
   template_row "Packing List" None;
   template_row "Air Waybill" None;
   template_row "Certificate of Origin" None;
   template_row "Bank Permit" None;
   template_row "Payment Receipt / Invoice" None;
   template_row "License" None;
   template_row "Agreement" None;
   template_row "Analysis Certificate" None;
   template_row "Health Certificate" None;
   template_row "Insurance" (Some "Marine Insurance, Insurance Receipt")].

(** The two template documents, before the framework names them. *)
Definition sea_template : CustomClearanceTemplate :=
  {| tpl_name := "";
     template_name := "Sea Shipping Template";
     shipping_type := "Sea";
     is_active := true;
     tpl_description :=
       "Default template for sea shipping imports with all required documents";
     tpl_required_documents := sea_documents |}.

Definition air_template : CustomClearanceTemplate :=
  {| tpl_name := "";
     template_name := "Air Shipping Template";
     shipping_type := "Air";
     is_active := true;
     tpl_description :=
       "Default template for air shipping imports with all required documents";
     tpl_required_documents := air_documents |}.

Definition named_template (doc : CustomClearanceTemplate) (n : string)
  : CustomClearanceTemplate :=
  {| tpl_name := n;
     template_name := template_name doc;
     shipping_type := shipping_type doc;
     is_active := is_active doc;
     tpl_description := tpl_description doc;
     tpl_required_documents := tpl_required_documents doc |}.

Section Setup.

(** The names the host framework gives to a new Item (from its code and
    fields) and to a new template. *)
Variable autoname_item : string -> ItemDetail -> Store -> string.
Variable autoname_template : CustomClearanceTemplate -> Store -> string.

(** [frappe.db.exists("Item", n)] and
    [frappe.db.exists("Custom Clearance Template", n)]. *)
Definition exists_item (n : string) (st : Store) : bool :=
  existsb (fun i => item_name i =? n) (tabItem (site st)).

Definition exists_template (n : string) (st : Store) : bool :=
  existsb (fun t => tpl_name t =? n) (tabCustomClearanceTemplate st).

(** [service_item.insert(ignore_permissions=True)]. *)
Definition insert_item (code : string) (doc : ItemDetail) : R unit :=
  rmodify (fun st =>
    let n := autoname_item code doc st in
    with_tabItemDetail
      (with_site st
         (with_tabItem (site st)
            (tabItem (site st) ++ [ {| item_name := n; item_code := code |} ])))
      (tabItemDetail st ++
       [ {| id_name := n; id_item_name := id_item_name doc;
            item_group := item_group doc;
            is_stock_item := is_stock_item doc; is_sales_item := is_sales_item doc;
            is_service_item := is_service_item doc;
            id_description := id_description doc |} ])).

(** The item group of the service item: "Services" if it exists, else the
    first group that is not a parent group, else "All Item Groups". *)
Definition service_item_group : R string :=
  services <- rgets (fun st =>
    option_map ig_name (find (fun g => ig_name g =? "Services") (tabItemGroup st))) ;;
  match services with
  | Some g =>
      if negb (truthy services) then
        leaf <- rgets (fun st =>
          option_map ig_name (find (fun g => negb (is_group g)) (tabItemGroup st))) ;;
        match leaf with
        | Some l => if negb (truthy leaf) then rret "All Item Groups" else rret l
        | None => rret "All Item Groups"
        end
      else rret g
  | None =>
      leaf <- rgets (fun st =>
        option_map ig_name (find (fun g => negb (is_group g)) (tabItemGroup st))) ;;
      match leaf with
      | Some l => if negb (truthy leaf) then rret "All Item Groups" else rret l
      | None => rret "All Item Groups"
      end
  end.

Definition create_service_item : R unit :=
  present <- rgets (exists_item "Custom Clearance Service") ;;
  if negb present then
    group <- service_item_group ;;
    insert_item "Custom Clearance Service"
      {| id_name := "";
         id_item_name := "Custom Clearance Service";
         item_group := group;
         is_stock_item := false;
         is_sales_item := true;
         is_service_item := true;
         id_description := "Custom Clearance Service for import/export clearance" |} ;;;
    on_site db_commit
  else rret tt.

Definition insert_template (doc : CustomClearanceTemplate) : R unit :=
  rmodify (fun st =>
    with_tabCustomClearanceTemplate st
      (tabCustomClearanceTemplate st
       ++ [named_template doc (autoname_template doc st)])).

(** [frappe.msgprint]. *)
Definition msgprint (msg : string) : R unit :=
  rmodify (fun st => with_message_log st (message_log st ++ [msg])).

Definition create_default_templates : R unit :=
  sea_present <- rgets (exists_template "Sea Shipping Template") ;;
  (if negb sea_present then
     insert_template sea_template ;;;
     on_site db_commit ;;;
     msgprint "Created Sea Shipping Template"
   else rret tt) ;;;
  air_present <- rgets (exists_template "Air Shipping Template") ;;
  (if negb air_present then
     insert_template air_template ;;;
     on_site db_commit ;;;
     msgprint "Created Air Shipping Template"
   else rret tt).

Definition after_install : R unit :=
  create_service_item ;;;
  create_default_templates.

End Setup.

(** ** The portal route ([www/custom_clearances.py]) *)

(** [s.strip(c)] and [s.split(c)] for a one-character [c]. *)
Fixpoint lstrip (c : ascii) (s : string) : string :=
  match s with
  | EmptyString => EmptyString
  | String a rest => if Ascii.eqb a c then lstrip c rest else s
  end.

Fixpoint rstrip (c : ascii) (s : string) : string :=
  match s with
  | EmptyString => EmptyString
  | String a rest =>
      let rest' := rstrip c rest in
      if Ascii.eqb a c && (rest' =? "") then EmptyString else String a rest'
  end.

Definition strip (c : ascii) (s : string) : string := rstrip c (lstrip c s).

Fixpoint split (c : ascii) (s : string) : list string :=
  match s with
  | EmptyString => [EmptyString]
  | String a rest =>
      if Ascii.eqb a c then EmptyString :: split c rest
      else
        match split c rest with
        | h :: t => String a h :: t
        | [] => [String a EmptyString]
        end
  end.

(** Whether [c] does not occur in [s]. *)
Fixpoint no_char (c : ascii) (s : string) : bool :=
  match s with
  | EmptyString => true
  | String a rest => negb (Ascii.eqb a c) && no_char c rest
  end.

(** [l.index(x)] for an [x] that occurs in [l]. *)
Fixpoint index_of (x : string) (l : list string) : nat :=
  match l with
  | [] => 0
  | y :: rest => if y =? x then 0 else S (index_of x rest)
  end.

(** What a page handler hands back: a redirect, or the outcome of building
    the context. *)
Inductive page (A : Type) : Type :=
| RedirectTo (location : string)
| Built (r : result (A * Store)).
Arguments RedirectTo {A} location.
Arguments Built {A} r.

Section PortalRoute.

(** The context object, and the two builders [get_context] hands over to. *)
Variable Context : Type.
Variable get_detail_context : Context -> string -> R Context.
Variable get_list_context : Context -> R Context.

Definition get_context (context : Context) (path : string) (st : Store)
  : page Context :=
  if session_user (site st) =? "Guest" then
    RedirectTo "/login?redirect-to=/custom_clearances"
  else
    let path_parts := split "/"%char (strip "/"%char path) in
    if str_in "custom_clearances" path_parts then
      let idx := index_of "custom_clearances" path_parts in
      if Nat.ltb (idx + 1) (length path_parts) then
        let potential_name := nth (idx + 1) path_parts "" in
        if negb (potential_name =? "")
           && negb (str_in potential_name [""; "index"; "list"]) then
          match lookup_clearance potential_name (site st) with
          | Some _ => Built (get_detail_context context potential_name st)
          | None => Built (get_list_context context st)
          end
        else Built (get_list_context context st)
      else Built (get_list_context context st)
    else Built (get_list_context context st).

End PortalRoute.

Close Scope store_scope.

(** ** Sample data

    Small sites and documents on which the entry points are run below. *)

Definition sample_row (n : string) (required : bool) (st : string) (why : option string)
  : RequiredDocument :=
  {| row_name := n; document_name := "Bill of Lading"; is_required := required;
     row_status := st; reason := why; attachment := None |}.

Definition sample_clearance (n cust st : string) (inv : option string)
  (rows : list RequiredDocument) : CustomClearance :=
  {| name := n; customer := cust; status := st; sales_invoice := inv;
     payment_status := "Pending"; payment_date := None;
     amount := None; additional_payment_amount := None;
     risk_status_comment := None;
     first_payment_branch := None; first_payment_account_number := None;
     first_payment_custom_id_code := None;
     second_payment_branch := None; second_payment_account_number := None;
     second_payment_custom_id_code := None;
     required_documents := rows |}.

Definition sample_site (user : string) (tab : list CustomClearance) : Site :=
  {| session_user := user; today := "2026-01-15";
     get_roles := fun _ => ["Customer"];
     sales_invoice_has_custom_custom_clearance := true;
     tabCustomClearance := tab; tabSalesInvoice := [];
     tabItem := []; tabContact := []; tabPortalUser := []; tabUser := [];
     tabNotificationLog := []; tabErrorLog := [] |}.

Definition guard_prev : CustomClearance :=
  sample_clearance "CC-0001" "ACME" "In Review" None [].

Definition guard_site : Site := sample_site "Administrator" [guard_prev].

Definition checklist_doc : CustomClearance :=
  sample_clearance "CC-0001" "ACME" "Document Submitting" None
    [sample_row "r1" true "Accepted" None; sample_row "r2" false "In Review" None].

Definition checklist_site : Site := sample_site "Administrator" [checklist_doc].

Definition review_doc : CustomClearance :=
  sample_clearance "CC-0001" "ACME" "Document Submitting" None
    [sample_row "r1" false "In Review" None].

Definition review_site : Site := sample_site "Administrator" [review_doc].

Definition review_doc_saved : CustomClearance :=
  sample_clearance "CC-0001" "ACME" "Document Submitting" None
    [sample_row "r1" false "Declined" (Some "scan is unreadable")].

Definition review_site_after : Site :=
  sample_site "Administrator" [set_status review_doc_saved "Review"].

Definition other_customer_site : Site :=
  {| session_user := "bob@other.example"; today := "2026-01-15";
     get_roles := fun _ => ["Customer"];
     sales_invoice_has_custom_custom_clearance := true;
     tabCustomClearance :=
       [sample_clearance "CC-0001" "ACME" "Document Submitting" None []];
     tabSalesInvoice := []; tabItem := [];
     tabContact :=
       [ {| contact_name := "CONT-0002";
            contact_user := Some "bob@other.example";
            contact_email := Some "bob@other.example";
            links := [ {| link_doctype := "Customer"; link_name := "OTHER" |} ] |} ];
     tabPortalUser := []; tabUser := [];
     tabNotificationLog := []; tabErrorLog := [] |}.

Definition own_customer_site : Site :=
  {| session_user := "alice@acme.example"; today := "2026-01-15";
     get_roles := fun _ => ["Customer"];
     sales_invoice_has_custom_custom_clearance := true;
     tabCustomClearance :=
       [sample_clearance "CC-0001" "ACME" "In Review" None []];
     tabSalesInvoice := []; tabItem := []; tabContact := [];
     tabPortalUser :=
       [ {| pu_user := "alice@acme.example"; pu_parent := "ACME";
            pu_parenttype := "Customer" |} ];
     tabUser := []; tabNotificationLog := []; tabErrorLog := [] |}.

Definition attachment_doc : CustomClearance :=
  sample_clearance "CC-0001" "ACME" "Document Submitting" None
    [sample_row "r1" true "Accepted" None;
     sample_row "r2" true "Declined" (Some "scan is unreadable")].

Definition attachment_site : Site := sample_site "Administrator" [attachment_doc].

Definition mirror_doc : CustomClearance :=
  sample_clearance "CC-0001" "ACME" "Risk Analysis" (Some "SINV-0001") [].

Definition mirror_site : Site := sample_site "Administrator" [mirror_doc].

Definition mirror_invoice (st : string) : SalesInvoice :=
  {| si_name := "SINV-0001"; si_status := st; docstatus := 1;
     si_customer := "ACME"; posting_date := "2026-01-10"; due_date := "2026-01-10";
     items := []; custom_custom_clearance := Some "CC-0001" |}.

Definition cancel_doc : CustomClearance :=
  sample_clearance "CC-0001" "ACME" "Yellow" (Some "SINV-0001") [].

Definition cancel_site : Site := sample_site "Administrator" [cancel_doc].

Definition no_item_site : Site :=
  sample_site "Administrator"
    [sample_clearance "CC-0001" "ACME" "In Review" None []].

Definition invoice_site : Site :=
  {| session_user := "Administrator"; today := "2026-01-15";
     get_roles := fun _ => ["System Manager"];
     sales_invoice_has_custom_custom_clearance := true;
     tabCustomClearance :=
       [set_amount (sample_clearance "CC-0001" "ACME" "In Review" None [])
          (Some (1500 # 1)%Q)];
     tabSalesInvoice := [];
     tabItem := [ {| item_name := "Custom Clearance Service";
                     item_code := "Custom Clearance Service" |} ];
     tabContact := []; tabPortalUser := []; tabUser := [];
     tabNotificationLog := []; tabErrorLog := [] |}.

Definition payment_doc : CustomClearance :=
  sample_clearance "CC-0001" "ACME" "In Review" None [].

Definition payment_site : Site :=
  {| session_user := "clerk@broker.example"; today := "2026-01-15";
     get_roles := fun _ => ["Accounts User"];
     sales_invoice_has_custom_custom_clearance := true;
     tabCustomClearance := [payment_doc];
     tabSalesInvoice := []; tabItem := []; tabContact := [];
     tabPortalUser :=
       [ {| pu_user := "alice@acme.example"; pu_parent := "ACME";
            pu_parenttype := "Customer" |} ];
     tabUser := []; tabNotificationLog := []; tabErrorLog := [] |}.

(** A Notification Log insert that always fails. *)
Definition failing_checks (doc : NotificationLog) (s : Site) : result unit :=
  Raise (mk_exc ValidationError "Could not find User: alice@acme.example").

(** A store over a site, with no comment, task, payment row or template. *)
Definition sample_store (s : Site) : Store :=
  {| site := s; tabComment := []; tabToDo := [];
     tabCustomClearancePayment := []; tabCustomClearanceTemplate := [];
     tabItemGroup := []; tabItemDetail := []; message_log := [] |}.

(** The portal user of ACME, with her User document. *)
Definition portal_site : Site :=
  {| session_user := "alice@acme.example"; today := "2026-01-15";
     get_roles := fun _ => ["Customer"];
     sales_invoice_has_custom_custom_clearance := true;
     tabCustomClearance :=
       [sample_clearance "CC-0001" "ACME" "In Review" None []];
     tabSalesInvoice := []; tabItem := []; tabContact := [];
     tabPortalUser :=
       [ {| pu_user := "alice@acme.example"; pu_parent := "ACME";
            pu_parenttype := "Customer" |} ];
     tabUser := [ {| user_name := "alice@acme.example";
                     user_email := "alice@acme.example" |} ];
     tabNotificationLog := []; tabErrorLog := [] |}.

(** A comment whose owner has been deleted since. *)
Definition orphan_comment : Comment :=
  {| comment_name := "cmt-0001"; comment_type := "Comment";
     reference_doctype := "Custom Clearance"; reference_name := "CC-0001";
     content := "Bill of lading attached"; comment_email := Some "carol@acme.example";
     comment_by := Some "Carol"; published := true;
     creation := "2026-01-10 09:00:00"; owner := "carol@acme.example" |}.

Definition orphan_store : Store :=
  with_tabComment (sample_store no_item_site) [orphan_comment].

Definition sample_payment (n parent : string) : PaymentRow :=
  {| pr_name := n; pr_parent := parent; pr_payment_type := "First Payment";
     pr_amount := Some (1500 # 1)%Q; pr_branch := Some "Main Branch";
     pr_account_number := Some "1000123"; pr_custom_id_code := None;
     pr_attachment := None |}.

Definition receipt_store : Store :=
  with_tabCustomClearancePayment (sample_store portal_site)
    [sample_payment "pay-1" "CC-0001"; sample_payment "pay-2" "CC-0002";
     sample_payment "pay-3" "CC-0001"].

(** A clearance with a linked invoice, on a site that has the service item. *)
Definition relink_site : Site :=
  {| session_user := "Administrator"; today := "2026-01-15";
     get_roles := fun _ => ["System Manager"];
     sales_invoice_has_custom_custom_clearance := true;
     tabCustomClearance := [cancel_doc];
     tabSalesInvoice := [mirror_invoice "Cancelled"];
     tabItem := [ {| item_name := "Custom Clearance Service";
                     item_code := "Custom Clearance Service" |} ];
     tabContact := []; tabPortalUser := []; tabUser := [];
     tabNotificationLog := []; tabErrorLog := [] |}.

(** A ToDo insert that always fails. *)
Definition failing_todo_checks (doc : ToDo) (st : Store) : result unit :=
  Raise (mk_exc ValidationError "Could not find Allocated To: alice@acme.example").


(** * Properties *)

(** ** Strings and the checklist scan *)

Lemma str_in_cons (x y : string) (l : list string) :
  str_in x (y :: l) = (x =? y) || str_in x l.
Proof. reflexivity. Qed.

Lemma str_in_In (x : string) (l : list string) : str_in x l = true <-> In x l.
Proof.
  unfold str_in. rewrite existsb_exists. split.
  - intros [y [Hy Heq]]. apply String.eqb_eq in Heq. now subst.
  - intros H. exists x. split; [assumption | apply String.eqb_refl].
Qed.

Lemma all_mandatory_accepted_spec (rows : list RequiredDocument) :
  all_mandatory_accepted rows = true <->
  (forall r, In r rows -> is_required r = true -> row_status r = "Accepted").
Proof.
  induction rows as [|r rows IH]; simpl.
  - split; [intros _ r [] | reflexivity].
  - destruct (is_required r) eqn:Hreq.
    + destruct (row_status r =? "Accepted") eqn:Hst; simpl.
      * apply String.eqb_eq in Hst. rewrite IH. split.
        -- intros H r' [<- | Hin] Hr'; [assumption | now apply H].
        -- intros H r' Hin. apply H. now right.
      * apply String.eqb_neq in Hst. split; [discriminate |].
        intros H. exfalso. apply Hst. apply H; [now left | assumption].
    + rewrite IH. split.
      * intros H r' [<- | Hin] Hr'; [congruence | now apply H].
      * intros H r' Hin. apply H. now right.
Qed.

(** The two flags of the save-time scan, in closed form. *)
Lemma scan_required_docs_spec (rows : list RequiredDocument) (h : bool) :
  scan_required_docs rows h =
  (if all_mandatory_accepted rows then h || existsb is_required rows else true,
   all_mandatory_accepted rows).
Proof.
  revert h. induction rows as [|r rows IH]; intros h; simpl.
  - now rewrite orb_false_r.
  - destruct (is_required r); simpl.
    + destruct (row_status r =? "Accepted"); simpl; [| reflexivity].
      rewrite IH. simpl. now rewrite orb_true_r.
    + apply IH.
Qed.

Lemma auto_promote_spec (self : CustomClearance) :
  auto_promote self =
  if (status self =? "Document Submitting")
     && nonempty (required_documents self)
     && existsb is_required (required_documents self)
     && all_mandatory_accepted (required_documents self)
  then set_status self "In Review" else self.
Proof.
  unfold auto_promote.
  destruct (status self =? "Document Submitting"); simpl; [| reflexivity].
  destruct (nonempty (required_documents self)); simpl; [| reflexivity].
  rewrite scan_required_docs_spec.
  destruct (all_mandatory_accepted (required_documents self)); simpl.
  - now rewrite andb_true_r.
  - now rewrite andb_false_r.
Qed.

Lemma auto_promote_cases (self : CustomClearance) :
  auto_promote self = self \/
  (status self = "Document Submitting" /\ auto_promote self = set_status self "In Review").
Proof.
  rewrite auto_promote_spec.
  destruct (status self =? "Document Submitting") eqn:Hs; simpl; [| now left].
  apply String.eqb_eq in Hs.
  match goal with |- context [if ?b then _ else _] => destruct b end;
    [right; now split | now left].
Qed.

Lemma auto_promote_name (self : CustomClearance) : name (auto_promote self) = name self.
Proof. destruct (auto_promote_cases self) as [-> | [_ ->]]; reflexivity. Qed.

Lemma auto_promote_required_documents (self : CustomClearance) :
  required_documents (auto_promote self) = required_documents self.
Proof. destruct (auto_promote_cases self) as [-> | [_ ->]]; reflexivity. Qed.

(** ** The transition guard *)

Lemma validate_status_transition_unrestricted
  (self : CustomClearance) (before : option CustomClearance) :
  status self <> "Risk Analysis" -> status self <> "Cleared" ->
  validate_status_transition self before = Ok tt.
Proof.
  intros H1 H2. unfold validate_status_transition.
  apply String.eqb_neq in H1, H2. rewrite H1, H2.
  destruct before; reflexivity.
Qed.

(** A document whose status was not touched since it was loaded passes
    [validate], with or without auto-promotion. *)
Lemma validate_same_status (doc prev : CustomClearance) :
  status doc = status prev ->
  validate doc (Some prev) = Ok (auto_promote doc).
Proof.
  intros Heq. unfold validate.
  destruct (auto_promote_cases doc) as [-> | [Hds ->]].
  - unfold has_value_changed_status. rewrite Heq, String.eqb_refl. reflexivity.
  - destruct (has_value_changed_status _ _); [| reflexivity].
    rewrite validate_status_transition_unrestricted; [reflexivity | |];
      simpl; discriminate.
Qed.

Lemma validate_document_submitting
  (doc : CustomClearance) (before : option CustomClearance) :
  status doc = "Document Submitting" ->
  validate doc before = Ok (auto_promote doc).
Proof.
  intros Hds. unfold validate.
  destruct (has_value_changed_status _ _); [| reflexivity].
  rewrite validate_status_transition_unrestricted; [reflexivity | |];
    destruct (auto_promote_cases doc) as [-> | [_ ->]]; simpl;
    rewrite ?Hds; discriminate.
Qed.

Lemma validate_cases (doc d : CustomClearance) (before : option CustomClearance) :
  validate doc before = Ok d -> d = auto_promote doc.
Proof.
  unfold validate.
  destruct (has_value_changed_status _ _); [| congruence].
  destruct (validate_status_transition _ _); congruence.
Qed.

Lemma validate_risk_analysis (doc prev : CustomClearance) :
  status doc = "Risk Analysis" ->
  validate doc (Some prev) =
  if str_in (status prev) ["In Review"; "Risk Analysis"] then Ok doc
  else Raise (mk_exc ValidationError
                "Status can only be changed to Risk Analysis from In Review").
Proof.
  intros H. unfold validate. rewrite auto_promote_spec, H. simpl.
  unfold validate_status_transition, frappe_throw. rewrite H. simpl.
  destruct (status prev =? "In Review"), (status prev =? "Risk Analysis");
    reflexivity.
Qed.

Lemma validate_cleared (doc prev : CustomClearance) :
  status doc = "Cleared" ->
  validate doc (Some prev) =
  if str_in (status prev) ["Risk Analysis"; "Cleared"] then Ok doc
  else Raise (mk_exc ValidationError
                "Status can only be changed to Cleared from Risk Analysis").
Proof.
  intros H. unfold validate. rewrite auto_promote_spec, H. simpl.
  unfold validate_status_transition, frappe_throw. rewrite H. simpl.
  destruct (status prev =? "Risk Analysis"), (status prev =? "Cleared");
    reflexivity.
Qed.

Lemma str_in_two (x a b : string) :
  str_in x [a; b] = true <-> (x = a \/ x = b).
Proof.
  rewrite str_in_In. simpl. split.
  - intros [H | [H | []]]; [left | right]; now symmetry.
  - intros [H | H]; [left | right; left]; now symmetry.
Qed.

(** ** The database layer *)

Lemma find_update (n m : string) (f : CustomClearance -> CustomClearance)
  (tab : list CustomClearance) :
  (forall c, name c = n -> name (f c) = n) ->
  find (fun c => name c =? m) (map (fun c => if name c =? n then f c else c) tab) =
  if m =? n then option_map f (find (fun c => name c =? m) tab)
  else find (fun c => name c =? m) tab.
Proof.
  intros Hf. induction tab as [|c tab IH]; simpl.
  - now destruct (m =? n).
  - destruct (name c =? n) eqn:Hcn.
    + apply String.eqb_eq in Hcn. rewrite (Hf c Hcn), Hcn.
      rewrite (String.eqb_sym n m).
      destruct (m =? n) eqn:Hmn; [reflexivity | exact IH].
    + destruct (name c =? m) eqn:Hcm.
      * apply String.eqb_eq in Hcm. subst m. now rewrite Hcn.
      * exact IH.
Qed.

Lemma lookup_update_row (n m : string) (f : CustomClearance -> CustomClearance) (s : Site) :
  (forall c, name c = n -> name (f c) = n) ->
  lookup_clearance m (update_row n f s) =
  if m =? n then option_map f (lookup_clearance m s) else lookup_clearance m s.
Proof. intros Hf. unfold lookup_clearance, update_row. simpl. now apply find_update. Qed.

Lemma lookup_clearance_name (n : string) (s : Site) (c : CustomClearance) :
  lookup_clearance n s = Some c -> name c = n.
Proof.
  unfold lookup_clearance. intros H. apply find_some in H.
  now apply String.eqb_eq.
Qed.

Lemma find_snoc (p : CustomClearance -> bool) (tab : list CustomClearance)
  (d : CustomClearance) :
  find p tab = None -> p d = true -> find p (tab ++ [d]) = Some d.
Proof.
  induction tab as [|c tab IH]; simpl; intros Hn Hd.
  - now rewrite Hd.
  - destruct (p c); [discriminate | now apply IH].
Qed.

(** After a document is written, reading it back gives that document. *)
Lemma lookup_write_doc (doc : CustomClearance) (s : Site) :
  lookup_clearance (name doc) (write_doc doc s) = Some doc.
Proof.
  unfold write_doc. destruct (lookup_clearance (name doc) s) eqn:Hl.
  - rewrite lookup_update_row by (intros; reflexivity).
    now rewrite String.eqb_refl, Hl.
  - unfold lookup_clearance in *. simpl.
    apply find_snoc; [assumption | apply String.eqb_refl].
Qed.

Lemma save_unfold (doc : CustomClearance) (s : Site) :
  save doc s =
  match validate doc (lookup_clearance (name doc) s) with
  | Ok doc' => Ok (doc', write_doc doc' s)
  | Raise e => Raise e
  end.
Proof. reflexivity. Qed.

(** ** C1: the transition guard on save *)

(** C1. When a Custom Clearance with a persisted previous version [prev] is
    saved and its status changed: with new status "Risk Analysis" the save
    succeeds when the previous status was "In Review" or "Risk Analysis" and
    otherwise raises a ValidationError; with new status "Cleared" it succeeds
    when the previous status was "Risk Analysis" or "Cleared" and otherwise
    raises a ValidationError.  The self-transitions "Risk Analysis" to
    "Risk Analysis" and "Cleared" to "Cleared" pass the guard and the save. *)
Theorem save_status_transition_guard (doc prev : CustomClearance) (s : Site) :
  lookup_clearance (name doc) s = Some prev ->
  (status doc <> status prev ->
   (status doc = "Risk Analysis" ->
    (status prev = "In Review" \/ status prev = "Risk Analysis" ->
     save doc s = Ok (doc, write_doc doc s))
    /\ (~ (status prev = "In Review" \/ status prev = "Risk Analysis") ->
        save doc s =
        Raise (mk_exc ValidationError
                 "Status can only be changed to Risk Analysis from In Review")))
   /\ (status doc = "Cleared" ->
       (status prev = "Risk Analysis" \/ status prev = "Cleared" ->
        save doc s = Ok (doc, write_doc doc s))
       /\ (~ (status prev = "Risk Analysis" \/ status prev = "Cleared") ->
           save doc s =
           Raise (mk_exc ValidationError
                    "Status can only be changed to Cleared from Risk Analysis"))))
  /\ (status doc = status prev ->
      status doc = "Risk Analysis" \/ status doc = "Cleared" ->
      validate_status_transition doc (Some prev) = Ok tt
      /\ save doc s = Ok (doc, write_doc doc s)).
Proof.
  intros Hprev. split.
  - intros _. split; intros Hst; rewrite save_unfold, Hprev.
    + rewrite (validate_risk_analysis _ _ Hst). split; intros H.
      * apply str_in_two in H. now rewrite H.
      * destruct (str_in _ _) eqn:E; [| reflexivity].
        apply str_in_two in E. contradiction.
    + rewrite (validate_cleared _ _ Hst). split; intros H.
      * apply str_in_two in H. now rewrite H.
      * destruct (str_in _ _) eqn:E; [| reflexivity].
        apply str_in_two in E. contradiction.
  - intros Heq Hst. split.
    + unfold validate_status_transition. rewrite <- Heq.
      destruct Hst as [-> | ->]; reflexivity.
    + rewrite save_unfold, Hprev.
      destruct Hst as [Hst | Hst].
      * rewrite (validate_risk_analysis _ _ Hst), <- Heq, Hst. reflexivity.
      * rewrite (validate_cleared _ _ Hst), <- Heq, Hst. reflexivity.
Qed.

Lemma save_status_transition_guard_witness :
  save (set_status guard_prev "Risk Analysis") guard_site
  = Ok (set_status guard_prev "Risk Analysis",
        write_doc (set_status guard_prev "Risk Analysis") guard_site)
  /\ save (set_status guard_prev "Cleared") guard_site
     = Raise (mk_exc ValidationError
                "Status can only be changed to Cleared from Risk Analysis").
Proof.
  split.
  - destruct (save_status_transition_guard
                (set_status guard_prev "Risk Analysis") guard_prev guard_site eq_refl)
      as [Hchanged _].
    destruct Hchanged as [Hra _]; [cbv; discriminate |].
    destruct (Hra eq_refl) as [Hok _]. apply Hok. left. reflexivity.
  - destruct (save_status_transition_guard
                (set_status guard_prev "Cleared") guard_prev guard_site eq_refl)
      as [Hchanged _].
    destruct Hchanged as [_ Hcl]; [cbv; discriminate |].
    destruct (Hcl eq_refl) as [_ Hbad]. apply Hbad.
    intros [H | H]; discriminate H.
Defined.

(** ** C2: auto-promotion at save time *)

(** C2. When a Custom Clearance with status "Document Submitting" and a
    non-empty [required_documents] table is saved: if at least one row is
    mandatory and every mandatory row is "Accepted", that same save sets the
    status to "In Review": the document it returns and the document it
    persists have status "In Review", and are the saved document in every
    other field; if some mandatory row is not "Accepted", or no row is
    mandatory, the save returns and persists the document as it is, with
    status "Document Submitting". *)
Theorem save_checklist_promotion (doc : CustomClearance) (s : Site) :
  status doc = "Document Submitting" ->
  required_documents doc <> [] ->
  ((exists r, In r (required_documents doc) /\ is_required r = true)
   /\ (forall r, In r (required_documents doc) ->
                 is_required r = true -> row_status r = "Accepted") ->
   exists d,
     save doc s = Ok (d, write_doc d s)
     /\ status d = "In Review"
     /\ d = set_status doc "In Review"
     /\ name d = name doc
     /\ required_documents d = required_documents doc
     /\ lookup_clearance (name doc) (write_doc d s) = Some d
     /\ option_map status (lookup_clearance (name doc) (write_doc d s))
        = Some "In Review")
  /\ ((exists r, In r (required_documents doc)
                 /\ is_required r = true /\ row_status r <> "Accepted")
      \/ (forall r, In r (required_documents doc) -> is_required r = false) ->
      save doc s = Ok (doc, write_doc doc s)
      /\ status doc = "Document Submitting"
      /\ option_map status (lookup_clearance (name doc) (write_doc doc s))
         = Some "Document Submitting").
Proof.
  intros Hds Hne.
  assert (Hsave : save doc s = Ok (auto_promote doc, write_doc (auto_promote doc) s)).
  { rewrite save_unfold, (validate_document_submitting _ _ Hds). reflexivity. }
  rewrite Hsave, auto_promote_spec, Hds. simpl.
  assert (Hn : nonempty (required_documents doc) = true)
    by (destruct (required_documents doc); [contradiction | reflexivity]).
  rewrite Hn. simpl. split.
  - intros [Hex Hall].
    apply existsb_exists in Hex. apply all_mandatory_accepted_spec in Hall.
    rewrite Hex, Hall. simpl.
    exists (set_status doc "In Review").
    pose proof (lookup_write_doc (set_status doc "In Review") s) as Hl.
    change (name (set_status doc "In Review")) with (name doc) in Hl.
    rewrite Hl. repeat split; reflexivity.
  - assert (Hkeep : option_map status (lookup_clearance (name doc) (write_doc doc s))
                    = Some "Document Submitting")
      by (rewrite lookup_write_doc; simpl; now rewrite Hds).
    intros [[r [Hin [Hreq Hst]]] | Hnone].
    + assert (Hall : all_mandatory_accepted (required_documents doc) = false).
      { destruct (all_mandatory_accepted _) eqn:E; [| reflexivity].
        exfalso. apply Hst.
        exact (proj1 (all_mandatory_accepted_spec _) E r Hin Hreq). }
      rewrite Hall, andb_false_r. now repeat split.
    + assert (Hex : existsb is_required (required_documents doc) = false).
      { destruct (existsb _ _) eqn:E; [| reflexivity].
        apply existsb_exists in E. destruct E as [r [Hin Hreq]].
        rewrite (Hnone r Hin) in Hreq. discriminate. }
      rewrite Hex. now repeat split.
Qed.

Lemma save_checklist_promotion_witness :
  exists d,
    save checklist_doc checklist_site = Ok (d, write_doc d checklist_site)
    /\ status checklist_doc = "Document Submitting"
    /\ status d = "In Review"
    /\ option_map status (lookup_clearance "CC-0001" (write_doc d checklist_site))
       = Some "In Review".
Proof.
  destruct (save_checklist_promotion checklist_doc checklist_site eq_refl)
    as [Hpromote _]; [cbv; discriminate |].
  destruct Hpromote as (d & Hsave & Hst & _ & _ & _ & _ & Hstored).
  - split.
    + exists (sample_row "r1" true "Accepted" None). split; [now left | reflexivity].
    + intros r [<- | [<- | []]]; [reflexivity | discriminate].
  - exists d. repeat split; assumption.
Defined.

(** ** The permission blocks only read *)

(** Case analysis on the next test a computation makes. *)
Ltac case_step :=
  match goal with
  | |- context [match ?x with _ => _ end] => destruct x eqn:?
  end.

Lemma linked_customer_readonly (user : string) (s s' : Site) (r : option string) :
  linked_customer user s = Ok (r, s') -> s' = s.
Proof.
  unfold linked_customer, bind, gets, ret, get_doc_contact, frappe_throw.
  destruct (option_map contact_name _) as [contact_id|]; simpl.
  - destruct (negb (contact_id =? "")).
    + destruct (find _ _); [| discriminate].
      repeat (case_step; simpl); congruence.
    + repeat (case_step; simpl); congruence.
  - repeat (case_step; simpl); congruence.
Qed.

Lemma require_linked_customer_readonly
  (c : CustomClearance) (msg : string) (s s' : Site) (u : unit) :
  require_linked_customer c msg s = Ok (u, s') -> s' = s.
Proof.
  unfold require_linked_customer, bind, gets, when, throw, ret, frappe_throw.
  destruct (negb (session_user s =? "Administrator")); [| congruence].
  destruct (linked_customer (session_user s) s) as [[r s1]|] eqn:Hl; [| discriminate].
  apply linked_customer_readonly in Hl. subst s1.
  destruct (_ || _); congruence.
Qed.

Lemma document_status_permission_readonly
  (c : CustomClearance) (s s' : Site) (u : unit) :
  document_status_permission c s = Ok (u, s') -> s' = s.
Proof.
  unfold document_status_permission, bind, gets, when, throw, ret, frappe_throw.
  destruct (negb (session_user s =? "Administrator")); [| congruence].
  destruct (linked_customer (session_user s) s) as [[r s1]|] eqn:Hl; [| discriminate].
  apply linked_customer_readonly in Hl. subst s1.
  destruct (_ && _); [congruence |]. destruct (_ || _); congruence.
Qed.

Lemma clearance_status_permission_readonly
  (c : CustomClearance) (s s' : Site) (u : unit) :
  clearance_status_permission c s = Ok (u, s') -> s' = s.
Proof.
  unfold clearance_status_permission, bind, gets, when, throw, ret, frappe_throw.
  destruct (negb (session_user s =? "Administrator")); [| congruence].
  destruct (linked_customer (session_user s) s) as [[r s1]|] eqn:Hl; [| discriminate].
  apply linked_customer_readonly in Hl. subst s1.
  destruct (_ && _); congruence.
Qed.

(** ** The row search *)

Lemma update_found_row_found (rows rows' : list RequiredDocument) (target : string)
  (f : RequiredDocument -> RequiredDocument) :
  update_found_row rows target f = (rows', true) ->
  exists l1 r l2,
    rows = (l1 ++ r :: l2)%list
    /\ (forall x, In x l1 -> row_name x <> target)
    /\ row_name r = target
    /\ rows' = (l1 ++ f r :: l2)%list.
Proof.
  revert rows'. induction rows as [|x rows IH]; simpl; intros rows' H.
  - discriminate.
  - destruct (row_name x =? target) eqn:Hx.
    + apply String.eqb_eq in Hx. inversion H; subst rows'.
      exists [], x, rows. repeat split; [intros y [] | assumption].
    + apply String.eqb_neq in Hx.
      destruct (update_found_row rows target f) as [rest found].
      inversion H; subst rows' found.
      destruct (IH rest eq_refl) as (l1 & r & l2 & -> & Hl1 & Hr & ->).
      exists (x :: l1), r, l2. repeat split; try assumption.
      intros y [<- | Hy]; [assumption | now apply Hl1].
Qed.

Lemma update_found_row_at (l1 l2 : list RequiredDocument) (r : RequiredDocument)
  (target : string) (f : RequiredDocument -> RequiredDocument) :
  (forall x, In x l1 -> row_name x <> target) ->
  row_name r = target ->
  update_found_row (l1 ++ r :: l2)%list target f = ((l1 ++ f r :: l2)%list, true).
Proof.
  intros Hl1 Hr. induction l1 as [|x l1 IH]; simpl.
  - apply String.eqb_eq in Hr. now rewrite Hr.
  - assert (Hx : (row_name x =? target) = false)
      by (apply String.eqb_neq, Hl1; now left).
    rewrite Hx, IH; [reflexivity |]. intros y Hy. apply Hl1. now right.
Qed.

(** Rewriting one row by a function that keeps [is_required] keeps the
    mandatory flags of the whole table. *)
Lemma update_found_row_is_required (rows rows' : list RequiredDocument)
  (target : string) (f : RequiredDocument -> RequiredDocument) (found : bool) :
  (forall r, is_required (f r) = is_required r) ->
  update_found_row rows target f = (rows', found) ->
  map is_required rows' = map is_required rows.
Proof.
  intros Hf. revert rows' found.
  induction rows as [|x rows IH]; simpl; intros rows' found H.
  - now inversion H.
  - destruct (row_name x =? target).
    + inversion H. simpl. now rewrite Hf.
    + destruct (update_found_row rows target f) as [rest fnd].
      inversion H. simpl. now rewrite (IH rest fnd eq_refl).
Qed.

Lemma no_mandatory_all_accepted (rows : list RequiredDocument) :
  existsb is_required rows = false -> all_mandatory_accepted rows = true.
Proof.
  induction rows as [|r rows IH]; simpl; [reflexivity |].
  destruct (is_required r); simpl; [discriminate | exact IH].
Qed.

Lemma existsb_is_required_map (rows : list RequiredDocument) :
  existsb is_required rows = existsb (fun b => b) (map is_required rows).
Proof. induction rows as [|r rows IH]; simpl; [reflexivity | now rewrite IH]. Qed.

Lemma save_name (doc doc' : CustomClearance) (s s' : Site) :
  save doc s = Ok (doc', s') ->
  doc' = auto_promote doc /\ s' = write_doc doc' s.
Proof.
  rewrite save_unfold.
  destruct (validate doc _) as [d|] eqn:Hv; [| discriminate].
  apply validate_cases in Hv. intros H. inversion H; subst. now split.
Qed.

(** ** C4 and C10: the re-scan after [update_document_status] *)

(** What a successful [update_document_status] went through: the clearance was
    found, the row was found and rewritten, the save went through, and the
    re-scan either wrote "Review" directly or left the saved state alone. *)
Lemma update_document_status_inv
  (n target st : string) (why : option string) (s s' : Site) (r : Response) :
  update_document_status n target st why s = Ok (r, s') ->
  exists c0 rows c1 s1,
    lookup_clearance n s = Some c0
    /\ update_found_row (required_documents c0) target (fun d => judge d st why)
       = (rows, true)
    /\ save (set_required_documents c0 rows) s = Ok (c1, s1)
    /\ c1 = auto_promote (set_required_documents c0 rows)
    /\ lookup_clearance n s1 = Some c1
    /\ s' = (if (status c1 =? "Document Submitting")
                && nonempty (required_documents c1)
                && all_mandatory_accepted (required_documents c1)
             then update_row n (fun c => set_status c "Review") s1
             else s1).
Proof.
  unfold update_document_status, bind, gets, get_doc, frappe_throw.
  destruct (session_user s =? "Guest"); [discriminate |]. simpl.
  destruct (lookup_clearance n s) as [c0|] eqn:Hc0; [| discriminate].
  destruct (document_status_permission c0 s) as [[u s0]|] eqn:Hperm; [| discriminate].
  apply document_status_permission_readonly in Hperm. subst s0.
  destruct (update_found_row _ _ _) as [rows found] eqn:Hrows.
  destruct found; simpl; [| discriminate].
  destruct (save (set_required_documents c0 rows) s) as [[c1 s1]|] eqn:Hsave;
    [| discriminate].
  unfold db_commit, ret, when, db_set_value, modify. simpl.
  intros H. exists c0, rows, c1, s1.
  destruct (save_name _ _ _ _ Hsave) as [Hc1 Hs1].
  assert (Hname : name c1 = n).
  { rewrite Hc1, auto_promote_name. simpl. now apply lookup_clearance_name with s. }
  split; [reflexivity |]. split; [exact Hrows |]. split; [exact Hsave |].
  split; [exact Hc1 |]. split.
  - rewrite Hs1, <- Hname. apply lookup_write_doc.
  - rewrite <- Hname. unfold ret in H. destruct (_ && _); inversion H; reflexivity.
Qed.




(** When the table has a mandatory row and, after the row update, every
    mandatory row is "Accepted", the save inside [update_document_status]
    has already promoted the clearance: a successful call leaves the persisted
    status at "In Review", and the re-scan writes nothing. *)
Lemma update_document_status_mandatory_in_review
  (n target st : string) (why : option string) (s s' : Site) (r : Response)
  (c0 : CustomClearance) :
  lookup_clearance n s = Some c0 ->
  status c0 = "Document Submitting" ->
  update_document_status n target st why s = Ok (r, s') ->
  existsb is_required
    (fst (update_found_row (required_documents c0) target (fun d => judge d st why)))
  = true ->
  all_mandatory_accepted
    (fst (update_found_row (required_documents c0) target (fun d => judge d st why)))
  = true ->
  option_map status (lookup_clearance n s') = Some "In Review".
Proof.
  intros Hc0 Hds H Hex Hall.
  destruct (update_document_status_inv _ _ _ _ _ _ _ H)
    as (c0' & rows & c1 & s1 & Hc0' & Hrows & Hsave & Hc1 & Hlook & Hs').
  rewrite Hc0 in Hc0'. inversion Hc0'; subst c0'. clear Hc0'.
  rewrite Hrows in Hex, Hall. simpl in Hex, Hall.
  assert (Hn : nonempty rows = true) by (destruct rows; [discriminate | reflexivity]).
  assert (Hst : c1 = set_status (set_required_documents c0 rows) "In Review").
  { rewrite Hc1, auto_promote_spec. simpl. now rewrite Hds, Hn, Hex, Hall. }
  rewrite Hst in Hs', Hlook. simpl in Hs'. subst s'.
  now rewrite Hlook.
Qed.

Lemma update_document_status_mandatory_in_review_witness :
  option_map status
    (lookup_clearance "CC-0001"
       (sample_site "Administrator"
          [set_status
             (sample_clearance "CC-0001" "ACME" "Document Submitting" None
                [sample_row "r1" true "Accepted" None;
                 sample_row "r2" true "Accepted" (Some "scan is unreadable")])
             "In Review"]))
  = Some "In Review".
Proof.
  apply (update_document_status_mandatory_in_review
           "CC-0001" "r2" "Accepted" None attachment_site _
           {| success := true; message := "Document status updated successfully" |}
           attachment_doc);
    reflexivity.
Defined.

(** C10. For a clearance with status "Document Submitting" whose
    [required_documents] table holds no mandatory row, every successful
    [update_document_status] call leaves the persisted status at "Review":
    the save inside the call does not promote (it leaves "Document
    Submitting", for want of a mandatory row), and the re-scan after it, which
    has no such test, finds all mandatory rows accepted and writes "Review"
    directly. *)
Theorem update_document_status_no_mandatory_review
  (n target st : string) (why : option string) (s s' : Site) (r : Response)
  (c0 : CustomClearance) :
  lookup_clearance n s = Some c0 ->
  status c0 = "Document Submitting" ->
  (forall d, In d (required_documents c0) -> is_required d = false) ->
  update_document_status n target st why s = Ok (r, s') ->
  required_documents c0 <> []
  /\ (exists c1 s1,
        save (set_required_documents c0
                (fst (update_found_row (required_documents c0) target
                        (fun d => judge d st why)))) s = Ok (c1, s1)
        /\ status c1 = "Document Submitting"
        /\ s' = update_row n (fun c => set_status c "Review") s1
        /\ lookup_clearance n s' = Some (set_status c1 "Review"))
  /\ option_map status (lookup_clearance n s') = Some "Review".
Proof.
  intros Hc0 Hds Hnone H.
  destruct (update_document_status_inv _ _ _ _ _ _ _ H)
    as (c0' & rows & c1 & s1 & Hc0' & Hrows & Hsave & Hc1 & Hlook & Hs').
  rewrite Hc0 in Hc0'. inversion Hc0'; subst c0'. clear Hc0'.
  assert (Hne : required_documents c0 <> []).
  { intros E. rewrite E in Hrows. discriminate. }
  assert (Hflags : map is_required rows = map is_required (required_documents c0)).
  { apply (update_found_row_is_required _ _ target (fun d => judge d st why) true);
      [| exact Hrows].
    intros d. unfold judge. destruct (truthy why); reflexivity. }
  assert (Hex0 : existsb is_required (required_documents c0) = false).
  { destruct (existsb _ _) eqn:E; [| reflexivity].
    apply existsb_exists in E. destruct E as [d [Hin Hreq]].
    rewrite (Hnone d Hin) in Hreq. discriminate. }
  assert (Hex : existsb is_required rows = false).
  { now rewrite existsb_is_required_map, Hflags, <- existsb_is_required_map. }
  assert (Hrd : required_documents c1 = rows)
    by now rewrite Hc1, auto_promote_required_documents.
  assert (Hst : status c1 = "Document Submitting").
  { rewrite Hc1, auto_promote_spec. simpl. rewrite Hex, andb_false_r. simpl.
    exact Hds. }
  assert (Hn : nonempty rows = true).
  { destruct rows; [| reflexivity].
    destruct (required_documents c0); [now contradiction Hne | discriminate]. }
  rewrite Hrd, Hst, Hn, (no_mandatory_all_accepted _ Hex) in Hs'. simpl in Hs'.
  assert (Hlook' : lookup_clearance n s' = Some (set_status c1 "Review")).
  { rewrite Hs', lookup_update_row by (intros c Hc; exact Hc).
    now rewrite String.eqb_refl, Hlook. }
  split; [exact Hne |]. split.
  - exists c1, s1. rewrite Hrows. simpl. now repeat split.
  - now rewrite Hlook'.
Qed.

Lemma update_document_status_no_mandatory_review_witness :
  option_map status (lookup_clearance "CC-0001" review_site_after) = Some "Review".
Proof.
  refine (proj2 (proj2
    (update_document_status_no_mandatory_review
       "CC-0001" "r1" "Declined" (Some "scan is unreadable")
       review_site review_site_after _ review_doc eq_refl eq_refl _ eq_refl))).
  intros d [<- | []]. reflexivity.
Defined.

(** ** C3: who may call [update_clearance_status] *)

(** A caller who resolves to the customer of the clearance itself is turned
    away with a PermissionError, whatever the target status. *)
Lemma update_clearance_status_own_customer_denied
  (n st : string) (comment : option string) (extra : option Q)
  (s : Site) (c0 : CustomClearance) (cust : string) :
  session_user s <> "Guest" ->
  session_user s <> "Administrator" ->
  lookup_clearance n s = Some c0 ->
  linked_customer (session_user s) s = Ok (Some cust, s) ->
  cust <> "" ->
  customer c0 = cust ->
  update_clearance_status n st comment extra s
  = Raise (mk_exc PermissionError
             "You don't have permission to change the clearance status").
Proof.
  intros Hg Ha Hc0 Hl Hne Hcust.
  apply String.eqb_neq in Hg, Ha, Hne.
  unfold update_clearance_status, bind, gets, get_doc. rewrite Hg. simpl.
  rewrite Hc0.
  unfold clearance_status_permission, bind, gets. rewrite Ha. simpl. rewrite Hl.
  simpl. now rewrite Hne, Hcust, String.eqb_refl.
Qed.

Lemma update_clearance_status_own_customer_denied_witness :
  update_clearance_status "CC-0001" "Risk Analysis" None None own_customer_site
  = Raise (mk_exc PermissionError
             "You don't have permission to change the clearance status").
Proof.
  apply (update_clearance_status_own_customer_denied
           "CC-0001" "Risk Analysis" None None own_customer_site
           (sample_clearance "CC-0001" "ACME" "In Review" None []) "ACME");
    try reflexivity; cbv; discriminate.
Defined.

(** C3, on the code as it stands: a logged-in caller whose contact links to
    customer "OTHER" and whose only role is Customer calls
    [update_clearance_status] on a clearance of customer "ACME"; the call is
    not refused, it returns success and the persisted status has changed from
    "Document Submitting" to "In Review". *)
Theorem update_clearance_status_other_customer_succeeds :
  linked_customer "bob@other.example" other_customer_site
  = Ok (Some "OTHER", other_customer_site)
  /\ get_roles other_customer_site "bob@other.example" = ["Customer"]
  /\ option_map status (lookup_clearance "CC-0001" other_customer_site)
     = Some "Document Submitting"
  /\ update_clearance_status "CC-0001" "In Review" None None other_customer_site
     = Ok ({| success := true; message := "Status updated successfully" |},
           update_row "CC-0001" (fun c => set_status c "In Review") other_customer_site)
  /\ option_map status
       (lookup_clearance "CC-0001"
          (update_row "CC-0001" (fun c => set_status c "In Review") other_customer_site))
     = Some "In Review".
Proof. repeat split. Qed.

(** ** C5: attaching a file to a row *)

(** C5. When [update_document_attachment] is called by a caller who passes its
    permission block, on a clearance that exists and for a row name that
    occurs in its table, the call succeeds and persists the table with the
    first row of that name rewritten: its attachment is the given file; with
    the re-upload flag set and the row "Declined", its status becomes
    "In Review" and its reason is cleared; without the flag, or on a row that
    is not "Declined", status and reason are as before.  No other row
    changes. *)
Theorem update_document_attachment_effect
  (n target file_url : string) (is_reupload : bool) (s : Site)
  (c0 : CustomClearance) (l1 l2 : list RequiredDocument) (row : RequiredDocument) :
  session_user s <> "Guest" ->
  lookup_clearance n s = Some c0 ->
  require_linked_customer c0
    "You don't have permission to update this Custom Clearance" s = Ok (tt, s) ->
  required_documents c0 = (l1 ++ row :: l2)%list ->
  (forall x, In x l1 -> row_name x <> target) ->
  row_name row = target ->
  exists c1 s',
    update_document_attachment n target file_url is_reupload s
    = Ok ({| success := true; message := "Document attached successfully" |}, s')
    /\ lookup_clearance n s' = Some c1
    /\ required_documents c1 = (l1 ++ attach row file_url is_reupload :: l2)%list
    /\ attachment (attach row file_url is_reupload) = Some file_url
    /\ (is_reupload = true -> row_status row = "Declined" ->
        row_status (attach row file_url is_reupload) = "In Review"
        /\ reason (attach row file_url is_reupload) = None)
    /\ (is_reupload = false \/ row_status row <> "Declined" ->
        row_status (attach row file_url is_reupload) = row_status row
        /\ reason (attach row file_url is_reupload) = reason row).
Proof.
  intros Hg Hc0 Hperm Hrows Hl1 Hrow.
  apply String.eqb_neq in Hg.
  pose (doc := set_required_documents c0
                 (l1 ++ attach row file_url is_reupload :: l2)%list).
  exists (auto_promote doc), (write_doc (auto_promote doc) s).
  assert (Hname : name (auto_promote doc) = n).
  { rewrite auto_promote_name. simpl. now apply lookup_clearance_name with s. }
  split; [| split; [| split; [| split; [| split]]]].
  - unfold update_document_attachment, bind, gets, get_doc.
    rewrite Hg. simpl. rewrite Hc0, Hperm, Hrows.
    rewrite (update_found_row_at l1 l2 row target _ Hl1 Hrow). simpl.
    rewrite save_unfold. simpl. rewrite (lookup_clearance_name _ _ _ Hc0), Hc0.
    fold doc. rewrite (validate_same_status doc c0 eq_refl). reflexivity.
  - rewrite <- Hname at 1. apply lookup_write_doc.
  - now rewrite auto_promote_required_documents.
  - unfold attach. destruct (_ && _); reflexivity.
  - intros -> Hd. unfold attach. simpl. rewrite Hd. split; reflexivity.
  - intros H. unfold attach. simpl.
    destruct is_reupload; simpl; [| now split].
    destruct H as [H | H]; [discriminate |].
    apply String.eqb_neq in H. rewrite H. now split.
Qed.

Lemma update_document_attachment_effect_witness :
  exists c1 s',
    update_document_attachment "CC-0001" "r2" "/files/bl.pdf" true attachment_site
    = Ok ({| success := true; message := "Document attached successfully" |}, s')
    /\ lookup_clearance "CC-0001" s' = Some c1
    /\ required_documents c1
       = [sample_row "r1" true "Accepted" None;
          {| row_name := "r2"; document_name := "Bill of Lading"; is_required := true;
             row_status := "In Review"; reason := None;
             attachment := Some "/files/bl.pdf" |}].
Proof.
  destruct (update_document_attachment_effect
              "CC-0001" "r2" "/files/bl.pdf" true attachment_site attachment_doc
              [sample_row "r1" true "Accepted" None] []
              (sample_row "r2" true "Declined" (Some "scan is unreadable")))
    as (c1 & s' & Hrun & Hlook & Hrows & _);
    try reflexivity; try (cbv; discriminate).
  - intros x [<- | []]. cbv. discriminate.
  - exists c1, s'. repeat split; assumption.
Defined.

(** ** C6 and C7: the payment mirror *)

Lemma payment_status_of_cases (st : string) :
  (st = "Paid" -> payment_status_of st = "Paid")
  /\ (st = "Partly Paid" \/ st = "Partly Paid and Discounted" ->
      payment_status_of st = "Partially Paid")
  /\ (st <> "Paid" -> st <> "Partly Paid" -> st <> "Partly Paid and Discounted" ->
      payment_status_of st = "Pending").
Proof.
  repeat split.
  - now intros ->.
  - now intros [-> | ->].
  - intros H1 H2 H3. apply String.eqb_neq in H1, H2, H3.
    unfold payment_status_of. rewrite H1. simpl. rewrite H2, H3. simpl.
    now destruct (_ || _).
Qed.

(** C6. When [update_clearance_payment_status] runs for an invoice that the
    lookup links to clearance [n]: the call cannot fail; the clearance's
    [payment_status] becomes "Paid" for invoice status "Paid", "Partially
    Paid" for "Partly Paid" and "Partly Paid and Discounted", and "Pending"
    for every other value; [payment_date] becomes today's date exactly when
    the invoice status is "Paid" and is otherwise kept; and the new site is
    the old one after direct field writes on row [n], so that no [validate]
    runs and the status of the clearance is as before. *)
Theorem update_clearance_payment_status_mirror
  (doc : SalesInvoice) (method n : string) (s : Site) (c0 : CustomClearance) :
  clearance_of_invoice (si_name doc) s = Some n ->
  n <> "" ->
  lookup_clearance n s = Some c0 ->
  exists s' c',
    update_clearance_payment_status doc method s = Ok (tt, s')
    /\ s' = (if si_status doc =? "Paid"
             then update_row n (fun c => set_payment_date c (Some (today s)))
                    (update_row n
                       (fun c => set_payment_status c (payment_status_of (si_status doc))) s)
             else update_row n
                    (fun c => set_payment_status c (payment_status_of (si_status doc))) s)
    /\ lookup_clearance n s' = Some c'
    /\ (si_status doc = "Paid" ->
        payment_status c' = "Paid" /\ payment_date c' = Some (today s))
    /\ (si_status doc = "Partly Paid" \/ si_status doc = "Partly Paid and Discounted" ->
        payment_status c' = "Partially Paid" /\ payment_date c' = payment_date c0)
    /\ (si_status doc <> "Paid" -> si_status doc <> "Partly Paid" ->
        si_status doc <> "Partly Paid and Discounted" ->
        payment_status c' = "Pending" /\ payment_date c' = payment_date c0)
    /\ status c' = status c0
    /\ sales_invoice c' = sales_invoice c0
    /\ required_documents c' = required_documents c0.
Proof.
  intros Hinv Hne Hc0.
  destruct (payment_status_of_cases (si_status doc)) as (Hpaid & Hpartly & Hother).
  apply String.eqb_neq in Hne.
  unfold update_clearance_payment_status, bind, gets, db_set_value, modify, when, ret.
  rewrite Hinv. simpl. rewrite Hne. simpl.
  destruct (si_status doc =? "Paid") eqn:Hst.
  - apply String.eqb_eq in Hst.
    eexists. eexists. split; [reflexivity |]. split; [reflexivity |].
    split.
    { rewrite !lookup_update_row by (intros c Hc; exact Hc).
      rewrite String.eqb_refl, Hc0. reflexivity. }
    simpl. rewrite (Hpaid Hst). repeat split; try reflexivity;
      try contradiction;
      match goal with
      | H : _ \/ _ |- _ => destruct H as [H | H]; rewrite Hst in H; discriminate
      end.
  - apply String.eqb_neq in Hst.
    eexists. eexists. split; [reflexivity |]. split; [reflexivity |].
    split.
    { rewrite lookup_update_row by (intros c Hc; exact Hc).
      rewrite String.eqb_refl, Hc0. reflexivity. }
    simpl. repeat split; try reflexivity; try contradiction.
    + now apply Hpartly.
    + now apply Hother.
Qed.

Lemma update_clearance_payment_status_mirror_witness :
  exists s' c',
    update_clearance_payment_status (mirror_invoice "Paid") "on_update" mirror_site
    = Ok (tt, s')
    /\ lookup_clearance "CC-0001" s' = Some c'
    /\ payment_status c' = "Paid"
    /\ payment_date c' = Some "2026-01-15"
    /\ status c' = "Risk Analysis".
Proof.
  destruct (update_clearance_payment_status_mirror
              (mirror_invoice "Paid") "on_update" "CC-0001" mirror_site mirror_doc)
    as (s' & c' & Hrun & _ & Hlook & Hpaid & _ & _ & Hst & _);
    try reflexivity; try discriminate.
  destruct (Hpaid eq_refl) as [Hps Hpd].
  exists s', c'. repeat split; assumption.
Defined.

(** C7. When [handle_sales_invoice_cancel] runs for an invoice that the lookup
    links to clearance [n]: the call cannot fail; the clearance's
    [sales_invoice] is cleared, its [payment_status] is "Pending", its
    [payment_date] is cleared; its status becomes "Review" if it was "Green",
    "Yellow" or "Red" and is unchanged otherwise. *)
Theorem handle_sales_invoice_cancel_resets
  (doc : SalesInvoice) (method n : string) (s : Site) (c0 : CustomClearance) :
  clearance_of_invoice (si_name doc) s = Some n ->
  n <> "" ->
  lookup_clearance n s = Some c0 ->
  exists s' c',
    handle_sales_invoice_cancel doc method s = Ok (tt, s')
    /\ lookup_clearance n s' = Some c'
    /\ sales_invoice c' = None
    /\ payment_status c' = "Pending"
    /\ payment_date c' = None
    /\ (status c0 = "Green" \/ status c0 = "Yellow" \/ status c0 = "Red" ->
        status c' = "Review")
    /\ (status c0 <> "Green" -> status c0 <> "Yellow" -> status c0 <> "Red" ->
        status c' = status c0)
    /\ required_documents c' = required_documents c0.
Proof.
  intros Hinv Hne Hc0.
  apply String.eqb_neq in Hne.
  unfold handle_sales_invoice_cancel, bind, gets, db_set_value, modify, when, ret.
  rewrite Hinv. simpl. rewrite Hne. simpl.
  rewrite !lookup_update_row by (intros c Hc; exact Hc).
  rewrite String.eqb_refl, Hc0. simpl.
  destruct ((status c0 =? "Green")
            || ((status c0 =? "Yellow") || ((status c0 =? "Red") || false))) eqn:Hin;
    [change (str_in (status c0) ["Green"; "Yellow"; "Red"] = true) in Hin
    |change (str_in (status c0) ["Green"; "Yellow"; "Red"] = false) in Hin].
  - eexists. eexists. split; [reflexivity |]. split.
    { rewrite !lookup_update_row by (intros c Hc; exact Hc).
      rewrite String.eqb_refl, Hc0. reflexivity. }
    apply str_in_In in Hin. simpl in Hin.
    assert (Hgyr : status c0 = "Green" \/ status c0 = "Yellow" \/ status c0 = "Red")
      by (destruct Hin as [H | [H | [H | []]]]; auto).
    simpl. repeat split; try reflexivity; auto.
    destruct Hgyr as [H' | [H' | H']]; contradiction.
  - eexists. eexists. split; [reflexivity |]. split.
    { rewrite !lookup_update_row by (intros c Hc; exact Hc).
      rewrite String.eqb_refl, Hc0. reflexivity. }
    assert (Hgyr : ~ (status c0 = "Green" \/ status c0 = "Yellow" \/ status c0 = "Red")).
    { intros H.
      assert (E : str_in (status c0) ["Green"; "Yellow"; "Red"] = true).
      { apply str_in_In. simpl. destruct H as [H | [H | H]]; auto. }
      rewrite E in Hin. discriminate. }
    simpl. repeat split; try reflexivity; try contradiction.
Qed.

Lemma handle_sales_invoice_cancel_resets_witness :
  exists s' c',
    handle_sales_invoice_cancel (mirror_invoice "Cancelled") "on_cancel" cancel_site
    = Ok (tt, s')
    /\ lookup_clearance "CC-0001" s' = Some c'
    /\ sales_invoice c' = None
    /\ payment_status c' = "Pending"
    /\ payment_date c' = None
    /\ status c' = "Review".
Proof.
  destruct (handle_sales_invoice_cancel_resets
              (mirror_invoice "Cancelled") "on_cancel" "CC-0001" cancel_site cancel_doc)
    as (s' & c' & Hrun & Hlook & Hinv & Hps & Hpd & Hroll & _);
    try reflexivity; try discriminate.
  exists s', c'. repeat split; try assumption.
  apply Hroll. right. left. reflexivity.
Defined.

(** ** C8: creating the invoice *)

Lemma invoice_rate_cases (c : CustomClearance) :
  (amount c = None -> invoice_rate c = 0%Q)
  /\ (forall q, amount c = Some q -> Qeq_bool q 0%Q = false -> invoice_rate c = q)
  /\ (forall q, amount c = Some q -> Qeq_bool q 0%Q = true -> invoice_rate c = 0%Q).
Proof.
  unfold invoice_rate, truthy_num, flt. repeat split.
  - now intros ->.
  - intros q -> Hq. now rewrite Hq.
  - intros q -> Hq. now rewrite Hq.
Qed.

(** C8 does not hold as stated: on a site that lacks the item "Custom
    Clearance Service", a clearance with no linked invoice gets no invoice;
    the call raises instead. *)
Lemma create_sales_invoice_without_service_item :
  option_map sales_invoice (lookup_clearance "CC-0001" no_item_site) = Some None
  /\ create_sales_invoice (fun _ _ => "ACC-SINV-2026-00001") (fun _ n => n)
       "CC-0001" no_item_site
     = Raise (mk_exc ValidationError
                "Custom Clearance Service item not found. Please ensure it is created during app installation.").
Proof. split; reflexivity. Qed.

(** C8, amended.  For a clearance that already has a linked invoice,
    [create_sales_invoice] raises and writes nothing.  For a clearance with no
    linked invoice, on a site where the item "Custom Clearance Service"
    exists, it inserts one new draft invoice (docstatus 0) for the clearance's
    customer with a single line of quantity 1 at the clearance's amount (zero
    when the amount is unset), writes the new invoice's name into the
    clearance's [sales_invoice] and returns that name.  For a clearance with
    no linked invoice on a site without that item, it raises and writes
    nothing. *)
Theorem create_sales_invoice_contract
  (autoname : SalesInvoice -> Site -> string)
  (get_desk_link : string -> string -> string)
  (n : string) (s : Site) (c0 : CustomClearance) :
  lookup_clearance n s = Some c0 ->
  (forall inv, sales_invoice c0 = Some inv -> inv <> "" ->
     create_sales_invoice autoname get_desk_link n s
     = Raise (mk_exc ValidationError
                ("Sales Invoice already created: " ++ get_desk_link "Sales Invoice" inv)))
  /\ (truthy (sales_invoice c0) = false ->
      forall item,
        find (fun i => item_code i =? "Custom Clearance Service") (tabItem s) = Some item ->
        item_name item <> "" ->
        exists inv s',
          create_sales_invoice autoname get_desk_link n s = Ok (si_name inv, s')
          /\ tabSalesInvoice s' = (tabSalesInvoice s ++ [inv])%list
          /\ docstatus inv = 0
          /\ si_customer inv = customer c0
          /\ items inv = [ {| sii_item_code := item_name item; qty := 1%Q;
                              rate := invoice_rate c0 |} ]
          /\ (amount c0 = None -> invoice_rate c0 = 0%Q)
          /\ (forall q, amount c0 = Some q -> Qeq_bool q 0%Q = false ->
                        invoice_rate c0 = q)
          /\ lookup_clearance n s' = Some (set_sales_invoice c0 (Some (si_name inv))))
  /\ (truthy (sales_invoice c0) = false ->
      find (fun i => item_code i =? "Custom Clearance Service") (tabItem s) = None ->
      create_sales_invoice autoname get_desk_link n s
      = Raise (mk_exc ValidationError
                 "Custom Clearance Service item not found. Please ensure it is created during app installation.")).
Proof.
  intros Hc0.
  unfold create_sales_invoice, bind, gets, get_doc, when, throw, ret, frappe_throw.
  rewrite Hc0. simpl. split; [| split].
  - intros inv Hinv Hne. apply String.eqb_neq in Hne.
    rewrite Hinv. simpl. now rewrite Hne.
  - intros Hno item Hitem Hname. apply String.eqb_neq in Hname.
    rewrite Hno, Hitem. simpl. rewrite Hname. simpl.
    unfold insert_sales_invoice, db_set_value, modify. simpl.
    exists (with_si_name
              (new_sales_invoice c0 (item_name item) (today s)
                 (sales_invoice_has_custom_custom_clearance s))
              (autoname
                 (new_sales_invoice c0 (item_name item) (today s)
                    (sales_invoice_has_custom_custom_clearance s)) s)).
    eexists. split; [reflexivity |]. simpl.
    destruct (invoice_rate_cases c0) as (Hnone & Hsome & _).
    repeat split; try reflexivity; try assumption.
    rewrite lookup_update_row by (intros c Hc; exact Hc).
    rewrite (lookup_clearance_name _ _ _ Hc0), String.eqb_refl.
    unfold lookup_clearance in *. simpl. now rewrite Hc0.
  - intros Hno Hitem. now rewrite Hno, Hitem.
Qed.

Lemma create_sales_invoice_contract_witness :
  exists inv s',
    create_sales_invoice (fun _ _ => "ACC-SINV-2026-00001") (fun _ n => n)
      "CC-0001" invoice_site = Ok (si_name inv, s')
    /\ tabSalesInvoice s' = [inv]
    /\ docstatus inv = 0
    /\ si_customer inv = "ACME"
    /\ items inv = [ {| sii_item_code := "Custom Clearance Service"; qty := 1%Q;
                        rate := (1500 # 1)%Q |} ]
    /\ option_map sales_invoice (lookup_clearance "CC-0001" s')
       = Some (Some (si_name inv)).
Proof.
  destruct (create_sales_invoice_contract
              (fun _ _ => "ACC-SINV-2026-00001") (fun _ n => n) "CC-0001" invoice_site
              (set_amount (sample_clearance "CC-0001" "ACME" "In Review" None [])
                 (Some (1500 # 1)%Q)) eq_refl)
    as (_ & Hcreate & _).
  destruct (Hcreate eq_refl
              {| item_name := "Custom Clearance Service";
                 item_code := "Custom Clearance Service" |} eq_refl)
    as (inv & s' & Hrun & Htab & Hdraft & Hcust & Hitems & _ & _ & Hlook);
    [cbv; discriminate |].
  exists inv, s'. repeat split; try assumption.
  now rewrite Hlook.
Defined.

(** ** C9: payment information and its notification *)

Section PaymentInfoFacts.

Variable get_all_contact_by_link : string -> string -> Site -> result (list string).
Variable notification_log_checks : NotificationLog -> Site -> result unit.

(** A notification block that goes through leaves the clearances alone. *)
Lemma notify_customer_clearances
  (c : CustomClearance) (n payment_type : string) (s s' : Site) (u : unit) :
  notify_customer get_all_contact_by_link notification_log_checks c n payment_type s
  = Ok (u, s') ->
  tabCustomClearance s' = tabCustomClearance s.
Proof.
  unfold notify_customer, bind, gets, ret, db_commit, insert_notification_log,
    get_doc_contact, frappe_throw.
  destruct (firstn 1 _) as [|p ps]; simpl.
  - destruct (get_all_contact_by_link _ _ s) as [[|ct cts]|]; simpl;
      [| | discriminate].
    + intros H. now inversion H.
    + destruct (find _ (tabContact s)) as [cd|]; simpl; [| discriminate].
      destruct (truthy (contact_email cd)); simpl.
      * destruct (option_map user_name _) as [addressee|]; simpl.
        -- destruct (negb (addressee =? "")); simpl.
           ++ destruct (notification_log_checks _ s); simpl; [| discriminate].
              intros H. now inversion H.
           ++ intros H. now inversion H.
        -- intros H. now inversion H.
      * intros H. now inversion H.
  - destruct (negb (pu_user p =? "")); simpl.
    + destruct (notification_log_checks _ s); simpl; [| discriminate].
      intros H. now inversion H.
    + intros H. now inversion H.
Qed.

Lemma write_doc_tabErrorLog (doc : CustomClearance) (s : Site) :
  tabErrorLog (write_doc doc s) = tabErrorLog s.
Proof. unfold write_doc. destruct (lookup_clearance _ _); reflexivity. Qed.

(** Whatever the [try] block does, the handler turns a failure into a log
    entry: the statement never raises. *)
Lemma try_except_log_error_total (m : M unit) (s : Site) :
  exists s',
    try_except m
      (fun e => log_error (notification_error e)
                  "Payment Info Notification Error") s = Ok (tt, s')
    /\ (forall u s1, m s = Ok (u, s1) -> s' = s1)
    /\ (forall e, m s = Raise e ->
          s' = with_tabErrorLog s
                 (tabErrorLog s
                  ++ [(notification_error e, "Payment Info Notification Error")])).
Proof.
  unfold try_except, log_error, modify.
  destruct (m s) as [[[] s1]|e].
  - exists s1. repeat split; congruence.
  - eexists. split; [reflexivity |]. split; [discriminate |].
    intros e' H. now inversion H.
Qed.

Lemma merge_payment_info_status (c : CustomClearance) (payment_type : string)
  (a : option Q) (b acc cid : option string) :
  status (merge_payment_info c payment_type a b acc cid) = status c
  /\ name (merge_payment_info c payment_type a b acc cid) = name c.
Proof.
  unfold merge_payment_info.
  destruct (payment_type =? "first"); [| destruct (payment_type =? "second")];
    destruct (truthy_num a); split; reflexivity.
Qed.

(** C9. When [save_payment_info] is called by a logged-in staff caller with
    payment type "first" or "second" on an existing clearance, it returns
    success whatever the Contact query and the Notification Log insert do:
    the merged payment fields are saved (with the save's own
    auto-promotion), a notification block that raises is turned into one
    Error Log entry on top of the saved state, and in both cases the
    clearance read back from the final site is the saved one. *)
Theorem save_payment_info_notification_independent
  (n payment_type : string) (new_amount : option Q)
  (branch account_number custom_id_code : option string)
  (s : Site) (c0 : CustomClearance) :
  session_user s <> "Guest" ->
  is_staff_user (session_user s) s = true ->
  payment_type = "first" \/ payment_type = "second" ->
  lookup_clearance n s = Some c0 ->
  exists saved s',
    saved = auto_promote
              (merge_payment_info c0 payment_type new_amount
                 branch account_number custom_id_code)
    /\ save_payment_info get_all_contact_by_link notification_log_checks
         n payment_type new_amount branch account_number custom_id_code s
       = Ok ({| success := true;
                message := "Payment information saved successfully" |}, s')
    /\ lookup_clearance n s' = Some saved
    /\ (forall e,
          notify_customer get_all_contact_by_link notification_log_checks
            saved n payment_type (write_doc saved s) = Raise e ->
          s' = with_tabErrorLog (write_doc saved s)
                 (tabErrorLog s
                  ++ [(notification_error e, "Payment Info Notification Error")])).
Proof.
  intros Hg Hstaff Htype Hc0.
  apply String.eqb_neq in Hg.
  set (merged := merge_payment_info c0 payment_type new_amount
                   branch account_number custom_id_code).
  destruct (merge_payment_info_status c0 payment_type new_amount
              branch account_number custom_id_code) as [Hst Hnm].
  fold merged in Hst, Hnm.
  assert (Hn0 : name c0 = n) by now apply lookup_clearance_name with s.
  assert (Hsave : save merged s
                  = Ok (auto_promote merged, write_doc (auto_promote merged) s)).
  { rewrite save_unfold, Hnm, Hn0, Hc0.
    now rewrite (validate_same_status merged c0 Hst). }
  assert (Hlook : lookup_clearance n (write_doc (auto_promote merged) s)
                  = Some (auto_promote merged)).
  { rewrite <- Hn0, <- Hnm, <- (auto_promote_name merged).
    apply lookup_write_doc. }
  destruct (try_except_log_error_total
              (notify_customer get_all_contact_by_link notification_log_checks
                 (auto_promote merged) n payment_type)
              (write_doc (auto_promote merged) s))
    as (s' & Htry & Hok & Herr).
  exists (auto_promote merged), s'.
  split; [reflexivity |]. split; [| split].
  - unfold save_payment_info, bind, gets, get_doc, when, throw, ret, db_commit.
    assert (Hin : str_in payment_type ["first"; "second"] = true)
      by (apply str_in_two; exact Htype).
    rewrite Hg. cbn -[str_in merge_payment_info save try_except is_staff_user notification_error log_error].
    rewrite Hc0, Hstaff.
    cbn -[str_in merge_payment_info save try_except is_staff_user notification_error log_error].
    rewrite Hin. cbn -[str_in merge_payment_info save try_except is_staff_user notification_error log_error].
    fold merged. rewrite Hsave, Htry. reflexivity.
  - destruct (notify_customer get_all_contact_by_link notification_log_checks
                (auto_promote merged) n payment_type
                (write_doc (auto_promote merged) s)) as [[u s1]|e] eqn:Hrun.
    + rewrite (Hok u s1 eq_refl).
      apply notify_customer_clearances in Hrun.
      unfold lookup_clearance in *. now rewrite Hrun.
    + rewrite (Herr e eq_refl). exact Hlook.
  - intros e He. rewrite (Herr e He), write_doc_tabErrorLog. reflexivity.
Qed.

End PaymentInfoFacts.

Lemma save_payment_info_notification_independent_witness :
  exists saved s',
    save_payment_info (fun _ _ _ => Ok []) failing_checks
      "CC-0001" "first" (Some (1500 # 1)%Q) (Some "Main Branch") (Some "1000123") None
      payment_site
    = Ok ({| success := true; message := "Payment information saved successfully" |}, s')
    /\ lookup_clearance "CC-0001" s' = Some saved
    /\ amount saved = Some (1500 # 1)%Q
    /\ first_payment_branch saved = Some "Main Branch"
    /\ first_payment_account_number saved = Some "1000123"
    /\ tabErrorLog s'
       = [("Error creating notification: Could not find User: alice@acme.example",
           "Payment Info Notification Error")].
Proof.
  destruct (save_payment_info_notification_independent
              (fun _ _ _ => Ok []) failing_checks
              "CC-0001" "first" (Some (1500 # 1)%Q)
              (Some "Main Branch") (Some "1000123") None
              payment_site payment_doc)
    as (saved & s' & Hsaved & Hrun & Hlook & Herr);
    [cbv; discriminate | reflexivity | left; reflexivity | reflexivity |].
  exists saved, s'. subst saved.
  repeat split; try assumption.
  rewrite (Herr _ eq_refl). reflexivity.
Defined.

(** * Further properties of the entry points *)

(** ** Who counts as staff *)

(** [is_staff_user] turns away exactly the callers, other than the
    administrator, whose role list is the single role "Customer". *)
Lemma is_staff_user_false_iff (user : string) (s : Site) :
  is_staff_user user s = false <->
  user <> "Administrator" /\ get_roles s user = ["Customer"].
Proof.
  unfold is_staff_user.
  destruct (user =? "Administrator") eqn:Ha; cbv beta iota.
  - apply String.eqb_eq in Ha. split; [discriminate | intros [H _]; contradiction].
  - apply String.eqb_neq in Ha.
    unfold str_in.
    destruct (get_roles s user) as [|r [|r' rs]]; cbn [existsb length].
    + split; [discriminate | intros [_ H]; discriminate].
    + destruct ("Customer" =? r) eqn:Hr; cbn.
      * apply String.eqb_eq in Hr. subst r. now split.
      * apply String.eqb_neq in Hr. split; [discriminate |].
        intros [_ H]. inversion H. congruence.
    + rewrite orb_true_r. split; [discriminate | intros [_ H]; discriminate].
Qed.

Section PaymentInfoErrors.

Variable get_all_contact_by_link : string -> string -> Site -> result (list string).
Variable notification_log_checks : NotificationLog -> Site -> result unit.

(** The outcome of [save_payment_info] for a logged-in caller on an existing
    clearance, by the two tests that follow the lookup. *)
Lemma save_payment_info_outcome
  (n payment_type : string) (new_amount : option Q)
  (branch account_number custom_id_code : option string)
  (s : Site) (c0 : CustomClearance) :
  session_user s <> "Guest" ->
  lookup_clearance n s = Some c0 ->
  (is_staff_user (session_user s) s = false /\
   save_payment_info get_all_contact_by_link notification_log_checks
     n payment_type new_amount branch account_number custom_id_code s
   = Raise (mk_exc PermissionError "Only staff members can save payment information"))
  \/ (is_staff_user (session_user s) s = true /\
      str_in payment_type ["first"; "second"] = false /\
      save_payment_info get_all_contact_by_link notification_log_checks
        n payment_type new_amount branch account_number custom_id_code s
      = Raise (mk_exc ValidationError
                 "Invalid payment type. Must be 'first' or 'second'"))
  \/ (is_staff_user (session_user s) s = true /\
      str_in payment_type ["first"; "second"] = true /\
      exists s',
        save_payment_info get_all_contact_by_link notification_log_checks
          n payment_type new_amount branch account_number custom_id_code s
        = Ok ({| success := true;
                 message := "Payment information saved successfully" |}, s')).
Proof.
  intros Hg Hc0. apply String.eqb_neq in Hg.
  unfold save_payment_info, bind, gets, get_doc, when, throw, ret, db_commit,
    frappe_throw.
  rewrite Hg. cbn -[str_in merge_payment_info save try_except is_staff_user
                    notification_error log_error].
  rewrite Hc0.
  destruct (is_staff_user (session_user s) s) eqn:Hstaff;
    cbn -[str_in merge_payment_info save try_except is_staff_user
          notification_error log_error];
    [| left; now split].
  right.
  destruct (str_in payment_type ["first"; "second"]) eqn:Hin;
    cbn -[str_in merge_payment_info save try_except is_staff_user
          notification_error log_error];
    [| left; now repeat split].
  right. repeat split.
  set (merged := merge_payment_info c0 payment_type new_amount
                   branch account_number custom_id_code).
  destruct (merge_payment_info_status c0 payment_type new_amount
              branch account_number custom_id_code) as [Hst Hnm].
  fold merged in Hst, Hnm.
  assert (Hsave : save merged s
                  = Ok (auto_promote merged, write_doc (auto_promote merged) s)).
  { rewrite save_unfold, Hnm, (lookup_clearance_name _ _ _ Hc0), Hc0.
    now rewrite (validate_same_status merged c0 Hst). }
  rewrite Hsave.
  destruct (try_except_log_error_total
              (notify_customer get_all_contact_by_link notification_log_checks
                 (auto_promote merged) n payment_type)
              (write_doc (auto_promote merged) s))
    as (s' & Htry & _).
  exists s'. now rewrite Htry.
Qed.

(** A logged-in caller is refused by [save_payment_info] with "Only staff
    members can save payment information" exactly when the caller is not the
    administrator and holds the single role "Customer"; a second role of any
    kind, or no role at all, makes the caller staff. *)
Theorem save_payment_info_refused_iff_pure_customer
  (n payment_type : string) (new_amount : option Q)
  (branch account_number custom_id_code : option string)
  (s : Site) (c0 : CustomClearance) :
  session_user s <> "Guest" ->
  lookup_clearance n s = Some c0 ->
  (save_payment_info get_all_contact_by_link notification_log_checks
     n payment_type new_amount branch account_number custom_id_code s
   = Raise (mk_exc PermissionError "Only staff members can save payment information")
   <-> session_user s <> "Administrator"
       /\ get_roles s (session_user s) = ["Customer"]).
Proof.
  intros Hg Hc0. rewrite <- is_staff_user_false_iff.
  destruct (save_payment_info_outcome n payment_type new_amount
              branch account_number custom_id_code s c0 Hg Hc0)
    as [[Hs Hr] | [[Hs [_ Hr]] | [Hs [_ [s' Hr]]]]]; rewrite Hr.
  - now split.
  - split; [discriminate | congruence].
  - split; [discriminate | congruence].
Qed.

(** For a staff caller, a payment type other than "first" and "second" is a
    ValidationError: the call stops before the merge and the save. *)
Theorem save_payment_info_invalid_payment_type
  (n payment_type : string) (new_amount : option Q)
  (branch account_number custom_id_code : option string)
  (s : Site) (c0 : CustomClearance) :
  session_user s <> "Guest" ->
  lookup_clearance n s = Some c0 ->
  is_staff_user (session_user s) s = true ->
  payment_type <> "first" ->
  payment_type <> "second" ->
  save_payment_info get_all_contact_by_link notification_log_checks
    n payment_type new_amount branch account_number custom_id_code s
  = Raise (mk_exc ValidationError "Invalid payment type. Must be 'first' or 'second'").
Proof.
  intros Hg Hc0 Hstaff H1 H2.
  destruct (save_payment_info_outcome n payment_type new_amount
              branch account_number custom_id_code s c0 Hg Hc0)
    as [[Hs _] | [[_ [_ Hr]] | [_ [Hin _]]]].
  - congruence.
  - exact Hr.
  - apply str_in_two in Hin. destruct Hin; contradiction.
Qed.

End PaymentInfoErrors.

Lemma save_payment_info_refused_iff_pure_customer_witness :
  save_payment_info (fun _ _ _ => Ok []) failing_checks
    "CC-0001" "first" (Some (1500 # 1)%Q) None None None own_customer_site
  = Raise (mk_exc PermissionError "Only staff members can save payment information").
Proof.
  apply (save_payment_info_refused_iff_pure_customer
           (fun _ _ _ => Ok []) failing_checks
           "CC-0001" "first" (Some (1500 # 1)%Q) None None None own_customer_site
           (sample_clearance "CC-0001" "ACME" "In Review" None []));
    [cbv; discriminate | reflexivity |].
  split; [cbv; discriminate | reflexivity].
Defined.

Lemma save_payment_info_invalid_payment_type_witness :
  save_payment_info (fun _ _ _ => Ok []) failing_checks
    "CC-0001" "third" (Some (1500 # 1)%Q) None None None payment_site
  = Raise (mk_exc ValidationError "Invalid payment type. Must be 'first' or 'second'").
Proof.
  apply (save_payment_info_invalid_payment_type
           (fun _ _ _ => Ok []) failing_checks
           "CC-0001" "third" (Some (1500 # 1)%Q) None None None payment_site
           payment_doc);
    try reflexivity; cbv; discriminate.
Defined.

(** ** The two row entry points share one permission rule *)

(** The permission block of [update_document_status], for all its
    [is_customer] flag and [elif], decides exactly as the block of
    [update_document_attachment]: the administrator and the callers linked to
    the clearance's own customer pass, every other caller, staff included, is
    refused with the same PermissionError. *)
Theorem document_status_permission_is_customer_or_admin
  (clearance : CustomClearance) (s : Site) :
  document_status_permission clearance s
  = require_linked_customer clearance
      "You don't have permission to update this Custom Clearance" s.
Proof.
  unfold document_status_permission, require_linked_customer, bind, gets, when,
    throw, ret.
  destruct (negb (session_user s =? "Administrator")); [| reflexivity].
  destruct (linked_customer (session_user s) s) as [[customer_id s1]|e];
    [| reflexivity].
  destruct (truthy customer_id), (opt_eqb customer_id (customer clearance));
    reflexivity.
Qed.

(** ** Missing rows *)

Lemma update_found_row_absent (rows : list RequiredDocument) (target : string)
  (f : RequiredDocument -> RequiredDocument) :
  (forall r, In r rows -> row_name r <> target) ->
  update_found_row rows target f = (rows, false).
Proof.
  induction rows as [|x rows IH]; simpl; intros H; [reflexivity |].
  assert (Hx : (row_name x =? target) = false)
    by (apply String.eqb_neq, H; now left).
  rewrite Hx, IH; [reflexivity |]. intros r Hr. apply H. now right.
Qed.

(** When no row of the clearance has the given name (an empty table
    included), the administrator's [update_document_status] and
    [update_document_attachment] both raise DoesNotExistError "Document row
    not found" and save nothing. *)
Theorem row_entry_points_row_not_found
  (n target st file_url : string) (why : option string) (is_reupload : bool)
  (s : Site) (c0 : CustomClearance) :
  session_user s = "Administrator" ->
  lookup_clearance n s = Some c0 ->
  (forall r, In r (required_documents c0) -> row_name r <> target) ->
  update_document_status n target st why s
  = Raise (mk_exc DoesNotExistError "Document row not found")
  /\ update_document_attachment n target file_url is_reupload s
     = Raise (mk_exc DoesNotExistError "Document row not found").
Proof.
  intros Ha Hc0 Habsent. split.
  - unfold update_document_status, bind, gets, get_doc. rewrite Ha. simpl.
    rewrite Hc0. unfold document_status_permission, bind, gets. rewrite Ha. simpl.
    now rewrite (update_found_row_absent _ _ _ Habsent).
  - unfold update_document_attachment, bind, gets, get_doc. rewrite Ha. simpl.
    rewrite Hc0. unfold require_linked_customer, bind, gets. rewrite Ha. simpl.
    now rewrite (update_found_row_absent _ _ _ Habsent).
Qed.

Lemma row_entry_points_row_not_found_witness :
  update_document_status "CC-0001" "r9" "Accepted" None review_site
  = Raise (mk_exc DoesNotExistError "Document row not found")
  /\ update_document_attachment "CC-0001" "r9" "/files/bill.pdf" false review_site
     = Raise (mk_exc DoesNotExistError "Document row not found").
Proof.
  apply (row_entry_points_row_not_found
           "CC-0001" "r9" "Accepted" "/files/bill.pdf" None false review_site review_doc);
    [reflexivity | reflexivity |].
  intros r [<- | []]. cbv. discriminate.
Defined.

(** ** The administrator can walk any clearance to "Cleared" *)

Lemma write_doc_session_user (doc : CustomClearance) (s : Site) :
  session_user (write_doc doc s) = session_user s.
Proof. unfold write_doc. destruct (lookup_clearance _ _); reflexivity. Qed.

Lemma update_clearance_status_administrator
  (n st : string) (s : Site) (c0 : CustomClearance) :
  session_user s = "Administrator" ->
  lookup_clearance n s = Some c0 ->
  update_clearance_status n st None None s
  = match validate (set_status c0 st) (Some c0) with
    | Ok d => Ok ({| success := true; message := "Status updated successfully" |},
                  write_doc d s)
    | Raise e => Raise e
    end.
Proof.
  intros Ha Hc0.
  unfold update_clearance_status, bind, gets, get_doc. rewrite Ha. simpl.
  rewrite Hc0. unfold clearance_status_permission, bind, gets. rewrite Ha. simpl.
  rewrite save_unfold. simpl. rewrite (lookup_clearance_name _ _ _ Hc0), Hc0.
  destruct (validate (set_status c0 st) (Some c0)); reflexivity.
Qed.

(** Whatever the status of a clearance and the state of its documents, three
    [update_clearance_status] calls by the administrator ("In Review", then
    "Risk Analysis", then "Cleared") all succeed and leave it "Cleared": the
    guard orders the last two steps and asks nothing of the documents. *)
Theorem update_clearance_status_three_steps_to_cleared
  (n : string) (s : Site) (c0 : CustomClearance) :
  session_user s = "Administrator" ->
  lookup_clearance n s = Some c0 ->
  exists r1 s1 r2 s2 r3 s3,
    update_clearance_status n "In Review" None None s = Ok (r1, s1)
    /\ update_clearance_status n "Risk Analysis" None None s1 = Ok (r2, s2)
    /\ update_clearance_status n "Cleared" None None s2 = Ok (r3, s3)
    /\ lookup_clearance n s3 = Some (set_status c0 "Cleared").
Proof.
  intros Ha Hc0.
  assert (Hn : name c0 = n) by now apply lookup_clearance_name with s.
  set (c1 := set_status c0 "In Review").
  set (c2 := set_status c0 "Risk Analysis").
  set (c3 := set_status c0 "Cleared").
  assert (H1 : validate c1 (Some c0) = Ok c1).
  { unfold validate. rewrite auto_promote_spec. simpl.
    destruct (negb (status c0 =? "In Review")); reflexivity. }
  assert (H2 : validate c2 (Some c1) = Ok c2)
    by (rewrite validate_risk_analysis; reflexivity).
  assert (H3 : validate c3 (Some c2) = Ok c3)
    by (rewrite validate_cleared; reflexivity).
  assert (L1 : lookup_clearance n (write_doc c1 s) = Some c1)
    by (rewrite <- Hn; apply (lookup_write_doc c1)).
  assert (L2 : lookup_clearance n (write_doc c2 (write_doc c1 s)) = Some c2)
    by (rewrite <- Hn; apply (lookup_write_doc c2)).
  assert (L3 : lookup_clearance n (write_doc c3 (write_doc c2 (write_doc c1 s)))
               = Some c3)
    by (rewrite <- Hn; apply (lookup_write_doc c3)).
  do 6 eexists.
  split; [| split; [| split]].
  - rewrite (update_clearance_status_administrator _ _ _ _ Ha Hc0).
    fold c1. rewrite H1. reflexivity.
  - rewrite (update_clearance_status_administrator n "Risk Analysis" _ c1);
      [| now rewrite write_doc_session_user | exact L1].
    change (set_status c1 "Risk Analysis") with c2. rewrite H2. reflexivity.
  - rewrite (update_clearance_status_administrator n "Cleared" _ c2);
      [| now rewrite !write_doc_session_user | exact L2].
    change (set_status c2 "Cleared") with c3. rewrite H3. reflexivity.
  - exact L3.
Qed.

Lemma update_clearance_status_three_steps_to_cleared_witness :
  exists r1 s1 r2 s2 r3 s3,
    update_clearance_status "CC-0001" "In Review" None None checklist_site = Ok (r1, s1)
    /\ update_clearance_status "CC-0001" "Risk Analysis" None None s1 = Ok (r2, s2)
    /\ update_clearance_status "CC-0001" "Cleared" None None s2 = Ok (r3, s3)
    /\ lookup_clearance "CC-0001" s3 = Some (set_status checklist_doc "Cleared").
Proof.
  apply (update_clearance_status_three_steps_to_cleared
           "CC-0001" checklist_site checklist_doc); reflexivity.
Defined.

(** ** Saving twice *)

Lemma auto_promote_idempotent (d : CustomClearance) :
  auto_promote (auto_promote d) = auto_promote d.
Proof.
  destruct (auto_promote_cases d) as [H | [_ H]].
  - now rewrite !H.
  - rewrite H. now rewrite auto_promote_spec.
Qed.

Lemma map_replace_absent (n : string) (d : CustomClearance)
  (tab : list CustomClearance) :
  find (fun c => name c =? n) tab = None ->
  map (fun c => if name c =? n then d else c) tab = tab.
Proof.
  induction tab as [|c tab IH]; simpl; [reflexivity |].
  destruct (name c =? n); [discriminate |]. intros H. now rewrite IH.
Qed.

Lemma map_replace_twice (n : string) (d : CustomClearance)
  (tab : list CustomClearance) :
  name d = n ->
  map (fun c => if name c =? n then d else c)
      (map (fun c => if name c =? n then d else c) tab)
  = map (fun c => if name c =? n then d else c) tab.
Proof.
  intros Hd. rewrite map_map. apply map_ext. intros c.
  destruct (name c =? n) eqn:Hc; [| now rewrite Hc].
  now rewrite Hd, String.eqb_refl.
Qed.

Lemma write_doc_twice (d : CustomClearance) (s : Site) :
  write_doc d (write_doc d s) = write_doc d s.
Proof.
  unfold write_doc at 1. rewrite lookup_write_doc.
  unfold write_doc, update_row.
  destruct (lookup_clearance (name d) s) eqn:Hl; simpl.
  - now rewrite map_replace_twice.
  - rewrite map_app. simpl. rewrite String.eqb_refl.
    now rewrite (map_replace_absent _ _ _ Hl).
Qed.

(** Saving again the document that a successful save returned, on the site
    that save produced, succeeds and changes nothing: neither the document
    (no second promotion) nor the site. *)
Theorem save_twice_is_save_once (doc d : CustomClearance) (s s1 : Site) :
  save doc s = Ok (d, s1) ->
  save d s1 = Ok (d, s1).
Proof.
  intros H. destruct (save_name _ _ _ _ H) as [Hd Hs1].
  rewrite save_unfold, Hs1, lookup_write_doc.
  rewrite (validate_same_status d d eq_refl).
  rewrite Hd, auto_promote_idempotent, write_doc_twice. reflexivity.
Qed.

Lemma save_twice_is_save_once_witness :
  save (set_status checklist_doc "In Review")
       (write_doc (set_status checklist_doc "In Review") checklist_site)
  = Ok (set_status checklist_doc "In Review",
        write_doc (set_status checklist_doc "In Review") checklist_site).
Proof.
  apply (save_twice_is_save_once checklist_doc _ checklist_site _). reflexivity.
Defined.

(** ** Invoice events, one after another *)

Lemma clearance_of_invoice_update_row
  (inv n : string) (f : CustomClearance -> CustomClearance) (s : Site) :
  (forall c, name (f c) = name c) ->
  (forall c, sales_invoice (f c) = sales_invoice c) ->
  clearance_of_invoice inv (update_row n f s) = clearance_of_invoice inv s.
Proof.
  intros Hn Hi. unfold clearance_of_invoice, update_row. simpl.
  induction (tabCustomClearance s) as [|c tab IH]; simpl; [reflexivity |].
  destruct (name c =? n).
  - rewrite Hi. destruct (opt_eqb (sales_invoice c) inv); simpl; [now rewrite Hn | exact IH].
  - destruct (opt_eqb (sales_invoice c) inv); simpl; [reflexivity | exact IH].
Qed.

Lemma update_clearance_payment_status_run
  (doc : SalesInvoice) (method n : string) (s : Site) :
  clearance_of_invoice (si_name doc) s = Some n ->
  n <> "" ->
  update_clearance_payment_status doc method s
  = Ok (tt,
        if si_status doc =? "Paid"
        then update_row n (fun c => set_payment_date c (Some (today s)))
               (update_row n
                  (fun c => set_payment_status c (payment_status_of (si_status doc))) s)
        else update_row n
               (fun c => set_payment_status c (payment_status_of (si_status doc))) s).
Proof.
  intros Hinv Hne. apply String.eqb_neq in Hne.
  unfold update_clearance_payment_status, bind, gets, db_set_value, modify, when, ret.
  rewrite Hinv. simpl. rewrite Hne. simpl.
  destruct (si_status doc =? "Paid"); reflexivity.
Qed.

Lemma payment_status_of_not_paid (st : string) :
  st <> "Paid" -> payment_status_of st <> "Paid".
Proof.
  intros H. apply String.eqb_neq in H. unfold payment_status_of. rewrite H.
  destruct (str_in st ["Partly Paid"; "Partly Paid and Discounted"]);
    [discriminate |].
  destruct (str_in st _); discriminate.
Qed.

(** A "Paid" event followed by an event with any other status on the same
    invoice leaves the clearance with a payment status that is not "Paid" and
    with the payment date of the earlier "Paid" event: status events set the
    date and never clear it. *)
Theorem payment_date_outlives_paid_status
  (paid later : SalesInvoice) (method n : string) (s : Site) (c0 : CustomClearance) :
  si_status paid = "Paid" ->
  si_status later <> "Paid" ->
  si_name later = si_name paid ->
  clearance_of_invoice (si_name paid) s = Some n ->
  n <> "" ->
  lookup_clearance n s = Some c0 ->
  exists s1 s2 c2,
    update_clearance_payment_status paid method s = Ok (tt, s1)
    /\ update_clearance_payment_status later method s1 = Ok (tt, s2)
    /\ lookup_clearance n s2 = Some c2
    /\ payment_status c2 = payment_status_of (si_status later)
    /\ payment_status c2 <> "Paid"
    /\ payment_date c2 = Some (today s).
Proof.
  intros Hpaid Hlater Hsame Hinv Hne Hc0.
  pose proof (update_clearance_payment_status_run paid method n s Hinv Hne) as R1.
  rewrite Hpaid in R1. simpl in R1.
  eexists. eexists. eexists. split; [exact R1 |].
  assert (Hinv1 :
    clearance_of_invoice (si_name later)
      (update_row n (fun c => set_payment_date c (Some (today s)))
         (update_row n (fun c => set_payment_status c "Paid") s)) = Some n).
  { rewrite Hsame, !clearance_of_invoice_update_row by (intros; reflexivity).
    exact Hinv. }
  pose proof (update_clearance_payment_status_run later method n _ Hinv1 Hne) as R2.
  apply String.eqb_neq in Hlater. rewrite Hlater in R2.
  split; [exact R2 |]. split.
  - rewrite !lookup_update_row by (intros c Hc; exact Hc).
    rewrite String.eqb_refl, Hc0. reflexivity.
  - simpl. repeat split.
    apply payment_status_of_not_paid. now apply String.eqb_neq.
Qed.

Lemma payment_date_outlives_paid_status_witness :
  exists s1 s2 c2,
    update_clearance_payment_status (mirror_invoice "Paid") "on_update" mirror_site
    = Ok (tt, s1)
    /\ update_clearance_payment_status (mirror_invoice "Overdue") "on_update" s1
       = Ok (tt, s2)
    /\ lookup_clearance "CC-0001" s2 = Some c2
    /\ payment_status c2 = "Pending"
    /\ payment_date c2 = Some "2026-01-15".
Proof.
  destruct (payment_date_outlives_paid_status
              (mirror_invoice "Paid") (mirror_invoice "Overdue") "on_update"
              "CC-0001" mirror_site mirror_doc)
    as (s1 & s2 & c2 & H1 & H2 & Hl & Hps & _ & Hpd);
    try reflexivity; try (cbv; discriminate).
  exists s1, s2, c2. repeat split; assumption.
Defined.

(** ** Creating, cancelling and creating again *)

Section InvoiceLifecycle.

Variable autoname : SalesInvoice -> Site -> string.
Variable get_desk_link : string -> string -> string.

Lemma create_sales_invoice_run (n : string) (s : Site) (c0 : CustomClearance)
  (item : Item) :
  lookup_clearance n s = Some c0 ->
  truthy (sales_invoice c0) = false ->
  find (fun i => item_code i =? "Custom Clearance Service") (tabItem s) = Some item ->
  item_name item <> "" ->
  create_sales_invoice autoname get_desk_link n s
  = let draft :=
      new_sales_invoice c0 (item_name item) (today s)
        (sales_invoice_has_custom_custom_clearance s) in
    Ok (autoname draft s,
        update_row n (fun c => set_sales_invoice c (Some (autoname draft s)))
          (with_tabSalesInvoice s
             (tabSalesInvoice s ++ [with_si_name draft (autoname draft s)]))).
Proof.
  intros Hc0 Hno Hitem Hname. apply String.eqb_neq in Hname.
  unfold create_sales_invoice, bind, gets, get_doc, when, throw, ret, frappe_throw.
  rewrite Hc0. simpl. rewrite Hno, Hitem. simpl. rewrite Hname. simpl.
  unfold insert_sales_invoice, db_set_value, modify. simpl.
  now rewrite (lookup_clearance_name _ _ _ Hc0).
Qed.

(** Once [create_sales_invoice] has succeeded and the new invoice has a
    non-empty name, a second call on the same clearance raises "Sales Invoice
    already created" naming that invoice: at most one invoice is linked by
    this entry point. *)
Theorem create_sales_invoice_second_call_fails
  (n : string) (s : Site) (c0 : CustomClearance) (item : Item) :
  lookup_clearance n s = Some c0 ->
  truthy (sales_invoice c0) = false ->
  find (fun i => item_code i =? "Custom Clearance Service") (tabItem s) = Some item ->
  item_name item <> "" ->
  autoname (new_sales_invoice c0 (item_name item) (today s)
              (sales_invoice_has_custom_custom_clearance s)) s <> "" ->
  exists inv s1,
    create_sales_invoice autoname get_desk_link n s = Ok (inv, s1)
    /\ create_sales_invoice autoname get_desk_link n s1
       = Raise (mk_exc ValidationError
                  ("Sales Invoice already created: "
                   ++ get_desk_link "Sales Invoice" inv)).
Proof.
  intros Hc0 Hno Hitem Hname Hauto.
  eexists. eexists. split.
  - rewrite (create_sales_invoice_run n s c0 item Hc0 Hno Hitem Hname).
    reflexivity.
  - apply String.eqb_neq in Hauto.
    unfold create_sales_invoice, bind, gets, get_doc, when, throw, ret, frappe_throw.
    rewrite lookup_update_row by (intros c Hc; exact Hc).
    rewrite String.eqb_refl.
    change (lookup_clearance n (with_tabSalesInvoice s _))
      with (lookup_clearance n s).
    rewrite Hc0. simpl. now rewrite Hauto.
Qed.

Lemma handle_sales_invoice_cancel_run
  (doc : SalesInvoice) (method n : string) (s : Site) (c0 : CustomClearance) :
  clearance_of_invoice (si_name doc) s = Some n ->
  n <> "" ->
  lookup_clearance n s = Some c0 ->
  let cleared :=
    update_row n (fun c => set_payment_date c None)
      (update_row n (fun c => set_payment_status c "Pending")
         (update_row n (fun c => set_sales_invoice c None) s)) in
  handle_sales_invoice_cancel doc method s
  = Ok (tt,
        if str_in (status c0) ["Green"; "Yellow"; "Red"]
        then update_row n (fun c => set_status c "Review") cleared
        else cleared).
Proof.
  intros Hinv Hne Hc0. apply String.eqb_neq in Hne.
  unfold handle_sales_invoice_cancel, bind, gets, db_set_value, modify, when, ret.
  rewrite Hinv. cbn -[str_in update_row lookup_clearance]. rewrite Hne.
  cbn -[str_in update_row lookup_clearance].
  rewrite !lookup_update_row by (intros c Hc; exact Hc).
  rewrite String.eqb_refl, Hc0. cbn -[str_in update_row].
  destruct (str_in (status c0) ["Green"; "Yellow"; "Red"]); reflexivity.
Qed.

(** After the cancellation handler has run for the invoice linked to a
    clearance, [create_sales_invoice] on that clearance no longer fails as a
    duplicate: on a site with the service item it creates and links a new
    invoice. *)
Theorem cancel_then_create_sales_invoice
  (doc : SalesInvoice) (method n : string) (s : Site) (c0 : CustomClearance)
  (item : Item) :
  clearance_of_invoice (si_name doc) s = Some n ->
  n <> "" ->
  lookup_clearance n s = Some c0 ->
  find (fun i => item_code i =? "Custom Clearance Service") (tabItem s) = Some item ->
  item_name item <> "" ->
  exists s1 inv s2,
    handle_sales_invoice_cancel doc method s = Ok (tt, s1)
    /\ create_sales_invoice autoname get_desk_link n s1 = Ok (inv, s2)
    /\ option_map sales_invoice (lookup_clearance n s2) = Some (Some inv)
    /\ length (tabSalesInvoice s2) = S (length (tabSalesInvoice s)).
Proof.
  intros Hinv Hne Hc0 Hitem Hname.
  pose proof (handle_sales_invoice_cancel_run doc method n s c0 Hinv Hne Hc0) as Hrun.
  cbv zeta in Hrun.
  set (cleared :=
         update_row n (fun c => set_payment_date c None)
           (update_row n (fun c => set_payment_status c "Pending")
              (update_row n (fun c => set_sales_invoice c None) s))) in *.
  set (s1 := if str_in (status c0) ["Green"; "Yellow"; "Red"]
             then update_row n (fun c => set_status c "Review") cleared
             else cleared) in *.
  assert (Hitems : tabItem s1 = tabItem s)
    by (unfold s1; destruct (str_in _ _); reflexivity).
  assert (Htab : tabSalesInvoice s1 = tabSalesInvoice s)
    by (unfold s1; destruct (str_in _ _); reflexivity).
  assert (Hl : exists c1, lookup_clearance n s1 = Some c1 /\ sales_invoice c1 = None).
  { unfold s1, cleared. destruct (str_in _ _);
      rewrite !lookup_update_row by (intros c Hc; exact Hc);
      rewrite String.eqb_refl, Hc0; eexists; split; reflexivity. }
  destruct Hl as (c1 & Hc1 & Hnone).
  assert (Hno : truthy (sales_invoice c1) = false) by now rewrite Hnone.
  rewrite <- Hitems in Hitem.
  pose proof (create_sales_invoice_run n s1 c1 item Hc1 Hno Hitem Hname) as Hcreate.
  cbv zeta in Hcreate.
  eexists. eexists. eexists.
  split; [exact Hrun |]. split; [exact Hcreate |]. split.
  - rewrite lookup_update_row by (intros c Hc; exact Hc).
    rewrite String.eqb_refl.
    change (lookup_clearance n (with_tabSalesInvoice s1 _))
      with (lookup_clearance n s1).
    now rewrite Hc1.
  - simpl. now rewrite last_length, Htab.
Qed.

End InvoiceLifecycle.

Lemma create_sales_invoice_second_call_fails_witness :
  exists inv s1,
    create_sales_invoice (fun _ _ => "ACC-SINV-2026-00001") (fun _ n => n)
      "CC-0001" invoice_site = Ok (inv, s1)
    /\ create_sales_invoice (fun _ _ => "ACC-SINV-2026-00001") (fun _ n => n)
         "CC-0001" s1
       = Raise (mk_exc ValidationError
                  ("Sales Invoice already created: " ++ inv)).
Proof.
  apply (create_sales_invoice_second_call_fails
           (fun _ _ => "ACC-SINV-2026-00001") (fun _ n => n) "CC-0001" invoice_site
           (set_amount (sample_clearance "CC-0001" "ACME" "In Review" None [])
              (Some (1500 # 1)%Q))
           {| item_name := "Custom Clearance Service";
              item_code := "Custom Clearance Service" |});
    try reflexivity; cbv; discriminate.
Defined.

Lemma cancel_then_create_sales_invoice_witness :
  exists s1 inv s2,
    handle_sales_invoice_cancel (mirror_invoice "Cancelled") "on_cancel" relink_site
    = Ok (tt, s1)
    /\ create_sales_invoice (fun _ _ => "ACC-SINV-2026-00002") (fun _ n => n)
         "CC-0001" s1 = Ok (inv, s2)
    /\ option_map sales_invoice (lookup_clearance "CC-0001" s2) = Some (Some inv)
    /\ length (tabSalesInvoice s2) = 2.
Proof.
  apply (cancel_then_create_sales_invoice
           (fun _ _ => "ACC-SINV-2026-00002") (fun _ n => n)
           (mirror_invoice "Cancelled") "on_cancel" "CC-0001" relink_site cancel_doc
           {| item_name := "Custom Clearance Service";
              item_code := "Custom Clearance Service" |});
    try reflexivity; cbv; discriminate.
Defined.

(** ** The store *)

Local Open Scope store_scope.

Lemma with_site_same (st : Store) : with_site st (site st) = st.
Proof. now destruct st. Qed.

Lemma on_site_readonly {A : Type} (m : M A) (st : Store) (a : A) :
  m (site st) = Ok (a, site st) -> on_site m st = Ok (a, st).
Proof. intros H. unfold on_site. now rewrite H, with_site_same. Qed.

Lemma on_site_raise {A : Type} (m : M A) (st : Store) (e : exception) :
  m (site st) = Raise e -> on_site m st = Raise e.
Proof. intros H. unfold on_site. now rewrite H. Qed.

(** ** Who may use the customer-or-administrator entry points *)

Lemma require_linked_customer_refuses
  (c0 : CustomClearance) (msg : string) (s : Site) (r : option string) :
  session_user s <> "Administrator" ->
  linked_customer (session_user s) s = Ok (r, s) ->
  truthy r && opt_eqb r (customer c0) = false ->
  require_linked_customer c0 msg s = Raise (mk_exc PermissionError msg).
Proof.
  intros Ha Hl Hr. apply String.eqb_neq in Ha.
  unfold require_linked_customer, bind, gets. rewrite Ha. simpl. rewrite Hl.
  unfold when, throw, frappe_throw.
  destruct (truthy r), (opt_eqb r (customer c0)); try discriminate; reflexivity.
Qed.

Lemma require_linked_customer_passes
  (c0 : CustomClearance) (msg : string) (s : Site) :
  require_linked_customer c0 msg s = Ok (tt, s) ->
  session_user s = "Administrator"
  \/ exists r, linked_customer (session_user s) s = Ok (r, s)
               /\ truthy r && opt_eqb r (customer c0) = true.
Proof.
  unfold require_linked_customer, bind, gets.
  destruct (session_user s =? "Administrator") eqn:Ha; simpl.
  - intros _. left. now apply String.eqb_eq.
  - destruct (linked_customer (session_user s) s) as [[r s1]|] eqn:Hl; [| discriminate].
    pose proof (linked_customer_readonly _ _ _ _ Hl). subst s1.
    unfold when, throw, frappe_throw.
    destruct (truthy r) eqn:Ht, (opt_eqb r (customer c0)) eqn:Ho;
      simpl; try discriminate.
    intros _. right. exists r. now rewrite Ht, Ho.
Qed.

Section CommentFacts.

Variable get_fullname : string -> Store -> string.
Variable format_value_currency : Q -> string.
Variable autoname_comment : Comment -> Store -> string.
Variable now : Store -> string.

Lemma add_comment_run
  (n text : string) (extra : option Q) (url : option string)
  (st : Store) (c0 : CustomClearance) :
  session_user (site st) <> "Guest" ->
  lookup_clearance n (site st) = Some c0 ->
  require_linked_customer c0
    "You don't have permission to comment on this Custom Clearance" (site st)
  = Ok (tt, site st) ->
  add_comment get_fullname format_value_currency autoname_comment now n text extra url st
  = Ok ({| ac_success := true; ac_message := "Comment added successfully";
           ac_comment_name :=
             comment_name (filed_comment get_fullname format_value_currency autoname_comment now
                (session_user (site st)) n text extra st) |},
        with_tabComment st
          (tabComment st ++ [filed_comment get_fullname format_value_currency autoname_comment now
             (session_user (site st)) n text extra st])).
Proof.
  intros Hg Hc0 Hperm. apply String.eqb_neq in Hg.
  unfold add_comment, rbind, rgets, rwhen, rthrow, rret.
  rewrite Hg.
  rewrite (on_site_readonly (get_doc n) st c0)
    by (unfold get_doc; now rewrite Hc0).
  rewrite (on_site_readonly _ st tt Hperm).
  unfold insert_comment. cbn -[filed_comment nl].
  unfold on_site, db_commit, ret. cbn -[filed_comment nl].
  unfold with_site, with_tabComment. cbn -[nl]. reflexivity.
Qed.

(** [add_comment] by a caller who passes its permission block files exactly
    one comment, published, of type "Comment", on the named clearance, owned
    by and attributed to the caller, and returns its name; its text is the
    given text, followed by the "Additional Payment Required" clause exactly
    when a non-zero payment amount is given.  The site (every clearance
    included) and the other tables stay as they were, and the attachment URL
    has no effect at all. *)
Theorem add_comment_files_one_comment
  (n text : string) (extra : option Q) (url : option string)
  (st : Store) (c0 : CustomClearance) :
  session_user (site st) <> "Guest" ->
  lookup_clearance n (site st) = Some c0 ->
  require_linked_customer c0
    "You don't have permission to comment on this Custom Clearance" (site st)
  = Ok (tt, site st) ->
  exists c st',
    add_comment get_fullname format_value_currency autoname_comment now n text extra url st
    = Ok ({| ac_success := true; ac_message := "Comment added successfully";
             ac_comment_name := comment_name c |}, st')
    /\ add_comment get_fullname format_value_currency autoname_comment now
         n text extra None st
       = add_comment get_fullname format_value_currency autoname_comment now
           n text extra url st
    /\ tabComment st' = (tabComment st ++ [c])%list
    /\ site st' = site st
    /\ tabToDo st' = tabToDo st
    /\ is_published_comment_on n c = true
    /\ owner c = session_user (site st)
    /\ comment_email c = Some (session_user (site st))
    /\ (truthy_num extra = false -> content c = text)
    /\ (forall q, extra = Some q -> truthy_num extra = true ->
          content c = text ++ nl ++ nl ++ "<b>Additional Payment Required: "
                      ++ format_value_currency q ++ "</b>").
Proof.
  intros Hg Hc0 Hperm.
  eexists. eexists. split; [apply (add_comment_run n text extra url st c0 Hg Hc0 Hperm) |].
  split; [reflexivity |].
  split; [reflexivity |]. split; [reflexivity |]. split; [reflexivity |].
  split.
  { unfold is_published_comment_on. cbn -[nl]. now rewrite String.eqb_refl. }
  split; [reflexivity |]. split; [reflexivity |]. split.
  - intros H. cbn -[nl]. destruct extra as [q|]; [| reflexivity]. now rewrite H.
  - intros q -> H. cbn -[nl truthy_num]. now rewrite H.
Qed.

End CommentFacts.

Lemma add_comment_files_one_comment_witness :
  exists c st',
    add_comment (fun u _ => u) (fun _ => "1,500.00") (fun _ _ => "cmt-0001")
      (fun _ => "2026-01-15 10:00:00")
      "CC-0001" "Please pay the storage fee" (Some (1500 # 1)%Q)
      (Some "/files/fee.pdf") (sample_store portal_site)
    = Ok ({| ac_success := true; ac_message := "Comment added successfully";
             ac_comment_name := comment_name c |}, st')
    /\ tabComment st' = [c]
    /\ owner c = "alice@acme.example"
    /\ content c
       = "Please pay the storage fee" ++ nl ++ nl
         ++ "<b>Additional Payment Required: 1,500.00</b>".
Proof.
  destruct (add_comment_files_one_comment
              (fun u _ => u) (fun _ => "1,500.00") (fun _ _ => "cmt-0001")
              (fun _ => "2026-01-15 10:00:00")
              "CC-0001" "Please pay the storage fee" (Some (1500 # 1)%Q)
              (Some "/files/fee.pdf") (sample_store portal_site)
              (sample_clearance "CC-0001" "ACME" "In Review" None []))
    as (c & st' & Hrun & _ & Htab & _ & _ & _ & Howner & _ & _ & Hcontent);
    [cbv; discriminate | reflexivity | reflexivity |].
  exists c, st'. repeat split; try assumption.
  apply (Hcontent (1500 # 1)%Q); reflexivity.
Defined.

(** ** Reading the comments back *)

Lemma get_doc_user_readonly (n : string) (s s' : Site) (u : User) :
  get_doc_user n s = Ok (u, s') -> s' = s.
Proof.
  unfold get_doc_user. destruct (find _ _); [| discriminate]. congruence.
Qed.

Lemma comment_is_customer_readonly
  (c0 : CustomClearance) (c : Comment) (s s' : Site) (b : bool) :
  comment_is_customer c0 c s = Ok (b, s') -> s' = s.
Proof.
  unfold comment_is_customer, bind, ret.
  destruct (negb (owner c =? "Administrator")); [| congruence].
  destruct (get_doc_user (owner c) s) as [[u s1]|] eqn:Hu; [| discriminate].
  apply get_doc_user_readonly in Hu. subst s1.
  destruct (linked_customer (owner c) s) as [[r s1]|] eqn:Hl; [| discriminate].
  apply linked_customer_readonly in Hl. subst s1. congruence.
Qed.

Lemma view_comments_readonly
  (c0 : CustomClearance) (l : list Comment) (s s' : Site) (v : list CommentView) :
  view_comments c0 l s = Ok (v, s') -> s' = s.
Proof.
  revert v s'. induction l as [|c l IH]; simpl; intros v s'.
  - unfold ret. congruence.
  - unfold bind.
    destruct (comment_is_customer c0 c s) as [[b s1]|] eqn:Hc; [| discriminate].
    apply comment_is_customer_readonly in Hc. subst s1.
    destruct (view_comments c0 l s) as [[v1 s1]|] eqn:Hv; [| discriminate].
    pose proof (IH _ _ eq_refl). subst s1. unfold ret. congruence.
Qed.

(** One more comment at the end is one more view at the end. *)
Lemma view_comments_snoc
  (c0 : CustomClearance) (l : list Comment) (c : Comment) (s : Site)
  (v : list CommentView) (b : bool) :
  view_comments c0 l s = Ok (v, s) ->
  comment_is_customer c0 c s = Ok (b, s) ->
  view_comments c0 (l ++ [c]) s
  = Ok ((v ++ [ {| cv_name := comment_name c;
                   cv_content := content c;
                   cv_comment_by := or_else (comment_by c) (comment_email c);
                   cv_comment_email := comment_email c;
                   cv_creation := creation c;
                   cv_owner := owner c;
                   cv_is_customer := b |} ])%list, s).
Proof.
  revert v. induction l as [|x l IH]; simpl; intros v Hv Hc.
  - unfold ret in Hv. inversion Hv; subst. unfold bind, ret. now rewrite Hc.
  - unfold bind in *.
    destruct (comment_is_customer c0 x s) as [[bx s1]|] eqn:Hx; [| discriminate].
    pose proof (comment_is_customer_readonly _ _ _ _ _ Hx). subst s1.
    destruct (view_comments c0 l s) as [[v1 s1]|] eqn:Hl; [| discriminate].
    pose proof (view_comments_readonly _ _ _ _ _ Hl). subst s1.
    unfold ret in Hv. inversion Hv; subst.
    rewrite (IH v1 eq_refl Hc). reflexivity.
Qed.

Lemma get_comments_run (n : string) (st : Store) (c0 : CustomClearance) :
  session_user (site st) <> "Guest" ->
  lookup_clearance n (site st) = Some c0 ->
  require_linked_customer c0
    "You don't have permission to view comments for this Custom Clearance" (site st)
  = Ok (tt, site st) ->
  get_comments n st
  = match view_comments c0 (filter (is_published_comment_on n) (tabComment st))
            (site st) with
    | Ok (views, _) => Ok ({| gc_success := true; gc_comments := views |}, st)
    | Raise e => Raise e
    end.
Proof.
  intros Hg Hc0 Hperm. apply String.eqb_neq in Hg.
  unfold get_comments, rbind, rgets, rwhen, rthrow, rret.
  rewrite Hg.
  rewrite (on_site_readonly (get_doc n) st c0)
    by (unfold get_doc; now rewrite Hc0).
  rewrite (on_site_readonly _ st tt Hperm).
  unfold on_site.
  destruct (view_comments c0 _ (site st)) as [[v s1]|] eqn:Hv; [| reflexivity].
  apply view_comments_readonly in Hv. subst s1. now rewrite with_site_same.
Qed.

Lemma require_linked_customer_message
  (c0 : CustomClearance) (msg msg' : string) (s : Site) :
  require_linked_customer c0 msg s = Ok (tt, s) ->
  require_linked_customer c0 msg' s = Ok (tt, s).
Proof.
  unfold require_linked_customer, bind, gets, when, throw, ret, frappe_throw.
  destruct (negb (session_user s =? "Administrator")); [| trivial].
  destruct (linked_customer (session_user s) s) as [[r s1]|]; [| discriminate].
  destruct (_ || _); [discriminate | trivial].
Qed.

Section CommentRoundTrip.

Variable get_fullname : string -> Store -> string.
Variable format_value_currency : Q -> string.
Variable autoname_comment : Comment -> Store -> string.
Variable now : Store -> string.

(** A comment filed by [add_comment] is read back by [get_comments]: for a
    caller who may comment, and who, unless the administrator, has a User
    document, the listing after the call is the listing before it followed by
    the new comment, shown with the caller as owner and flagged [is_customer]
    exactly when the caller is not the administrator. *)
Theorem add_comment_then_get_comments
  (n text : string) (extra : option Q) (url : option string)
  (st st0 : Store) (c0 : CustomClearance) (before : CommentsResponse) :
  session_user (site st) <> "Guest" ->
  lookup_clearance n (site st) = Some c0 ->
  require_linked_customer c0
    "You don't have permission to comment on this Custom Clearance" (site st)
  = Ok (tt, site st) ->
  (session_user (site st) = "Administrator"
   \/ exists u, find (fun u => user_name u =? session_user (site st))
                     (tabUser (site st)) = Some u) ->
  get_comments n st = Ok (before, st0) ->
  exists r st1 c,
    add_comment get_fullname format_value_currency autoname_comment now
      n text extra url st = Ok (r, st1)
    /\ tabComment st1 = (tabComment st ++ [c])%list
    /\ comment_name c = ac_comment_name r
    /\ get_comments n st1
       = Ok ({| gc_success := true;
                gc_comments :=
                  (gc_comments before ++
                   [ {| cv_name := comment_name c;
                        cv_content := content c;
                        cv_comment_by :=
                          or_else (Some (get_fullname (session_user (site st)) st))
                                  (Some (session_user (site st)));
                        cv_comment_email := Some (session_user (site st));
                        cv_creation := now st;
                        cv_owner := session_user (site st);
                        cv_is_customer :=
                          negb (session_user (site st) =? "Administrator") |} ])%list |},
             st1).
Proof.
  intros Hg Hc0 Hperm Huser Hbefore.
  pose proof (require_linked_customer_message c0 _
    "You don't have permission to view comments for this Custom Clearance" _ Hperm)
    as Hview.
  rewrite (get_comments_run n st c0 Hg Hc0 Hview) in Hbefore.
  destruct (view_comments c0 _ (site st)) as [[views s1]|] eqn:Hv; [| discriminate].
  pose proof (view_comments_readonly _ _ _ _ _ Hv). subst s1.
  inversion Hbefore; subst before st0. clear Hbefore.
  set (c := filed_comment get_fullname format_value_currency autoname_comment now
              (session_user (site st)) n text extra st).
  eexists. exists (with_tabComment st (tabComment st ++ [c])), c.
  split; [apply (add_comment_run _ _ _ _ n text extra url st c0 Hg Hc0 Hperm) |].
  split; [reflexivity |]. split; [reflexivity |].
  rewrite (get_comments_run n (with_tabComment st (tabComment st ++ [c])) c0
             Hg Hc0 Hview).
  change (tabComment (with_tabComment st (tabComment st ++ [c])))
    with (tabComment st ++ [c])%list.
  change (site (with_tabComment st (tabComment st ++ [c]))) with (site st).
  rewrite filter_app.
  assert (Hpub : filter (is_published_comment_on n) [c] = [c]).
  { simpl. unfold is_published_comment_on. cbn -[nl]. now rewrite String.eqb_refl. }
  rewrite Hpub.
  assert (Hflag : comment_is_customer c0 c (site st)
                  = Ok (negb (session_user (site st) =? "Administrator"), site st)).
  { unfold comment_is_customer.
    change (owner c) with (session_user (site st)).
    destruct (session_user (site st) =? "Administrator") eqn:Ha; [reflexivity |].
    apply String.eqb_neq in Ha. simpl.
    destruct Huser as [Hadm | [u Hu]]; [contradiction |].
    destruct (require_linked_customer_passes _ _ _ Hperm) as [Hadm | [r [Hl Hr]]];
      [contradiction |].
    unfold bind, get_doc_user. rewrite Hu, Hl. unfold ret. now rewrite Hr. }
  rewrite (view_comments_snoc c0 _ c (site st) views _ Hv Hflag).
  reflexivity.
Qed.

End CommentRoundTrip.

(** ** A comment whose owner has no User document *)

Lemma linked_customer_raise_kind (user : string) (s : Site) (e : exception) :
  linked_customer user s = Raise e -> exc_kind e = DoesNotExistError.
Proof.
  unfold linked_customer, bind, gets, ret, get_doc_contact, frappe_throw.
  destruct (option_map contact_name _) as [contact_id|]; simpl.
  - destruct (negb (contact_id =? "")).
    + destruct (find _ _).
      * repeat (case_step; simpl); discriminate.
      * intros H. now inversion H.
    + repeat (case_step; simpl); discriminate.
  - repeat (case_step; simpl); discriminate.
Qed.

Lemma comment_is_customer_raise_kind
  (c0 : CustomClearance) (c : Comment) (s : Site) (e : exception) :
  comment_is_customer c0 c s = Raise e -> exc_kind e = DoesNotExistError.
Proof.
  unfold comment_is_customer, bind, ret, get_doc_user, frappe_throw.
  destruct (negb (owner c =? "Administrator")); [| discriminate].
  destruct (find _ (tabUser s)); [| intros H; now inversion H].
  destruct (linked_customer (owner c) s) as [[r s1]|e'] eqn:Hl; [discriminate |].
  intros H. inversion H; subst. now apply linked_customer_raise_kind in Hl.
Qed.

Lemma view_comments_missing_owner
  (c0 : CustomClearance) (l : list Comment) (s : Site) (c : Comment) :
  In c l ->
  owner c <> "Administrator" ->
  find (fun u => user_name u =? owner c) (tabUser s) = None ->
  exists e, view_comments c0 l s = Raise e /\ exc_kind e = DoesNotExistError.
Proof.
  intros Hin Ho Hu. induction l as [|x l IH]; [contradiction |].
  simpl. unfold bind.
  destruct (comment_is_customer c0 x s) as [[b s1]|e] eqn:Hx.
  - pose proof (comment_is_customer_readonly _ _ _ _ _ Hx). subst s1.
    destruct Hin as [-> | Hin].
    + exfalso. apply String.eqb_neq in Ho.
      unfold comment_is_customer, bind, get_doc_user, frappe_throw in Hx.
      rewrite Ho in Hx. cbn beta iota delta [negb] in Hx. rewrite Hu in Hx.
      discriminate.
    + destruct (IH Hin) as (e & He & Hk). rewrite He. now exists e.
  - exists e. split; [reflexivity |]. now apply comment_is_customer_raise_kind in Hx.
Qed.

(** If a published comment on the clearance is owned by a user, other than
    the administrator, who has no User document, [get_comments] raises
    DoesNotExistError for every caller that may read the comments: no comment
    of the clearance can be listed. *)
Theorem get_comments_fails_on_ownerless_comment
  (n : string) (st : Store) (c0 : CustomClearance) (c : Comment) :
  session_user (site st) <> "Guest" ->
  lookup_clearance n (site st) = Some c0 ->
  require_linked_customer c0
    "You don't have permission to view comments for this Custom Clearance" (site st)
  = Ok (tt, site st) ->
  In c (tabComment st) ->
  is_published_comment_on n c = true ->
  owner c <> "Administrator" ->
  find (fun u => user_name u =? owner c) (tabUser (site st)) = None ->
  exists e, get_comments n st = Raise e /\ exc_kind e = DoesNotExistError.
Proof.
  intros Hg Hc0 Hperm Hin Hpub Ho Hu.
  rewrite (get_comments_run n st c0 Hg Hc0 Hperm).
  destruct (view_comments_missing_owner c0
              (filter (is_published_comment_on n) (tabComment st)) (site st) c)
    as (e & He & Hk); try assumption.
  - apply filter_In. now split.
  - exists e. now rewrite He.
Qed.

Lemma add_comment_then_get_comments_witness :
  exists r st1,
    add_comment (fun u _ => u) (fun _ => "1,500.00") (fun _ _ => "cmt-0001")
      (fun _ => "2026-01-15 10:00:00")
      "CC-0001" "Receipt uploaded" None None (sample_store portal_site) = Ok (r, st1)
    /\ get_comments "CC-0001" st1
       = Ok ({| gc_success := true;
                gc_comments :=
                  [ {| cv_name := "cmt-0001";
                       cv_content := "Receipt uploaded";
                       cv_comment_by := Some "alice@acme.example";
                       cv_comment_email := Some "alice@acme.example";
                       cv_creation := "2026-01-15 10:00:00";
                       cv_owner := "alice@acme.example";
                       cv_is_customer := true |} ] |},
             st1).
Proof.
  destruct (add_comment_then_get_comments
              (fun u _ => u) (fun _ => "1,500.00") (fun _ _ => "cmt-0001")
              (fun _ => "2026-01-15 10:00:00")
              "CC-0001" "Receipt uploaded" None None
              (sample_store portal_site) (sample_store portal_site)
              (sample_clearance "CC-0001" "ACME" "In Review" None [])
              {| gc_success := true; gc_comments := [] |})
    as (r & st1 & c & Hrun & Htab & Hname & Hget);
    [cbv; discriminate | reflexivity | reflexivity
     | right; eexists; reflexivity | reflexivity |].
  exists r, st1. split; [exact Hrun|].
  rewrite Hget.
  cbv in Hrun. injection Hrun as _ Hst. subst st1.
  cbv in Htab. injection Htab as Hc. subst c. reflexivity.
Defined.

Lemma get_comments_fails_on_ownerless_comment_witness :
  exists e, get_comments "CC-0001" orphan_store = Raise e
            /\ exc_kind e = DoesNotExistError.
Proof.
  apply (get_comments_fails_on_ownerless_comment
           "CC-0001" orphan_store
           (sample_clearance "CC-0001" "ACME" "In Review" None []) orphan_comment);
    try reflexivity; try (cbv; discriminate).
  now left.
Defined.

(** ** Payment notifications *)

Lemma rbind_rgets {A B : Type} (f : Store -> A) (k : A -> R B) (st : Store) :
  rbind (rgets f) k st = k (f st) st.
Proof. reflexivity. Qed.

Lemma rbind_rlog {B : Type} (msg title : string) (k : unit -> R B) (st : Store) :
  rbind (rlog msg title) k st = k tt (logged msg title st).
Proof. reflexivity. Qed.

Lemma rbind_rret {A B : Type} (a : A) (k : A -> R B) (st : Store) :
  rbind (rret a) k st = k a st.
Proof. reflexivity. Qed.

Lemma rbind_ok {A B : Type} (m : R A) (k : A -> R B) (st st' : Store) (a : A) :
  m st = Ok (a, st') -> rbind m k st = k a st'.
Proof. intros H. unfold rbind. now rewrite H. Qed.

Lemma rbind_raise {A B : Type} (m : R A) (k : A -> R B) (st : Store) (e : exception) :
  m st = Raise e -> rbind m k st = Raise e.
Proof. intros H. unfold rbind. now rewrite H. Qed.

Lemma rtry_ok {A : Type} (m : R A) (h : exception -> R A) (st st' : Store) (a : A) :
  m st = Ok (a, st') -> rtry m h st = Ok (a, st').
Proof. intros H. unfold rtry. now rewrite H. Qed.

Lemma rtry_raise {A : Type} (m : R A) (h : exception -> R A) (st : Store)
  (e : exception) :
  m st = Raise e -> rtry m h st = h e st.
Proof. intros H. unfold rtry. now rewrite H. Qed.

Section PaymentNotificationFacts.

Variable get_all_contact_by_link : string -> string -> Site -> result (list string).
Variable todo_checks : ToDo -> Store -> result unit.
Variable autoname_todo : ToDo -> Store -> string.
Variable str_amount : Q -> string.
Variable format_currency : Q -> string.
Variable format_exc : exception -> string.

(** With a portal user on file for the customer, the addressee is that
    portal user and the Contact query is not made. *)
Lemma customer_user_of_portal_user
  (c0 : CustomClearance) (s : Site) (p : PortalUser) (ps : list PortalUser) :
  filter (fun q => (pu_parent q =? customer c0) && (pu_parenttype q =? "Customer"))
         (tabPortalUser s) = p :: ps ->
  customer_user_of get_all_contact_by_link c0 s = Ok (Some (pu_user p), s).
Proof.
  intros H. unfold customer_user_of, bind, gets, ret. now rewrite H.
Qed.

(** Up to the search for the addressee: a logged-in staff caller on an
    existing clearance gets through with two log entries. *)
Lemma send_payment_notification_staff
  (n row payment_type : string) (pay : Q)
  (branch account_number custom_id_code : option string)
  (st : Store) (c0 : CustomClearance) :
  session_user (site st) <> "Guest" ->
  lookup_clearance n (site st) = Some c0 ->
  is_staff_user (session_user (site st)) (site st) = true ->
  exists m1 m2,
    send_payment_notification get_all_contact_by_link todo_checks autoname_todo
      str_amount format_currency format_exc
      n row payment_type pay branch account_number custom_id_code st
    = rbind (on_site (customer_user_of get_all_contact_by_link c0))
        (file_payment_todo todo_checks autoname_todo format_currency format_exc
           c0 n payment_type pay branch account_number custom_id_code)
        (logged m2 "Payment Notification Debug"
           (logged m1 "Payment Notification Debug" st)).
Proof.
  intros Hg Hc0 Hstaff. apply String.eqb_neq in Hg.
  unfold send_payment_notification.
  rewrite rbind_rgets. cbv beta. rewrite rbind_rlog. cbv beta.
  rewrite Hg. rewrite rbind_rret.
  match goal with
  | |- context [logged ?m _ st] => set (st1 := logged m "Payment Notification Debug" st)
  end.
  assert (Hget : on_site (get_doc n) st1 = Ok (c0, st1)).
  { apply on_site_readonly. unfold get_doc.
    change (lookup_clearance n (site st1)) with (lookup_clearance n (site st)).
    now rewrite Hc0. }
  erewrite rbind_ok; cycle 1.
  { apply rtry_ok. rewrite (rbind_ok _ _ _ _ _ Hget). rewrite rbind_rlog.
    reflexivity. }
  rewrite rbind_rgets. cbv beta.
  match goal with
  | |- context [is_staff_user _ (site ?s2)] =>
      change (is_staff_user (session_user (site st)) (site s2))
        with (is_staff_user (session_user (site st)) (site st))
  end.
  rewrite Hstaff. unfold rwhen. simpl negb. cbv iota. rewrite rbind_rret.
  eexists. eexists. reflexivity.
Qed.

Lemma file_payment_todo_run
  (c0 : CustomClearance) (n payment_type : string) (pay : Q)
  (branch account_number custom_id_code : option string)
  (addressee : string) (st : Store) :
  addressee <> "" ->
  exists st3 draft,
    st3 = logged "Creating Todo document..." "Payment Notification Debug"
            (logged ("Todo description prepared: "
                     ++ substring 0 200
                          (todo_description format_currency n payment_type pay
                             branch account_number custom_id_code)
                     ++ "...") "Payment Notification Debug"
               (logged ("Customer user found: " ++ addressee)
                  "Payment Notification Debug" st))
    /\ draft = {| todo_name := "";
                  allocated_to := addressee;
                  description :=
                    todo_description format_currency n payment_type pay
                      branch account_number custom_id_code;
                  reference_type := "Custom Clearance";
                  todo_reference_name := n;
                  priority := "High";
                  todo_status := "Open" |}
    /\ file_payment_todo todo_checks autoname_todo format_currency format_exc
         c0 n payment_type pay branch account_number custom_id_code
         (Some addressee) st
       = match todo_checks draft st3 with
         | Ok _ =>
             let t :=
               {| todo_name := autoname_todo draft st3;
                  allocated_to := addressee;
                  description := description draft;
                  reference_type := "Custom Clearance";
                  todo_reference_name := n;
                  priority := "High";
                  todo_status := "Open" |} in
             let st4 := with_tabToDo st3 (tabToDo st3 ++ [t]) in
             Ok ({| tn_success := true; tn_message := "Todo created successfully";
                    tn_todo_name := todo_name t |},
                 logged ("SUCCESS: Todo created: " ++ todo_name t)
                   "Payment Notification Debug"
                   (with_site st4 (site st4)))
         | Raise e =>
             Raise (mk_exc ValidationError ("Error creating todo: " ++ exc_message e))
         end.
Proof.
  intros Hu. apply String.eqb_neq in Hu.
  eexists. eexists. split; [reflexivity |]. split; [reflexivity |].
  unfold file_payment_todo. unfold truthy. rewrite Hu. cbn [negb]. cbv zeta.
  rewrite rbind_rlog. rewrite rbind_rlog.
  unfold rtry. rewrite rbind_rlog.
  unfold rbind at 1. unfold insert_todo.
  destruct (todo_checks _ _) as [[]|e].
  - unfold rbind at 1. unfold on_site at 1, db_commit, ret.
    rewrite rbind_rlog. reflexivity.
  - rewrite rbind_rlog. reflexivity.
Qed.

(** When the customer has a portal user, [send_payment_notification] by a
    logged-in staff caller files exactly one task: a ToDo for that portal
    user (the Contact query is not even made), of priority "High" and status
    "Open", referring to the clearance and carrying the payment description;
    the name of the task is returned.  No clearance and no comment is
    touched. *)
Theorem send_payment_notification_creates_todo
  (n row payment_type : string) (pay : Q)
  (branch account_number custom_id_code : option string)
  (st : Store) (c0 : CustomClearance) (p : PortalUser) (ps : list PortalUser) :
  session_user (site st) <> "Guest" ->
  lookup_clearance n (site st) = Some c0 ->
  is_staff_user (session_user (site st)) (site st) = true ->
  filter (fun q => (pu_parent q =? customer c0) && (pu_parenttype q =? "Customer"))
         (tabPortalUser (site st)) = p :: ps ->
  pu_user p <> "" ->
  (forall d st', todo_checks d st' = Ok tt) ->
  exists t st',
    send_payment_notification get_all_contact_by_link todo_checks autoname_todo
      str_amount format_currency format_exc
      n row payment_type pay branch account_number custom_id_code st
    = Ok ({| tn_success := true; tn_message := "Todo created successfully";
             tn_todo_name := todo_name t |}, st')
    /\ tabToDo st' = (tabToDo st ++ [t])%list
    /\ allocated_to t = pu_user p
    /\ description t
       = todo_description format_currency n payment_type pay
           branch account_number custom_id_code
    /\ reference_type t = "Custom Clearance"
    /\ todo_reference_name t = n
    /\ priority t = "High"
    /\ todo_status t = "Open"
    /\ tabCustomClearance (site st') = tabCustomClearance (site st)
    /\ tabComment st' = tabComment st.
Proof.
  intros Hg Hc0 Hstaff Hportal Hp Hchecks.
  destruct (send_payment_notification_staff n row payment_type pay
              branch account_number custom_id_code st c0 Hg Hc0 Hstaff)
    as (m1 & m2 & Hrun).
  rewrite Hrun. clear Hrun.
  set (st2 := logged m2 "Payment Notification Debug"
                (logged m1 "Payment Notification Debug" st)).
  assert (Hcu : on_site (customer_user_of get_all_contact_by_link c0) st2
                = Ok (Some (pu_user p), st2)).
  { apply on_site_readonly. apply customer_user_of_portal_user with ps. exact Hportal. }
  rewrite (rbind_ok _ _ _ _ _ Hcu).
  destruct (file_payment_todo_run c0 n payment_type pay
              branch account_number custom_id_code (pu_user p) st2 Hp)
    as (st3 & draft & Hst3 & Hdraft & Hfile).
  rewrite Hfile, Hchecks. cbv zeta.
  eexists. eexists. split; [reflexivity |].
  subst st3 draft. repeat split.
Qed.

(** When the customer has neither a portal user nor a contact, the call of a
    logged-in staff caller raises "Customer user not found. Cannot create
    todo." and files nothing. *)
Theorem send_payment_notification_no_addressee
  (n row payment_type : string) (pay : Q)
  (branch account_number custom_id_code : option string)
  (st : Store) (c0 : CustomClearance) :
  session_user (site st) <> "Guest" ->
  lookup_clearance n (site st) = Some c0 ->
  is_staff_user (session_user (site st)) (site st) = true ->
  filter (fun q => (pu_parent q =? customer c0) && (pu_parenttype q =? "Customer"))
         (tabPortalUser (site st)) = [] ->
  (forall s', get_all_contact_by_link "Customer" (customer c0) s' = Ok []) ->
  send_payment_notification get_all_contact_by_link todo_checks autoname_todo
    str_amount format_currency format_exc
    n row payment_type pay branch account_number custom_id_code st
  = Raise (mk_exc ValidationError "Customer user not found. Cannot create todo.").
Proof.
  intros Hg Hc0 Hstaff Hportal Hcontacts.
  destruct (send_payment_notification_staff n row payment_type pay
              branch account_number custom_id_code st c0 Hg Hc0 Hstaff)
    as (m1 & m2 & Hrun).
  rewrite Hrun. clear Hrun.
  set (st2 := logged m2 "Payment Notification Debug"
                (logged m1 "Payment Notification Debug" st)).
  assert (Hcu : on_site (customer_user_of get_all_contact_by_link c0) st2
                = Ok (None, st2)).
  { apply on_site_readonly. unfold customer_user_of, bind, gets, ret.
    change (tabPortalUser (site st2)) with (tabPortalUser (site st)).
    rewrite Hportal. cbn [firstn]. cbv beta iota. now rewrite Hcontacts. }
  rewrite (rbind_ok _ _ _ _ _ Hcu).
  unfold file_payment_todo. rewrite rbind_rlog. reflexivity.
Qed.

(** When the ToDo cannot be inserted, the failure is not swallowed: the call
    raises a ValidationError "Error creating todo: ..." carrying the message
    of the failure. *)
Theorem send_payment_notification_insert_failure
  (n row payment_type : string) (pay : Q)
  (branch account_number custom_id_code : option string)
  (st : Store) (c0 : CustomClearance) (p : PortalUser) (ps : list PortalUser)
  (failure : exception) :
  session_user (site st) <> "Guest" ->
  lookup_clearance n (site st) = Some c0 ->
  is_staff_user (session_user (site st)) (site st) = true ->
  filter (fun q => (pu_parent q =? customer c0) && (pu_parenttype q =? "Customer"))
         (tabPortalUser (site st)) = p :: ps ->
  pu_user p <> "" ->
  (forall d st', todo_checks d st' = Raise failure) ->
  send_payment_notification get_all_contact_by_link todo_checks autoname_todo
    str_amount format_currency format_exc
    n row payment_type pay branch account_number custom_id_code st
  = Raise (mk_exc ValidationError ("Error creating todo: " ++ exc_message failure)).
Proof.
  intros Hg Hc0 Hstaff Hportal Hp Hchecks.
  destruct (send_payment_notification_staff n row payment_type pay
              branch account_number custom_id_code st c0 Hg Hc0 Hstaff)
    as (m1 & m2 & Hrun).
  rewrite Hrun. clear Hrun.
  set (st2 := logged m2 "Payment Notification Debug"
                (logged m1 "Payment Notification Debug" st)).
  assert (Hcu : on_site (customer_user_of get_all_contact_by_link c0) st2
                = Ok (Some (pu_user p), st2)).
  { apply on_site_readonly. apply customer_user_of_portal_user with ps. exact Hportal. }
  rewrite (rbind_ok _ _ _ _ _ Hcu).
  destruct (file_payment_todo_run c0 n payment_type pay
              branch account_number custom_id_code (pu_user p) st2 Hp)
    as (st3 & draft & Hst3 & Hdraft & Hfile).
  now rewrite Hfile, Hchecks.
Qed.

End PaymentNotificationFacts.

Lemma send_payment_notification_creates_todo_witness :
  exists t st',
    send_payment_notification (fun _ _ _ => Ok []) (fun _ _ => Ok tt)
      (fun _ _ => "todo-0001") (fun _ => "1500.0") (fun _ => "1,500.00")
      (fun e => exc_message e)
      "CC-0001" "pay-1" "First Payment" (1500 # 1)%Q
      (Some "Main Branch") (Some "1000123") None (sample_store payment_site)
    = Ok ({| tn_success := true; tn_message := "Todo created successfully";
             tn_todo_name := todo_name t |}, st')
    /\ tabToDo st' = [t]
    /\ allocated_to t = "alice@acme.example"
    /\ todo_reference_name t = "CC-0001".
Proof.
  destruct (send_payment_notification_creates_todo
              (fun _ _ _ => Ok []) (fun _ _ => Ok tt)
              (fun _ _ => "todo-0001") (fun _ => "1500.0") (fun _ => "1,500.00")
              (fun e => exc_message e)
              "CC-0001" "pay-1" "First Payment" (1500 # 1)%Q
              (Some "Main Branch") (Some "1000123") None (sample_store payment_site)
              payment_doc
              {| pu_user := "alice@acme.example"; pu_parent := "ACME";
                 pu_parenttype := "Customer" |} [])
    as (t & st' & Hrun & Htab & Hto & _ & _ & Href & _);
    try reflexivity; try (cbv; discriminate).
  exists t, st'. repeat split; assumption.
Defined.

Lemma send_payment_notification_no_addressee_witness :
  send_payment_notification (fun _ _ _ => Ok []) (fun _ _ => Ok tt)
    (fun _ _ => "todo-0001") (fun _ => "1500.0") (fun _ => "1,500.00")
    (fun e => exc_message e)
    "CC-0001" "pay-1" "First Payment" (1500 # 1)%Q
    (Some "Main Branch") (Some "1000123") None (sample_store no_item_site)
  = Raise (mk_exc ValidationError "Customer user not found. Cannot create todo.").
Proof.
  apply (send_payment_notification_no_addressee
           (fun _ _ _ => Ok []) (fun _ _ => Ok tt)
           (fun _ _ => "todo-0001") (fun _ => "1500.0") (fun _ => "1,500.00")
           (fun e => exc_message e)
           "CC-0001" "pay-1" "First Payment" (1500 # 1)%Q
           (Some "Main Branch") (Some "1000123") None (sample_store no_item_site)
           (sample_clearance "CC-0001" "ACME" "In Review" None []));
    try reflexivity; cbv; discriminate.
Defined.

Lemma send_payment_notification_insert_failure_witness :
  send_payment_notification (fun _ _ _ => Ok []) failing_todo_checks
    (fun _ _ => "todo-0001") (fun _ => "1500.0") (fun _ => "1,500.00")
    (fun e => exc_message e)
    "CC-0001" "pay-1" "First Payment" (1500 # 1)%Q
    (Some "Main Branch") (Some "1000123") None (sample_store payment_site)
  = Raise (mk_exc ValidationError
             "Error creating todo: Could not find Allocated To: alice@acme.example").
Proof.
  apply (send_payment_notification_insert_failure
           (fun _ _ _ => Ok []) failing_todo_checks
           (fun _ _ => "todo-0001") (fun _ => "1500.0") (fun _ => "1,500.00")
           (fun e => exc_message e)
           "CC-0001" "pay-1" "First Payment" (1500 # 1)%Q
           (Some "Main Branch") (Some "1000123") None (sample_store payment_site)
           payment_doc
           {| pu_user := "alice@acme.example"; pu_parent := "ACME";
              pu_parenttype := "Customer" |} []
           (mk_exc ValidationError "Could not find Allocated To: alice@acme.example"));
    try reflexivity; cbv; discriminate.
Defined.

(** ** Payment receipts *)

Lemma linked_customer_relog (user : string) (s : Site) (l : list (string * string)) :
  linked_customer user (with_tabErrorLog s l)
  = match linked_customer user s with
    | Ok (r, _) => Ok (r, with_tabErrorLog s l)
    | Raise e => Raise e
    end.
Proof.
  unfold linked_customer, bind, gets, ret, get_doc_contact, frappe_throw.
  cbn [tabContact tabPortalUser with_tabErrorLog].
  destruct (option_map contact_name _) as [contact_id|]; simpl.
  - destruct (negb (contact_id =? "")).
    + destruct (find _ _); [| reflexivity].
      repeat (case_step; simpl); congruence.
    + repeat (case_step; simpl); congruence.
  - repeat (case_step; simpl); congruence.
Qed.

Lemma require_linked_customer_relog
  (c0 : CustomClearance) (msg : string) (s : Site) (l : list (string * string)) :
  require_linked_customer c0 msg (with_tabErrorLog s l)
  = match require_linked_customer c0 msg s with
    | Ok (u, _) => Ok (u, with_tabErrorLog s l)
    | Raise e => Raise e
    end.
Proof.
  unfold require_linked_customer, bind, gets, when, throw, ret, frappe_throw.
  cbn [session_user with_tabErrorLog].
  destruct (negb (session_user s =? "Administrator")); [| reflexivity].
  rewrite linked_customer_relog.
  destruct (linked_customer (session_user s) s) as [[r s1]|]; [| reflexivity].
  destruct (_ || _); reflexivity.
Qed.

Section PaymentReceiptFacts.

Variable format_exc : exception -> string.

(** Up to the search for the payment row: a logged-in caller on an existing
    clearance reaches the permission block with two log entries written. *)
Lemma update_payment_receipt_start
  (n target url : string) (st : Store) (c0 : CustomClearance) :
  session_user (site st) <> "Guest" ->
  lookup_clearance n (site st) = Some c0 ->
  exists logs,
    update_payment_receipt format_exc n target url st
    = rbind (on_site (require_linked_customer c0
               "You don't have permission to upload payment receipt for this Custom Clearance"))
        (fun _ =>
           rlog ("Looking for payment row: " ++ target ++ nl
                 ++ "Total payments: "
                 ++ str_nat (if nonempty (payments_of n st)
                             then length (payments_of n st) else 0))
             "Payment Receipt Upload Debug" ;;;
           r <- (if nonempty (payments_of n st)
                 then attach_receipt (payments_of n st) target url
                 else rret (payments_of n st, false)) ;;
           let '(payments, payment_updated) := r in
           (if negb payment_updated then
              rlog ("ERROR: Payment row not found: " ++ target)
                "Payment Receipt Upload Debug" ;;;
              rthrow "Payment row not found" ValidationError
            else rret tt) ;;;
           rtry
             (rlog "Saving clearance document..." "Payment Receipt Upload Debug" ;;;
              _ <- save_with_payments c0 payments ;;
              on_site db_commit ;;;
              rlog "SUCCESS: Payment receipt updated" "Payment Receipt Upload Debug" ;;;
              rret {| success := true;
                      message := "Payment receipt updated successfully" |})
             (fun e =>
                rlog ("ERROR saving document: " ++ exc_message e ++ nl ++ format_exc e)
                  "Payment Receipt Upload Debug" ;;;
                reraise e))
        (relog st logs).
Proof.
  intros Hg Hc0. apply String.eqb_neq in Hg.
  unfold update_payment_receipt.
  rewrite rbind_rgets. cbv beta. rewrite rbind_rlog. cbv beta.
  rewrite Hg. rewrite rbind_rret.
  match goal with
  | |- context [logged ?m _ st] => set (st1 := logged m "Payment Receipt Upload Debug" st)
  end.
  assert (Hget : on_site (get_doc n) st1 = Ok (c0, st1)).
  { apply on_site_readonly. unfold get_doc.
    change (lookup_clearance n (site st1)) with (lookup_clearance n (site st)).
    now rewrite Hc0. }
  erewrite rbind_ok; cycle 1.
  { apply rtry_ok. rewrite (rbind_ok _ _ _ _ _ Hget). rewrite rbind_rlog.
    reflexivity. }
  rewrite rbind_rgets. cbv beta.
  eexists. reflexivity.
Qed.

(** The search loop when no row has the name: the rows come back unchanged,
    not found, whatever was logged. *)
Lemma attach_receipt_absent (l : list PaymentRow) (target url : string) (st : Store)
  (logs : list (string * string)) :
  (forall p, In p l -> pr_name p <> target) ->
  exists logs', attach_receipt l target url (relog st logs)
                = Ok ((l, false), relog st logs').
Proof.
  revert logs. induction l as [|p l IH]; intros logs H.
  - exists logs. reflexivity.
  - simpl. rewrite rbind_rlog.
    assert (Hp : (pr_name p =? target) = false)
      by (apply String.eqb_neq, H; now left).
    rewrite Hp.
    destruct (IH (logs ++ [(("Checking payment: " ++ pr_name p ++ " == " ++ target)%string,
                            "Payment Receipt Upload Debug")])%list)
      as (logs' & Hrest); [intros q Hq; apply H; now right |].
    change (logged ("Checking payment: " ++ pr_name p ++ " == " ++ target)
              "Payment Receipt Upload Debug" (relog st logs))
      with (relog st (logs ++ [(("Checking payment: " ++ pr_name p ++ " == " ++ target)%string,
                                "Payment Receipt Upload Debug")])%list).
    rewrite (rbind_ok _ _ _ _ _ Hrest). exists logs'. reflexivity.
Qed.

(** When the clearance has no payment row of the given name (no payment row
    at all included), [update_payment_receipt] by a caller who passes its
    permission block raises a plain ValidationError "Payment row not found",
    where the document-row entry points raise DoesNotExistError. *)
Theorem update_payment_receipt_row_not_found
  (n target url : string) (st : Store) (c0 : CustomClearance) :
  session_user (site st) <> "Guest" ->
  lookup_clearance n (site st) = Some c0 ->
  require_linked_customer c0
    "You don't have permission to upload payment receipt for this Custom Clearance"
    (site st) = Ok (tt, site st) ->
  (forall p, In p (payments_of n st) -> pr_name p <> target) ->
  update_payment_receipt format_exc n target url st
  = Raise (mk_exc ValidationError "Payment row not found").
Proof.
  intros Hg Hc0 Hperm Habsent.
  destruct (update_payment_receipt_start n target url st c0 Hg Hc0) as (logs & Hrun).
  rewrite Hrun. clear Hrun.
  assert (Hp : on_site (require_linked_customer c0
                 "You don't have permission to upload payment receipt for this Custom Clearance")
                 (relog st logs) = Ok (tt, relog st logs)).
  { apply on_site_readonly.
    change (site (relog st logs)) with (with_tabErrorLog (site st) logs).
    now rewrite require_linked_customer_relog, Hperm. }
  rewrite (rbind_ok _ _ _ _ _ Hp). rewrite rbind_rlog.
  match goal with
  | |- context [logged ?m ?t (relog st logs)] =>
      change (logged m t (relog st logs)) with (relog st (logs ++ [(m, t)])%list);
      set (logs2 := (logs ++ [(m, t)])%list)
  end.
  destruct (nonempty (payments_of n st)) eqn:Hne.
  - destruct (attach_receipt_absent (payments_of n st) target url st logs2 Habsent)
      as (logs' & Hloop).
    rewrite (rbind_ok _ _ _ _ _ Hloop). reflexivity.
  - rewrite rbind_rret. reflexivity.
Qed.

(** What the search loop does to a row. *)
Lemma attach_receipt_found (l : list PaymentRow) (target url : string) (st : Store)
  (logs : list (string * string)) (p : PaymentRow) :
  NoDup (map pr_name l) ->
  In p l ->
  pr_name p = target ->
  exists logs',
    attach_receipt l target url (relog st logs)
    = Ok ((map (fun r => if pr_name r =? target
                         then set_pr_attachment r (Some url) else r) l, true),
          relog st logs').
Proof.
  revert logs. induction l as [|x l IH]; intros logs Hnd Hin Hp; [contradiction |].
  simpl. rewrite rbind_rlog.
  change (logged ("Checking payment: " ++ pr_name x ++ " == " ++ target)
            "Payment Receipt Upload Debug" (relog st logs))
    with (relog st (logs ++ [(("Checking payment: " ++ pr_name x ++ " == " ++ target)%string,
                              "Payment Receipt Upload Debug")])%list).
  inversion Hnd as [|y ys Hnotin Hnd']; subst.
  destruct (pr_name x =? pr_name p) eqn:Hx.
  - apply String.eqb_eq in Hx. rewrite rbind_rlog.
    eexists. unfold rret. f_equal. f_equal; [| reflexivity]. f_equal. f_equal.
    symmetry. rewrite <- (map_id l) at 2. apply map_ext_in. intros r Hr.
    destruct (pr_name r =? pr_name p) eqn:Hr'; [| reflexivity].
    apply String.eqb_eq in Hr'. exfalso. apply Hnotin. rewrite Hx, <- Hr'.
    now apply in_map.
  - apply String.eqb_neq in Hx.
    destruct Hin as [-> | Hin]; [contradiction |].
    destruct (IH (logs ++ [(("Checking payment: " ++ pr_name x ++ " == " ++ pr_name p)%string,
                            "Payment Receipt Upload Debug")])%list Hnd' Hin eq_refl)
      as (logs' & Hrest).
    rewrite (rbind_ok _ _ _ _ _ Hrest). exists logs'. reflexivity.
Qed.

Lemma find_by_name_in_map (l : list PaymentRow) (g : PaymentRow -> PaymentRow)
  (p : PaymentRow) :
  (forall r, pr_name (g r) = pr_name r) ->
  NoDup (map pr_name l) ->
  In p l ->
  find (fun q => pr_name q =? pr_name p) (map g l) = Some (g p).
Proof.
  intros Hg. induction l as [|x l IH]; intros Hnd Hin; [contradiction |].
  inversion Hnd as [|y ys Hnotin Hnd']; subst. simpl. rewrite Hg.
  destruct Hin as [-> | Hin].
  - now rewrite String.eqb_refl.
  - destruct (pr_name x =? pr_name p) eqn:Hx; [| now apply IH].
    apply String.eqb_eq in Hx. exfalso. apply Hnotin. rewrite Hx. now apply in_map.
Qed.

Lemma NoDup_map_filter (f : PaymentRow -> bool) (l : list PaymentRow) :
  NoDup (map pr_name l) -> NoDup (map pr_name (filter f l)).
Proof.
  induction l as [|x l IH]; simpl; intros H; [constructor |].
  inversion H as [|y ys Hnotin Hnd]; subst.
  destruct (f x); simpl; [| now apply IH].
  constructor; [| now apply IH].
  intros Hin. apply Hnotin. apply in_map_iff in Hin. destruct Hin as (r & Hr & Hin).
  apply filter_In in Hin. rewrite <- Hr. apply in_map. tauto.
Qed.

(** [update_payment_receipt] by a caller who passes its permission block, for
    a payment row of the clearance (row names being unique), succeeds and
    sets the attachment of that one row to the file given: every other
    payment row, of this clearance or of another, is as before.  The
    clearance itself goes through a full save, auto-promotion included. *)
Theorem update_payment_receipt_attaches
  (n target url : string) (st : Store) (c0 : CustomClearance) (p : PaymentRow) :
  session_user (site st) <> "Guest" ->
  lookup_clearance n (site st) = Some c0 ->
  require_linked_customer c0
    "You don't have permission to upload payment receipt for this Custom Clearance"
    (site st) = Ok (tt, site st) ->
  NoDup (map pr_name (tabCustomClearancePayment st)) ->
  In p (tabCustomClearancePayment st) ->
  pr_parent p = n ->
  pr_name p = target ->
  exists st',
    update_payment_receipt format_exc n target url st
    = Ok ({| success := true; message := "Payment receipt updated successfully" |}, st')
    /\ tabCustomClearancePayment st'
       = map (fun r => if (pr_parent r =? n) && (pr_name r =? target)
                       then set_pr_attachment r (Some url) else r)
             (tabCustomClearancePayment st)
    /\ lookup_clearance n (site st') = Some (auto_promote c0)
    /\ tabComment st' = tabComment st
    /\ tabToDo st' = tabToDo st.
Proof.
  intros Hg Hc0 Hperm Hnd Hin Hparent Hname.
  destruct (update_payment_receipt_start n target url st c0 Hg Hc0) as (logs & Hrun).
  rewrite Hrun. clear Hrun.
  assert (Hp : on_site (require_linked_customer c0
                 "You don't have permission to upload payment receipt for this Custom Clearance")
                 (relog st logs) = Ok (tt, relog st logs)).
  { apply on_site_readonly.
    change (site (relog st logs)) with (with_tabErrorLog (site st) logs).
    now rewrite require_linked_customer_relog, Hperm. }
  rewrite (rbind_ok _ _ _ _ _ Hp). rewrite rbind_rlog.
  match goal with
  | |- context [logged ?m ?t (relog st logs)] =>
      change (logged m t (relog st logs)) with (relog st (logs ++ [(m, t)])%list);
      set (logs2 := (logs ++ [(m, t)])%list)
  end.
  assert (Hmine : In p (payments_of n st)).
  { apply filter_In. split; [exact Hin |]. rewrite Hparent. apply String.eqb_refl. }
  assert (Hne : nonempty (payments_of n st) = true)
    by (destruct (payments_of n st); [contradiction | reflexivity]).
  rewrite Hne.
  destruct (attach_receipt_found (payments_of n st) target url st logs2 p
              (NoDup_map_filter _ _ Hnd) Hmine Hname) as (logs3 & Hloop).
  rewrite (rbind_ok _ _ _ _ _ Hloop). cbv beta iota. cbn [negb].
  rewrite rbind_rret.
  set (g := fun r => if pr_name r =? target then set_pr_attachment r (Some url) else r).
  assert (Hn0 : name c0 = n) by now apply lookup_clearance_name with (site st).
  assert (Hsave : forall stx, site stx = with_tabErrorLog (site st) (tabErrorLog (site stx)) ->
            on_site (save c0) stx
            = Ok (auto_promote c0, with_site stx (write_doc (auto_promote c0) (site stx)))).
  { intros stx Hsx. unfold on_site. rewrite save_unfold, Hn0.
    replace (lookup_clearance n (site stx)) with (Some c0)
      by (rewrite Hsx; symmetry; exact Hc0).
    now rewrite (validate_same_status c0 c0 eq_refl). }
  eexists. split.
  { apply rtry_ok. rewrite rbind_rlog. unfold save_with_payments.
    unfold rbind at 1. unfold rbind at 1.
    rewrite Hsave by reflexivity.
    reflexivity. }
  split.
  { cbn [tabCustomClearancePayment logged relog with_site
         with_tabCustomClearancePayment].
    apply map_ext_in. intros r Hr. rewrite Hn0.
    destruct (pr_parent r =? n) eqn:Hrp; [| reflexivity]. simpl.
    rewrite (find_by_name_in_map (payments_of n st) g r).
    - reflexivity.
    - intros q. unfold g. now destruct (pr_name q =? target).
    - now apply NoDup_map_filter.
    - apply filter_In. now split. }
  split.
  { cbn [site logged relog with_site with_tabCustomClearancePayment].
    rewrite <- Hn0, <- (auto_promote_name c0).
    match goal with
    | |- lookup_clearance _ (with_tabErrorLog (write_doc ?d ?s) _) = _ =>
        change (lookup_clearance (name d) (with_tabErrorLog (write_doc d s) _))
          with (lookup_clearance (name d) (write_doc d s))
    end.
    apply lookup_write_doc. }
  split; reflexivity.
Qed.

End PaymentReceiptFacts.

Lemma update_payment_receipt_row_not_found_witness :
  update_payment_receipt (fun e => exc_message e)
    "CC-0001" "pay-2" "/files/receipt.pdf" receipt_store
  = Raise (mk_exc ValidationError "Payment row not found").
Proof.
  apply (update_payment_receipt_row_not_found (fun e => exc_message e)
           "CC-0001" "pay-2" "/files/receipt.pdf" receipt_store
           (sample_clearance "CC-0001" "ACME" "In Review" None []));
    [cbv; discriminate | reflexivity | reflexivity |].
  intros p [<- | [<- | []]]; cbv; discriminate.
Defined.

Lemma update_payment_receipt_attaches_witness :
  exists st',
    update_payment_receipt (fun e => exc_message e)
      "CC-0001" "pay-3" "/files/receipt.pdf" receipt_store
    = Ok ({| success := true; message := "Payment receipt updated successfully" |}, st')
    /\ map pr_attachment (tabCustomClearancePayment st')
       = [None; None; Some "/files/receipt.pdf"].
Proof.
  destruct (update_payment_receipt_attaches (fun e => exc_message e)
              "CC-0001" "pay-3" "/files/receipt.pdf" receipt_store
              (sample_clearance "CC-0001" "ACME" "In Review" None [])
              (sample_payment "pay-3" "CC-0001"))
    as (st' & Hrun & Htab & _);
    try reflexivity; try (cbv; discriminate).
  - repeat constructor; cbv; intuition discriminate.
  - right. right. now left.
  - exists st'. split; [exact Hrun|]. now rewrite Htab.
Defined.

(** ** Callers the entry points turn away *)

Section Refusals.

Variable get_fullname : string -> Store -> string.
Variable format_value_currency : Q -> string.
Variable autoname_comment : Comment -> Store -> string.
Variable now : Store -> string.
Variable get_all_contact_by_link : string -> string -> Site -> result (list string).
Variable notification_log_checks : NotificationLog -> Site -> result unit.
Variable todo_checks : ToDo -> Store -> result unit.
Variable autoname_todo : ToDo -> Store -> string.
Variable str_amount : Q -> string.
Variable format_currency : Q -> string.
Variable format_exc : exception -> string.

(** A logged-in caller who is not the administrator and whose session does
    not resolve to the customer of the clearance (a staff user without a
    customer link, or a user of another customer) can neither comment, nor
    read the comments, nor attach a document, nor accept or decline one, nor
    upload a payment receipt: each of the five entry points raises its
    PermissionError. *)
Theorem customer_entry_points_refuse_other_callers
  (n text target url new_status : string) (extra : option Q)
  (attachment_url why : option string)
  (is_reupload : bool) (st : Store) (c0 : CustomClearance) (r : option string) :
  session_user (site st) <> "Guest" ->
  session_user (site st) <> "Administrator" ->
  lookup_clearance n (site st) = Some c0 ->
  linked_customer (session_user (site st)) (site st) = Ok (r, site st) ->
  truthy r && opt_eqb r (customer c0) = false ->
  add_comment get_fullname format_value_currency autoname_comment now
    n text extra attachment_url st
  = Raise (mk_exc PermissionError
             "You don't have permission to comment on this Custom Clearance")
  /\ get_comments n st
     = Raise (mk_exc PermissionError
                "You don't have permission to view comments for this Custom Clearance")
  /\ update_document_attachment n target url is_reupload (site st)
     = Raise (mk_exc PermissionError
                "You don't have permission to update this Custom Clearance")
  /\ update_document_status n target new_status why (site st)
     = Raise (mk_exc PermissionError
                "You don't have permission to update this Custom Clearance")
  /\ update_payment_receipt format_exc n target url st
     = Raise (mk_exc PermissionError
                "You don't have permission to upload payment receipt for this Custom Clearance").
Proof.
  intros Hg Ha Hc0 Hl Hr.
  pose proof (fun msg => require_linked_customer_refuses c0 msg (site st) r Ha Hl Hr)
    as Hrefuse.
  assert (Hget : on_site (get_doc n) st = Ok (c0, st)).
  { apply on_site_readonly. unfold get_doc. now rewrite Hc0. }
  pose proof Hg as Hg'. apply String.eqb_neq in Hg'.
  repeat split.
  - unfold add_comment. rewrite rbind_rgets. cbv beta. rewrite Hg'.
    unfold rwhen. rewrite rbind_rret. rewrite (rbind_ok _ _ _ _ _ Hget).
    apply rbind_raise. apply on_site_raise. apply Hrefuse.
  - unfold get_comments. rewrite rbind_rgets. cbv beta. rewrite Hg'.
    unfold rwhen. rewrite rbind_rret. rewrite (rbind_ok _ _ _ _ _ Hget).
    apply rbind_raise. apply on_site_raise. apply Hrefuse.
  - unfold update_document_attachment, bind, gets, get_doc. rewrite Hg'. simpl.
    rewrite Hc0. now rewrite Hrefuse.
  - pose proof Ha as Ha'. apply String.eqb_neq in Ha'.
    unfold update_document_status, bind, gets, get_doc. rewrite Hg'. simpl.
    rewrite Hc0. unfold document_status_permission, bind, gets. rewrite Ha'. simpl.
    rewrite Hl.
    destruct (truthy r), (opt_eqb r (customer c0)); try discriminate Hr; reflexivity.
  - destruct (update_payment_receipt_start format_exc n target url st c0 Hg Hc0)
      as (logs & Hrun).
    rewrite Hrun. apply rbind_raise. apply on_site_raise.
    change (site (relog st logs)) with (with_tabErrorLog (site st) logs).
    now rewrite require_linked_customer_relog, Hrefuse.
Qed.

(** A caller without a session ("Guest") is turned away by each of the eight
    entry points that test the session, with a PermissionError, before any
    clearance is looked up: the answer is the same for a clearance that
    exists and for one that does not. *)
Theorem guest_is_refused
  (n target st_new url text row payment_type : string) (why comment : option string)
  (extra new_amount : option Q) (branch account_number custom_id_code : option string)
  (attachment_url : option string) (is_reupload : bool) (pay : Q) (st : Store) :
  session_user (site st) = "Guest" ->
  update_document_attachment n target url is_reupload (site st)
  = Raise (mk_exc PermissionError "Please login to upload documents")
  /\ update_document_status n target st_new why (site st)
     = Raise (mk_exc PermissionError "Please login to update document status")
  /\ update_clearance_status n st_new comment extra (site st)
     = Raise (mk_exc PermissionError "Please login to update status")
  /\ save_payment_info get_all_contact_by_link notification_log_checks
       n payment_type new_amount branch account_number custom_id_code (site st)
     = Raise (mk_exc PermissionError "Please login to save payment information")
  /\ add_comment get_fullname format_value_currency autoname_comment now
       n text extra attachment_url st
     = Raise (mk_exc PermissionError "Please login to add comments")
  /\ get_comments n st
     = Raise (mk_exc PermissionError "Please login to view comments")
  /\ send_payment_notification get_all_contact_by_link todo_checks autoname_todo
       str_amount format_currency format_exc
       n row payment_type pay branch account_number custom_id_code st
     = Raise (mk_exc PermissionError "Please login to send notifications")
  /\ update_payment_receipt format_exc n target url st
     = Raise (mk_exc PermissionError "Please login to upload payment receipt").
Proof.
  intros Hguest. repeat split.
  - unfold update_document_attachment, bind, gets. now rewrite Hguest.
  - unfold update_document_status, bind, gets. now rewrite Hguest.
  - unfold update_clearance_status, bind, gets. now rewrite Hguest.
  - unfold save_payment_info, bind, gets. now rewrite Hguest.
  - unfold add_comment. rewrite rbind_rgets. cbv beta. now rewrite Hguest.
  - unfold get_comments. rewrite rbind_rgets. cbv beta. now rewrite Hguest.
  - unfold send_payment_notification. rewrite rbind_rgets. cbv beta.
    rewrite rbind_rlog. now rewrite Hguest.
  - unfold update_payment_receipt. rewrite rbind_rgets. cbv beta.
    rewrite rbind_rlog. now rewrite Hguest.
Qed.

End Refusals.

Lemma customer_entry_points_refuse_other_callers_witness :
  add_comment (fun u _ => u) (fun _ => "1,500.00") (fun _ _ => "cmt-0001")
    (fun _ => "2026-01-15 10:00:00")
    "CC-0001" "Any news?" None None (sample_store other_customer_site)
  = Raise (mk_exc PermissionError
             "You don't have permission to comment on this Custom Clearance")
  /\ get_comments "CC-0001" (sample_store other_customer_site)
     = Raise (mk_exc PermissionError
                "You don't have permission to view comments for this Custom Clearance")
  /\ update_document_attachment "CC-0001" "r1" "/files/bill.pdf" false
       other_customer_site
     = Raise (mk_exc PermissionError
                "You don't have permission to update this Custom Clearance")
  /\ update_document_status "CC-0001" "r1" "Accepted" None other_customer_site
     = Raise (mk_exc PermissionError
                "You don't have permission to update this Custom Clearance")
  /\ update_payment_receipt (fun e => exc_message e)
       "CC-0001" "r1" "/files/bill.pdf" (sample_store other_customer_site)
     = Raise (mk_exc PermissionError
                "You don't have permission to upload payment receipt for this Custom Clearance").
Proof.
  apply (customer_entry_points_refuse_other_callers
           (fun u _ => u) (fun _ => "1,500.00") (fun _ _ => "cmt-0001")
           (fun _ => "2026-01-15 10:00:00") (fun e => exc_message e)
           "CC-0001" "Any news?" "r1" "/files/bill.pdf" "Accepted" None None None false
           (sample_store other_customer_site)
           (sample_clearance "CC-0001" "ACME" "Document Submitting" None [])
           (Some "OTHER"));
    try reflexivity; cbv; discriminate.
Defined.

Lemma guest_is_refused_witness :
  update_clearance_status "CC-0001" "Cleared" None None (sample_site "Guest" [guard_prev])
  = Raise (mk_exc PermissionError "Please login to update status")
  /\ get_comments "CC-0001" (sample_store (sample_site "Guest" [guard_prev]))
     = Raise (mk_exc PermissionError "Please login to view comments")
  /\ get_comments "CC-0404" (sample_store (sample_site "Guest" [guard_prev]))
     = Raise (mk_exc PermissionError "Please login to view comments").
Proof.
  destruct (guest_is_refused
              (fun u _ => u) (fun _ => "1,500.00") (fun _ _ => "cmt-0001")
              (fun _ => "2026-01-15 10:00:00")
              (fun _ _ _ => Ok []) failing_checks (fun _ _ => Ok tt)
              (fun _ _ => "todo-0001") (fun _ => "1500.0") (fun _ => "1,500.00")
              (fun e => exc_message e)
              "CC-0001" "r1" "Cleared" "/files/bill.pdf" "Any news?" "pay-1" "first"
              None None None None None None None None false (1500 # 1)%Q
              (sample_store (sample_site "Guest" [guard_prev])) eq_refl)
    as (_ & _ & Hstatus & _ & _ & Hget & _).
  destruct (guest_is_refused
              (fun u _ => u) (fun _ => "1,500.00") (fun _ _ => "cmt-0001")
              (fun _ => "2026-01-15 10:00:00")
              (fun _ _ _ => Ok []) failing_checks (fun _ _ => Ok tt)
              (fun _ _ => "todo-0001") (fun _ => "1500.0") (fun _ => "1,500.00")
              (fun e => exc_message e)
              "CC-0404" "r1" "Cleared" "/files/bill.pdf" "Any news?" "pay-1" "first"
              None None None None None None None None false (1500 # 1)%Q
              (sample_store (sample_site "Guest" [guard_prev])) eq_refl)
    as (_ & _ & _ & _ & _ & Hget' & _).
  repeat split; assumption.
Defined.

(** ** Installation *)

Lemma service_item_group_run (st : Store) :
  exists g, service_item_group st = Ok (g, st).
Proof.
  unfold service_item_group. rewrite rbind_rgets. cbv beta.
  destruct (find (fun g => ig_name g =? "Services") (tabItemGroup st)) as [g|];
    cbn [option_map].
  - destruct (negb (truthy (Some (ig_name g)))).
    + rewrite rbind_rgets. cbv beta.
      destruct (find (fun g => negb (is_group g)) (tabItemGroup st)) as [l|];
        cbn [option_map].
      * destruct (negb (truthy (Some (ig_name l)))); eexists; reflexivity.
      * eexists; reflexivity.
    + eexists; reflexivity.
  - rewrite rbind_rgets. cbv beta.
    destruct (find (fun g => negb (is_group g)) (tabItemGroup st)) as [l|];
      cbn [option_map].
    + destruct (negb (truthy (Some (ig_name l)))); eexists; reflexivity.
    + eexists; reflexivity.
Qed.

Section SetupFacts.

Variable autoname_item : string -> ItemDetail -> Store -> string.
Variable autoname_template : CustomClearanceTemplate -> Store -> string.

(** [create_service_item] always succeeds; it leaves a store that has the
    item untouched, and otherwise appends one item under the name the
    framework gives it, changing nothing else on the site. *)
Lemma create_service_item_run (st : Store) :
  exists st1,
    create_service_item autoname_item st = Ok (tt, st1)
    /\ tabCustomClearanceTemplate st1 = tabCustomClearanceTemplate st
    /\ (exists_item "Custom Clearance Service" st = true -> st1 = st)
    /\ (exists_item "Custom Clearance Service" st = false ->
        exists d,
          site st1
          = with_tabItem (site st)
              (tabItem (site st) ++
               [ {| item_name := autoname_item "Custom Clearance Service" d st;
                    item_code := "Custom Clearance Service" |} ])%list).
Proof.
  unfold create_service_item. rewrite rbind_rgets. cbv beta.
  destruct (exists_item "Custom Clearance Service" st) eqn:Hex; cbn [negb].
  - exists st. repeat split; try reflexivity. discriminate.
  - destruct (service_item_group_run st) as (g & Hg).
    rewrite (rbind_ok _ _ _ _ _ Hg).
    eexists. split; [reflexivity|].
    split; [reflexivity|]. split; [discriminate|].
    intros _. eexists. reflexivity.
Qed.

Lemma find_app_absent {A : Type} (p : A -> bool) (l l' : list A) :
  existsb p l = false -> find p (l ++ l')%list = find p l'.
Proof.
  induction l as [|x l IH]; cbn [existsb find app]; [reflexivity|].
  intros H. apply orb_false_iff in H as (Hx & Hl). rewrite Hx. now apply IH.
Qed.

Lemma insert_template_run (doc : CustomClearanceTemplate) (msg : string) (st : Store) :
  exists st1,
    rbind (insert_template autoname_template doc)
      (fun _ => rbind (on_site db_commit) (fun _ => msgprint msg)) st
    = Ok (tt, st1)
    /\ site st1 = site st
    /\ tabCustomClearanceTemplate st1
       = (tabCustomClearanceTemplate st
          ++ [named_template doc (autoname_template doc st)])%list.
Proof. eexists. split; [reflexivity|]. split; reflexivity. Qed.

(** [create_default_templates] always succeeds, touches only the template
    table and the message log, and appends exactly the templates that were
    missing. *)
Lemma create_default_templates_run (st : Store) :
  (forall t st, autoname_template t st = template_name t) ->
  exists st1,
    create_default_templates autoname_template st = Ok (tt, st1)
    /\ site st1 = site st
    /\ tabCustomClearanceTemplate st1
       = (tabCustomClearanceTemplate st
          ++ (if exists_template "Sea Shipping Template" st then []
              else [named_template sea_template "Sea Shipping Template"])
          ++ (if exists_template "Air Shipping Template" st then []
              else [named_template air_template "Air Shipping Template"]))%list
    /\ (exists_template "Sea Shipping Template" st = true ->
        exists_template "Air Shipping Template" st = true -> st1 = st).
Proof.
  intros Hname.
  unfold create_default_templates. rewrite rbind_rgets. cbv beta.
  destruct (exists_template "Sea Shipping Template" st) eqn:Hsea; cbn [negb].
  - rewrite rbind_rret, rbind_rgets. cbv beta.
    destruct (exists_template "Air Shipping Template" st) eqn:Hair; cbn [negb].
    + exists st. rewrite !app_nil_r. repeat split; reflexivity.
    + destruct (insert_template_run air_template "Created Air Shipping Template" st)
        as (st1 & Hrun & Hsite & Htab).
      exists st1. rewrite Hrun, Hsite, Htab, Hname.
      repeat split; try reflexivity; discriminate.
  - destruct (insert_template_run sea_template "Created Sea Shipping Template" st)
      as (st1 & Hrun & Hsite & Htab).
    rewrite Hname in Htab.
    rewrite (rbind_ok _ _ _ _ _ Hrun), rbind_rgets. cbv beta.
    assert (Hair1 : exists_template "Air Shipping Template" st1
                    = exists_template "Air Shipping Template" st).
    { unfold exists_template. rewrite Htab, existsb_app.
      cbn. now rewrite orb_false_r. }
    rewrite Hair1.
    destruct (exists_template "Air Shipping Template" st) eqn:Hair; cbn [negb].
    + exists st1. rewrite Hsite, Htab.
      repeat split; try reflexivity; discriminate.
    + destruct (insert_template_run air_template "Created Air Shipping Template" st1)
        as (st2 & Hrun2 & Hsite2 & Htab2).
      exists st2. rewrite Hrun2, Hsite2, Htab2, Hsite, Htab, Hname, <- app_assoc.
      repeat split; try reflexivity; discriminate.
Qed.

Lemma exists_template_after (n : string) (st st1 : Store) :
  (n = "Sea Shipping Template" \/ n = "Air Shipping Template") ->
  tabCustomClearanceTemplate st1
  = (tabCustomClearanceTemplate st
     ++ (if exists_template "Sea Shipping Template" st then []
         else [named_template sea_template "Sea Shipping Template"])
     ++ (if exists_template "Air Shipping Template" st then []
         else [named_template air_template "Air Shipping Template"]))%list ->
  exists_template n st1 = true.
Proof.
  intros Hn Htab. unfold exists_template at 1. rewrite Htab, !existsb_app.
  fold (exists_template n st).
  destruct Hn as [-> | ->].
  - destruct (exists_template "Sea Shipping Template" st); [reflexivity|].
    cbn. now rewrite ?orb_true_r.
  - destruct (exists_template "Air Shipping Template" st);
      [now rewrite ?orb_true_r|].
    destruct (exists_template "Sea Shipping Template" st); cbn;
      now rewrite ?orb_true_r.
Qed.

(** The installation hook always succeeds and leaves the service item and
    both default templates in place; provided the framework names an item
    by its code and a template by its template name, running the hook again
    changes nothing at all: no second item, no second template, no second
    message. *)
Theorem after_install_idempotent (st : Store) :
  (forall d st, autoname_item "Custom Clearance Service" d st
                = "Custom Clearance Service") ->
  (forall t st, autoname_template t st = template_name t) ->
  exists st1,
    after_install autoname_item autoname_template st = Ok (tt, st1)
    /\ exists_item "Custom Clearance Service" st1 = true
    /\ exists_template "Sea Shipping Template" st1 = true
    /\ exists_template "Air Shipping Template" st1 = true
    /\ after_install autoname_item autoname_template st1 = Ok (tt, st1).
Proof.
  intros Hitem Htpl.
  destruct (create_service_item_run st) as (st1 & Hrun1 & Htab1 & Hkeep & Hnew).
  destruct (create_default_templates_run st1 Htpl) as (st2 & Hrun2 & Hsite2 & Htab2 & _).
  assert (Hex1 : exists_item "Custom Clearance Service" st1 = true).
  { destruct (exists_item "Custom Clearance Service" st) eqn:Hex.
    - now rewrite (Hkeep eq_refl).
    - destruct (Hnew eq_refl) as (d & Hsite). unfold exists_item.
      rewrite Hsite. cbn [tabItem with_tabItem]. rewrite existsb_app.
      cbn [existsb item_name]. rewrite Hitem. cbn. now rewrite orb_true_r. }
  assert (Hex2 : exists_item "Custom Clearance Service" st2 = true).
  { unfold exists_item. rewrite Hsite2. exact Hex1. }
  assert (Hsea : exists_template "Sea Shipping Template" st2 = true).
  { apply (exists_template_after _ st1); [now left | exact Htab2]. }
  assert (Hair : exists_template "Air Shipping Template" st2 = true).
  { apply (exists_template_after _ st1); [now right | exact Htab2]. }
  exists st2. split.
  { unfold after_install. now rewrite (rbind_ok _ _ _ _ _ Hrun1). }
  repeat split; try assumption.
  destruct (create_service_item_run st2) as (st3 & Hrun3 & _ & Hkeep3 & _).
  rewrite (Hkeep3 Hex2) in Hrun3.
  destruct (create_default_templates_run st2 Htpl) as (st4 & Hrun4 & _ & _ & Hkeep4).
  rewrite (Hkeep4 Hsea Hair) in Hrun4.
  unfold after_install. now rewrite (rbind_ok _ _ _ _ _ Hrun3).
Qed.

(** After [create_default_templates] on a site that had neither default
    template (the framework naming a template by its template name),
    [get_template_documents] reads the sea template back as its twelve rows
    and the air template as its eleven rows, in order and all of them
    mandatory, without changing the store. *)
Theorem create_default_templates_then_get_template_documents (st : Store) :
  (forall t st, autoname_template t st = template_name t) ->
  exists_template "Sea Shipping Template" st = false ->
  exists_template "Air Shipping Template" st = false ->
  exists st1 sea air,
    create_default_templates autoname_template st = Ok (tt, st1)
    /\ get_template_documents (Some "Sea Shipping Template") st1 = Ok (sea, st1)
    /\ get_template_documents (Some "Air Shipping Template") st1 = Ok (air, st1)
    /\ map tdi_document_name sea = map td_document_name sea_documents
    /\ map tdi_document_name air = map td_document_name air_documents
    /\ map tdi_has_sub_items sea = map td_has_sub_items sea_documents
    /\ map tdi_has_sub_items air = map td_has_sub_items air_documents
    /\ map tdi_sub_items sea = map td_sub_items sea_documents
    /\ map tdi_sub_items air = map td_sub_items air_documents
    /\ forallb tdi_is_required (sea ++ air) = true.
Proof.
  intros Htpl Hsea Hair.
  destruct (create_default_templates_run st Htpl) as (st1 & Hrun & _ & Htab & _).
  rewrite Hsea, Hair in Htab.
  assert (Hfind_sea :
    find (fun t => tpl_name t =? "Sea Shipping Template") (tabCustomClearanceTemplate st1)
    = Some (named_template sea_template "Sea Shipping Template")).
  { rewrite Htab. now rewrite (find_app_absent _ _ _ Hsea). }
  assert (Hfind_air :
    find (fun t => tpl_name t =? "Air Shipping Template") (tabCustomClearanceTemplate st1)
    = Some (named_template air_template "Air Shipping Template")).
  { rewrite Htab. now rewrite (find_app_absent _ _ _ Hair). }
  exists st1. eexists. eexists. split; [exact Hrun|].
  split.
  { unfold get_template_documents.
    change (truthy (Some "Sea Shipping Template")) with true. cbn [negb].
    unfold rbind, get_doc_template. now rewrite Hfind_sea. }
  split.
  { unfold get_template_documents.
    change (truthy (Some "Air Shipping Template")) with true. cbn [negb].
    unfold rbind, get_doc_template. now rewrite Hfind_air. }
  repeat split; reflexivity.
Qed.

End SetupFacts.

Lemma after_install_idempotent_witness :
  exists st1,
    after_install (fun code _ _ => code) (fun t _ => template_name t)
      (sample_store no_item_site) = Ok (tt, st1)
    /\ exists_item "Custom Clearance Service" st1 = true
    /\ exists_template "Sea Shipping Template" st1 = true
    /\ exists_template "Air Shipping Template" st1 = true
    /\ after_install (fun code _ _ => code) (fun t _ => template_name t) st1
       = Ok (tt, st1).
Proof.
  apply (after_install_idempotent (fun code _ _ => code) (fun t _ => template_name t)
           (sample_store no_item_site)); reflexivity.
Defined.

Lemma create_default_templates_then_get_template_documents_witness :
  exists st1 sea air,
    create_default_templates (fun t _ => template_name t) (sample_store no_item_site)
    = Ok (tt, st1)
    /\ get_template_documents (Some "Sea Shipping Template") st1 = Ok (sea, st1)
    /\ get_template_documents (Some "Air Shipping Template") st1 = Ok (air, st1)
    /\ length sea = 12
    /\ length air = 11.
Proof.
  destruct (create_default_templates_then_get_template_documents
              (fun t _ => template_name t) (sample_store no_item_site))
    as (st1 & sea & air & Hrun & Hsea & Hair & Hn1 & Hn2 & _);
    try reflexivity.
  exists st1, sea, air. repeat split; try assumption.
  - rewrite <- (length_map tdi_document_name), Hn1. reflexivity.
  - rewrite <- (length_map tdi_document_name), Hn2. reflexivity.
Defined.

Section ServiceItemFacts.

Variable autoname_item : string -> ItemDetail -> Store -> string.
Variable autoname : SalesInvoice -> Site -> string.
Variable get_desk_link : string -> string -> string.

Lemma find_item_by_code (l : list Item) (code : string) :
  (forall i, In i l -> item_name i = item_code i) ->
  existsb (fun i => item_name i =? code) l = true ->
  exists i, find (fun i => item_code i =? code) l = Some i /\ item_name i = code.
Proof.
  induction l as [|x l IH]; cbn [existsb find]; [discriminate|].
  intros Hinv Hex.
  destruct (item_code x =? code) eqn:Hx.
  - exists x. split; [reflexivity|].
    rewrite (Hinv x (or_introl eq_refl)). now apply String.eqb_eq.
  - rewrite (Hinv x (or_introl eq_refl)), Hx in Hex. cbn [orb] in Hex.
    apply IH; [|exact Hex]. intros i Hi. apply Hinv. now right.
Qed.

(** On a site whose items are named by their code (the ERPNext default, for
    the items there and for the one the hook inserts), [create_service_item]
    provides what [create_sales_invoice] looks up: afterwards the invoice
    of any clearance that has none yet is created, with the item "Custom
    Clearance Service", and linked on the clearance. *)
Theorem create_service_item_enables_create_sales_invoice
  (n : string) (st : Store) (c0 : CustomClearance) :
  (forall i, In i (tabItem (site st)) -> item_name i = item_code i) ->
  (forall d st, autoname_item "Custom Clearance Service" d st
                = "Custom Clearance Service") ->
  lookup_clearance n (site st) = Some c0 ->
  truthy (sales_invoice c0) = false ->
  exists st1,
    create_service_item autoname_item st = Ok (tt, st1)
    /\ let draft :=
         new_sales_invoice c0 "Custom Clearance Service" (today (site st))
           (sales_invoice_has_custom_custom_clearance (site st)) in
       let inv := autoname draft (site st1) in
       create_sales_invoice autoname get_desk_link n (site st1)
       = Ok (inv,
             update_row n (fun c => set_sales_invoice c (Some inv))
               (with_tabSalesInvoice (site st1)
                  (tabSalesInvoice (site st1) ++ [with_si_name draft inv])%list)).
Proof.
  intros Hinv Hitem Hc0 Hno.
  destruct (create_service_item_run autoname_item st) as (st1 & Hrun & _ & Hkeep & Hnew).
  exists st1. split; [exact Hrun|].
  assert (Hsite : lookup_clearance n (site st1) = Some c0
                  /\ today (site st1) = today (site st)
                  /\ sales_invoice_has_custom_custom_clearance (site st1)
                     = sales_invoice_has_custom_custom_clearance (site st)
                  /\ exists i,
                       find (fun i => item_code i =? "Custom Clearance Service")
                         (tabItem (site st1)) = Some i
                       /\ item_name i = "Custom Clearance Service").
  { destruct (exists_item "Custom Clearance Service" st) eqn:Hex.
    - rewrite (Hkeep eq_refl). repeat split; try assumption.
      now apply find_item_by_code.
    - destruct (Hnew eq_refl) as (d & ->).
      repeat split; try assumption.
      cbn [tabItem with_tabItem]. apply find_item_by_code.
      + intros i Hi. apply in_app_or in Hi as [Hi | [<- | []]].
        * now apply Hinv.
        * cbn. apply Hitem.
      + rewrite existsb_app. cbn [existsb item_name]. rewrite Hitem.
        cbn. now rewrite orb_true_r. }
  destruct Hsite as (Hc1 & Htoday & Hflag & i & Hfind & Hname).
  cbv zeta.
  rewrite (create_sales_invoice_run autoname get_desk_link n (site st1) c0 i Hc1 Hno Hfind).
  - cbv zeta. now rewrite Hname, Htoday, Hflag.
  - rewrite Hname. discriminate.
Qed.

End ServiceItemFacts.

Lemma create_service_item_enables_create_sales_invoice_witness :
  exists st1 s2,
    create_service_item (fun code _ _ => code) (sample_store no_item_site) = Ok (tt, st1)
    /\ create_sales_invoice (fun _ _ => "ACC-SINV-2026-00001") (fun _ n => n)
         "CC-0001" (site st1) = Ok ("ACC-SINV-2026-00001", s2)
    /\ create_sales_invoice (fun _ _ => "ACC-SINV-2026-00001") (fun _ n => n)
         "CC-0001" no_item_site
       = Raise (mk_exc ValidationError
                  "Custom Clearance Service item not found. Please ensure it is created during app installation.").
Proof.
  destruct (create_service_item_enables_create_sales_invoice
              (fun code _ _ => code) (fun _ _ => "ACC-SINV-2026-00001") (fun _ n => n)
              "CC-0001" (sample_store no_item_site)
              (sample_clearance "CC-0001" "ACME" "In Review" None []))
    as (st1 & Hrun & Hinv);
    try reflexivity.
  - intros i [].
  - exists st1. eexists. split; [exact Hrun|]. split; [exact Hinv | reflexivity].
Defined.

(** ** The portal route *)

Lemma split_no_char (c : ascii) (s : string) :
  no_char c s = true -> split c s = [s].
Proof.
  induction s as [|a s IH]; cbn [no_char split]; [reflexivity|].
  intros H. apply andb_true_iff in H as (Ha & Hs).
  apply negb_true_iff in Ha. rewrite Ha, (IH Hs). reflexivity.
Qed.

Lemma rstrip_no_char (c : ascii) (s : string) :
  no_char c s = true -> rstrip c s = s.
Proof.
  induction s as [|a s IH]; cbn [no_char rstrip]; [reflexivity|].
  intros H. apply andb_true_iff in H as (Ha & Hs).
  apply negb_true_iff in Ha. cbv zeta. rewrite Ha, (IH Hs). reflexivity.
Qed.

Lemma rstrip_app (c : ascii) (p s : string) :
  rstrip c s = s -> s <> "" -> rstrip c (p ++ s) = p ++ s.
Proof.
  intros Hs Hne. induction p as [|a p IH]; [exact Hs|].
  cbn [append rstrip]. cbv zeta. rewrite IH.
  destruct (p ++ s) eqn:Hps.
  - destruct p; [now subst | discriminate].
  - cbn [String.eqb]. now rewrite andb_false_r.
Qed.

Section PortalRouteFacts.

Variable Context : Type.
Variable get_detail_context : Context -> string -> R Context.
Variable get_list_context : Context -> R Context.

(** For a logged-in user, the path "/custom_clearances/<name>" (with a
    non-empty name free of "/") opens the detail page exactly when a
    clearance of that name exists and the name is neither "index" nor
    "list"; in every other case the list page is built.  In particular a
    clearance that happens to be named "index" or "list" cannot be opened
    through this route. *)
Theorem get_context_detail_route (context : Context) (n : string) (st : Store) :
  session_user (site st) <> "Guest" ->
  n <> "" ->
  no_char "/" n = true ->
  get_context Context get_detail_context get_list_context
    context ("/custom_clearances/" ++ n) st
  = if str_in n ["index"; "list"] then Built (get_list_context context st)
    else match lookup_clearance n (site st) with
         | Some _ => Built (get_detail_context context n st)
         | None => Built (get_list_context context st)
         end.
Proof.
  intros Hg Hn Hns. apply String.eqb_neq in Hg.
  unfold get_context. rewrite Hg.
  assert (Hstrip : strip "/" ("/custom_clearances/" ++ n) = "custom_clearances/" ++ n).
  { unfold strip. cbn [append lstrip Ascii.eqb Bool.eqb].
    apply (rstrip_app "/" "custom_clearances/" n); [|exact Hn].
    now apply rstrip_no_char. }
  rewrite Hstrip.
  assert (Hsplit : split "/" ("custom_clearances/" ++ n) = ["custom_clearances"; n]).
  { cbn [append split Ascii.eqb Bool.eqb]. now rewrite (split_no_char _ _ Hns). }
  rewrite Hsplit. cbv zeta.
  change (str_in "custom_clearances" ["custom_clearances"; n]) with true.
  change (index_of "custom_clearances" ["custom_clearances"; n]) with 0.
  cbn [Nat.add length Nat.ltb Nat.leb nth].
  apply String.eqb_neq in Hn. rewrite Hn. cbn [negb andb].
  unfold str_in. cbn [existsb]. rewrite Hn. cbn [orb].
  destruct (n =? "index"); [reflexivity|].
  destruct (n =? "list"); reflexivity.
Qed.

End PortalRouteFacts.

Lemma get_context_detail_route_witness :
  get_context unit (fun _ n st => Ok (tt, st)) (fun _ st => Ok (tt, st))
    tt "/custom_clearances/CC-0001" (sample_store portal_site)
  = Built (Ok (tt, sample_store portal_site)).
Proof.
  apply (get_context_detail_route unit (fun _ n st => Ok (tt, st)) (fun _ st => Ok (tt, st))
           tt "CC-0001" (sample_store portal_site));
    try reflexivity; cbv; discriminate.
Defined.
